(** * AllSensesAI emergency-alert handlers: a shallow embedding

    The repository is a family of AWS Lambda handlers written in Python.
    Each handler parses an HTTP-style event, branches on its [action] and
    composes and dispatches an SMS through a messaging provider, optionally
    persisting incident and location records in a key-value store.

    Modelling choices, shared by all modules below.

    - A Python [str] is a list of Unicode code points ([ustring]).  The
      string methods used by the handlers ([strip], [replace] of one
      character by the empty string, [startswith], [upper], slicing) are
      functions on such lists.
    - A Python dictionary built by the code is an association list in the
      order of the dictionary display ([dict]); its values are [json]
      values.
    - The request body is a record of typed optional fields: a field is
      either absent or carries a value of the type the handlers expect.
    - External collaborators (messaging providers, the key-value store, the
      clock, the UUID generator, the JSON parser) are an explicit [world]
      consulted by position; everything a handler does to them is recorded
      in the [state]: the provider calls and the error/warning log lines in
      [st_events], the tables in [st_incidents] and [st_locations].
      Info-level log lines have no influence on any result and are not
      recorded.
    - Exceptions and clock readings are opaque Python objects; they are
      modelled by the observations the code makes of them ([str(e)],
      [type(e).__name__], [isoformat()], [timestamp()], ...).
    - Handlers are computations in the monad [M] (state passing with
      exceptions); [try ... except Exception] is [try_except]. *)

From Stdlib Require Import String Ascii NArith ZArith QArith Lia.
From Stdlib Require Import DecimalString.
From Stdlib Require Import Floats.
From stdpp Require Import base option list sorting gmap.

Open Scope string_scope.
Open Scope Z_scope.
Open Scope list_scope.

(* ================================================================== *)
(** * Python strings *)
(* ================================================================== *)

(** A Python string: the sequence of its code points. *)
Definition ustring : Type := list N.

(** A literal whose characters are all ASCII. *)
Definition u (s : string) : ustring :=
  List.map N_of_ascii (list_ascii_of_string s).
Arguments u : simpl never.

(** [str.isspace] for one character (the white-space code points of the
    Unicode database CPython uses). *)
Definition isspace (c : N) : bool :=
  ((9 <=? c) && (c <=? 13) || (28 <=? c) && (c <=? 32)
   || (c =? 133) || (c =? 160) || (c =? 5760)
   || (8192 <=? c) && (c <=? 8202)
   || (c =? 8232) || (c =? 8233) || (c =? 8239) || (c =? 8287)
   || (c =? 12288))%N.

(** The ASCII digits [0-9]. *)
Definition is_ascii_digit (c : N) : bool := ((48 <=? c) && (c <=? 57))%N.

(** First code points of the runs of ten consecutive decimal digits of
    general category Nd (Unicode 14, as in CPython 3.11); the run of
    mathematical digits at 120782 is fifty code points long. *)
Definition Nd_runs : list N :=
  [48; 1632; 1776; 1984; 2406; 2534; 2662; 2790; 2918; 3046; 3174; 3302;
   3430; 3558; 3664; 3792; 3872; 4160; 4240; 6112; 6160; 6470; 6608; 6784;
   6800; 6992; 7088; 7232; 7248; 42528; 43216; 43264; 43472; 43504; 43600;
   44016; 65296; 66720; 68912; 69734; 69872; 69942; 70096; 70384; 70736;
   70864; 71248; 71360; 71472; 71904; 72016; 72784; 73040; 73120; 92768;
   92864; 93008; 120782; 120792; 120802; 120812; 120822; 123200; 123632;
   125264; 130032]%N.

(** The class [\d] of the [re] module on [str] patterns: any Unicode
    decimal digit. *)
Definition is_decimal (c : N) : bool :=
  existsb (fun lo => (lo <=? c) && (c <? lo + 10))%N Nd_runs.

(** [s.lstrip()], [s.rstrip()] and [s.strip()] without argument. *)
Fixpoint lstrip (s : ustring) : ustring :=
  match s with
  | c :: s' => if isspace c then lstrip s' else s
  | [] => []
  end.

Fixpoint rstrip (s : ustring) : ustring :=
  match s with
  | [] => []
  | c :: s' =>
      match rstrip s' with
      | [] => if isspace c then [] else [c]
      | r => c :: r
      end
  end.

Definition strip (s : ustring) : ustring := rstrip (lstrip s).

(** [s.replace(c, '')] for a one-character string [c]. *)
Definition remove_char (c : N) (s : ustring) : ustring :=
  List.filter (fun x => negb (x =? c)%N) s.

(** [s.startswith(p)]. *)
Fixpoint startswith (s p : ustring) {struct p} : bool :=
  match p, s with
  | [], _ => true
  | c :: p', d :: s' => (c =? d)%N && startswith s' p'
  | _ :: _, [] => false
  end.

(** [s.upper()] of an ASCII string.  The handlers apply it to hexadecimal
    digits ([uuid4().hex]); for strings that may hold other characters see
    [str_upper]. *)
Definition upper_char (c : N) : N :=
  if ((97 <=? c) && (c <=? 122))%N then (c - 32)%N else c.

Definition upper (s : ustring) : ustring := List.map upper_char s.

(** [len(s)]. *)
Definition len (s : ustring) : Z := Z.of_nat (length s).

(** [sep.join(parts)]. *)
Fixpoint join (sep : ustring) (parts : list ustring) : ustring :=
  match parts with
  | [] => []
  | [p] => p
  | p :: ps => p ++ sep ++ join sep ps
  end.

(** [str(n)] of an integer. *)
Definition str_of_Z (z : Z) : ustring :=
  List.map N_of_ascii
    (list_ascii_of_string (NilZero.string_of_int (Z.to_int z))).
Arguments str_of_Z : simpl never.

(** Code points of characters used as literals. *)
Definition ch_space : N := 32%N.
Definition ch_dash : N := 45%N.
Definition ch_lparen : N := 40%N.
Definition ch_rparen : N := 41%N.
Definition ch_plus : N := 43%N.
Definition ch_newline : N := 10%N.

(** [uuid.uuid4().hex]: thirty-two lower-case hexadecimal digits. *)
Definition hex_digit (d : N) : N :=
  if (d <? 10)%N then (48 + d)%N else (87 + d)%N.

Fixpoint hex_digits (n : nat) (v : N) (acc : ustring) : ustring :=
  match n with
  | O => acc
  | S n' => hex_digits n' (v / 16)%N (hex_digit (v mod 16)%N :: acc)
  end.

Definition uuid_hex (v : N) : ustring := hex_digits 32 v [].
Arguments uuid_hex : simpl never.

(* ================================================================== *)
(** * Python values and dictionaries *)
(* ================================================================== *)

(** [JInt] is a Python [int]; [JNum] is a number that is not an [int],
    by value: in what the code builds from a request it is a Python
    [float]. *)
#[warnings="-register-all"]
Inductive json : Type :=
| JNull
| JBool (b : bool)
| JInt (z : Z)
| JNum (q : Q)
| JStr (s : ustring)
| JList (l : list json)
| JDict (d : list (string * json)).

Definition dict : Type := list (string * json).

(** [d.get(k)] as an option, the first binding of [k]. *)
Fixpoint dict_get (k : string) (d : dict) : option json :=
  match d with
  | [] => None
  | (k', v) :: d' => if String.eqb k k' then Some v else dict_get k d'
  end.

(** [d.get(k)]: [None] when the key is missing. *)
Definition get (k : string) (d : dict) : json := default JNull (dict_get k d).

(** [{k: v for k, v in d.items() if v is not None}]. *)
Definition drop_none (d : dict) : dict :=
  List.filter (fun kv => match snd kv with JNull => false | _ => true end) d.

(** [d[k] = v]: an existing key keeps its place, a new key goes last. *)
Fixpoint dict_set (k : string) (v : json) (d : dict) : dict :=
  match d with
  | [] => [(k, v)]
  | (k', v') :: d' =>
      if String.eqb k k' then (k, v) :: d' else (k', v') :: dict_set k v d'
  end.

Definition opt_str (o : option ustring) : json :=
  match o with Some s => JStr s | None => JNull end.

Definition opt_num (o : option Q) : json :=
  match o with Some q => JNum q | None => JNull end.

Definition opt_int (o : option Z) : json :=
  match o with Some z => JInt z | None => JNull end.

(** A Python float occurs in a value. *)
Fixpoint json_has_float (j : json) : bool :=
  match j with
  | JNum _ => true
  | JList l =>
      (fix go (l : list json) : bool :=
         match l with
         | [] => false
         | x :: l' => json_has_float x || go l'
         end) l
  | JDict d =>
      (fix go (d : list (string * json)) : bool :=
         match d with
         | [] => false
         | (_, x) :: d' => json_has_float x || go d'
         end) d
  | _ => false
  end.

(** Truth value of a number: non-zero. *)
Definition num_truthy (q : Q) : bool := negb (Qnum q =? 0).

(** Truth value of a string: non-empty. *)
Definition str_truthy (s : ustring) : bool :=
  match s with [] => false | _ => true end.

(* ================================================================== *)
(** * Requests and responses *)
(* ================================================================== *)

(** [location] object of a request.  Its numbers are Python floats, as
    [json.loads] yields for coordinates written with a fraction. *)
Record location : Type := Location {
  loc_latitude : option Q;
  loc_longitude : option Q;
  loc_accuracy : option Q;
  loc_speed : option Q;
  loc_heading : option Q;
  loc_placeName : option ustring;
  loc_mapLink : option ustring
}.

Definition no_location : location :=
  Location None None None None None None None.

(** [detectionData] object of a request. *)
Record detection_data : Type := DetectionData {
  dd_detectedWords : option (list ustring);
  dd_volume : option Q
}.

Definition no_detection_data : detection_data := DetectionData None None.

(** The parsed JSON body of a request. *)
Record body : Type := Body {
  b_action : option ustring;
  b_victimName : option ustring;
  b_phoneNumber : option ustring;
  b_message : option ustring;
  b_detectionType : option ustring;
  b_detectionData : option detection_data;
  b_location : option location;
  b_incidentId : option ustring;
  b_batteryLevel : option Z;
  b_limit : option Z
}.

Definition empty_body : body :=
  Body None None None None None None None None None None.

(** The dictionary a [location] record stands for. *)
Definition location_dict (l : location) : dict :=
  drop_none
    [("latitude", opt_num (loc_latitude l));
     ("longitude", opt_num (loc_longitude l));
     ("accuracy", opt_num (loc_accuracy l));
     ("speed", opt_num (loc_speed l));
     ("heading", opt_num (loc_heading l));
     ("placeName", opt_str (loc_placeName l));
     ("mapLink", opt_str (loc_mapLink l))].

(** What [cors_response] returns.  The body is the dictionary handed to
    [json.dumps], before serialisation. *)
Record response : Type := Response {
  statusCode : Z;
  headers : list (string * string);
  resp_body : dict
}.

(** The incoming event: a pre-flight or ordinary HTTP method, and either a
    [body] entry (a JSON text or an already decoded object) or no [body]
    entry, in which case the event itself is the request. *)
Inductive event_payload : Type :=
| BodyText (raw : ustring)
| BodyObject (b : body)
| NoBodyKey (b : body).

Record lambda_event : Type := LambdaEvent {
  ev_httpMethod : option ustring;
  ev_payload : event_payload
}.

(* ================================================================== *)
(** * The environment and the effect monad *)
(* ================================================================== *)

(** The [response] attribute of an exception object, as
    [getattr(e, 'response', {})] finds it: the object has no such
    attribute; the attribute is [None] (the client library's connection and
    time-out errors carry it so); or it is a dictionary, whose [Error]
    entry may give a [Code] and a [Message] (the service's error
    replies). *)
Inductive response_attr : Type :=
| NoResponse
| ResponseNone
| ResponseDict (code message : option ustring).

(** An exception object, by what the code observes of it. *)
Record exn : Type := Exn {
  exn_type : ustring;             (* type(e).__name__ *)
  exn_str : ustring;              (* str(e) *)
  exn_repr : ustring;             (* repr(e) *)
  exn_response : response_attr    (* getattr(e, 'response', {}) *)
}.

(** A clock reading, by what the code observes of it. *)
Record datetime : Type := Datetime {
  dt_micros : Z;                  (* microseconds since the epoch *)
  dt_iso : ustring;               (* isoformat() *)
  dt_hms : ustring;               (* strftime('%H:%M:%S') *)
  dt_full : ustring               (* strftime('%Y-%m-%d %H:%M:%S UTC') *)
}.

(** [int(d.timestamp() * 1000)] and [int((d + delta).timestamp())]. *)
Definition millis (d : datetime) : Z := Z.quot (dt_micros d) 1000.
Definition seconds_after (d : datetime) (delta_seconds : Z) : Z :=
  Z.quot (dt_micros d + delta_seconds * 1000000) 1000000.
Arguments millis : simpl never.
Arguments seconds_after : simpl never.

Inductive result (A : Type) : Type :=
| Ok (a : A)
| Raise (e : exn).
Arguments Ok {A} a.
Arguments Raise {A} e.

(** The collaborators.  The n-th call to a messaging provider raises
    [e] when [w_send n = Some e] and otherwise returns the dictionary
    [w_reply n]; likewise for the n-th call to the key-value store.  *)
Record world : Type := World {
  w_send : nat -> option exn;
  w_reply : nat -> dict;
  w_store : nat -> option exn;
  w_clock : nat -> datetime;
  w_uuid : nat -> N;
  w_json_loads : ustring -> result body;  (* json.loads *)
  w_num_str : Q -> ustring;               (* str(x) of a float *)
  w_upper : N -> ustring                  (* c.upper() of a character
                                             beyond ASCII *)
}.

(** An item of the incidents table.  [inc_countryCode] is written by the
    hybrid-routing variants only. *)
Record incident : Type := Incident {
  inc_incidentId : ustring;
  inc_victimName : ustring;
  inc_emergencyPhone : ustring;
  inc_countryCode : option ustring;
  inc_detectionType : ustring;
  inc_initialLocation : dict;
  inc_createdAt : ustring;
  inc_status : ustring;
  inc_ttl : Z
}.

(** An item of the location-tracking table; an attribute that the writer
    dropped is [None]. *)
Record location_fix : Type := LocationFix {
  fx_incidentId : ustring;
  fx_timestamp : Z;
  fx_victimName : option ustring;
  fx_latitude : Q;
  fx_longitude : Q;
  fx_accuracy : option Q;
  fx_speed : option Q;
  fx_heading : option Q;
  fx_batteryLevel : option Z;
  fx_ttl : Z
}.

Inductive loglevel : Type := LError | LWarning.

Inductive event : Type :=
| ESendTextMessage (destination origination text mtype cfgset : ustring)
| ESnsPublish (phone text : ustring) (attrs : list (string * ustring))
| EDescribe (operation : string)
| ELog (level : loglevel) (line : ustring).

Record state : Type := State {
  st_sends : nat;                        (* provider calls made so far *)
  st_stores : nat;                       (* store calls made so far *)
  st_ticks : nat;                        (* clock readings so far *)
  st_uuids : nat;                        (* UUIDs drawn so far *)
  st_events : list event;                (* oldest first *)
  st_incidents : gmap ustring incident;  (* table keyed by incidentId *)
  st_locations : gmap (ustring * Z) location_fix
                                         (* keyed by (incidentId, timestamp) *)
}.

Definition M (A : Type) : Type := world -> state -> result A * state.

Definition ret {A} (a : A) : M A := fun _ s => (Ok a, s).

Definition bind {A B} (m : M A) (k : A -> M B) : M B :=
  fun w s =>
    match m w s with
    | (Ok a, s') => k a w s'
    | (Raise e, s') => (Raise e, s')
    end.

Definition raise {A} (e : exn) : M A := fun _ s => (Raise e, s).

(** [try: m  except Exception as e: h e]. *)
Definition try_except {A} (m : M A) (h : exn -> M A) : M A :=
  fun w s =>
    match m w s with
    | (Ok a, s') => (Ok a, s')
    | (Raise e, s') => h e w s'
    end.

Notation "x <- m ;; k" := (bind m (fun x => k))
  (at level 100, m at next level, k at level 200, right associativity).
Notation "m ;;; k" := (bind m (fun _ => k))
  (at level 100, k at level 200, right associativity).

Definition emit (e : event) : M unit :=
  fun _ s =>
    (Ok tt, State (st_sends s) (st_stores s) (st_ticks s) (st_uuids s)
              (st_events s ++ [e]) (st_incidents s) (st_locations s)).

Definition log_error (line : ustring) : M unit := emit (ELog LError line).
Definition log_warning (line : ustring) : M unit := emit (ELog LWarning line).

(** [datetime.now(...)]. *)
Definition now : M datetime :=
  fun w s =>
    (Ok (w_clock w (st_ticks s)),
     State (st_sends s) (st_stores s) (S (st_ticks s)) (st_uuids s)
       (st_events s) (st_incidents s) (st_locations s)).

(** [uuid.uuid4().hex]. *)
Definition uuid4_hex : M ustring :=
  fun w s =>
    (Ok (uuid_hex (w_uuid w (st_uuids s))),
     State (st_sends s) (st_stores s) (st_ticks s) (S (st_uuids s))
       (st_events s) (st_incidents s) (st_locations s)).

(** A call to a messaging provider: the call is recorded, then it either
    raises or returns the provider's reply, as the world decides. *)
Definition provider_call (e : event) : M dict :=
  fun w s =>
    let s' := State (S (st_sends s)) (st_stores s) (st_ticks s) (st_uuids s)
                (st_events s ++ [e]) (st_incidents s) (st_locations s) in
    match w_send w (st_sends s) with
    | Some x => (Raise x, s')
    | None => (Ok (w_reply w (st_sends s)), s')
    end.

Definition KeyError (k : string) : exn :=
  Exn (u "KeyError") (u "'" ++ u k ++ u "'")
      (u "KeyError('" ++ u k ++ u "')") NoResponse.

(** [d[k]]. *)
Definition index (k : string) (d : dict) : M json :=
  match dict_get k d with
  | Some v => ret v
  | None => raise (KeyError k)
  end.

(* ================================================================== *)
(** * The key-value store *)
(* ================================================================== *)

Definition ParamValidationError : exn :=
  Exn (u "ParamValidationError") (u "Parameter validation failed")
      (u "ParamValidationError('Parameter validation failed')") NoResponse.

Definition store_tick (s : state) : state :=
  State (st_sends s) (S (st_stores s)) (st_ticks s) (st_uuids s)
    (st_events s) (st_incidents s) (st_locations s).

(** The error of the store's client for an item that holds a Python
    float. *)
Definition FloatTypeError : exn :=
  Exn (u "TypeError")
      (u "Float types are not supported. Use Decimal types instead.")
      (u "TypeError('Float types are not supported. Use Decimal types instead.')")
      NoResponse.

(** How the numbers of an item handed to [put_item] were built. *)
Inductive number_type : Type := AsDecimal | AsFloat.

(** Modelled from the spec: the key-value store is an external service
    (its code is not part of the repository); section 4.5 and 6 give its
    contract, a [put] and a [query] keyed by incidentId (partition) and
    timestamp (sort).  An access to the store ([get_dynamodb()], [Table],
    the request) raises when the world says so.  Otherwise the client
    serialises the item before it sends it, and it refuses an item that
    holds a Python float with a [TypeError]; numbers have to be [int] or
    [Decimal].

    [Table(INCIDENTS).put_item(Item=item)]: the table is keyed by
    [incidentId]; an item with the same key is replaced.  The numbers of
    [initialLocation] are those of the request. *)
Definition put_incident (item : incident) : M unit :=
  fun w s =>
    let s' := store_tick s in
    match w_store w (st_stores s) with
    | Some x => (Raise x, s')
    | None =>
        if json_has_float (JDict (inc_initialLocation item)) then
          (Raise FloatTypeError, s')
        else
          (Ok tt,
           State (st_sends s') (st_stores s') (st_ticks s') (st_uuids s')
             (st_events s')
             (<[inc_incidentId item := item]> (st_incidents s'))
             (st_locations s'))
    end.

(** Modelled from the spec: the [put] of the location table, with the
    same client.

    [Table(LOCATIONS).put_item(Item=item)]: partition key [incidentId],
    sort key [timestamp]; [numbers] tells whether the code built the
    latitude, longitude and accuracy of the item with [Decimal(...)] or
    with [float(...)]. *)
Definition put_location (numbers : number_type) (item : location_fix)
  : M unit :=
  fun w s =>
    let s' := store_tick s in
    match w_store w (st_stores s) with
    | Some x => (Raise x, s')
    | None =>
        match numbers with
        | AsFloat => (Raise FloatTypeError, s')
        | AsDecimal =>
            (Ok tt,
             State (st_sends s') (st_stores s') (st_ticks s') (st_uuids s')
               (st_events s') (st_incidents s')
               (<[(fx_incidentId item, fx_timestamp item) := item]>
                  (st_locations s')))
        end
    end.

(** Modelled from the spec: fixes are a time series keyed by
    (incidentId, capture time in milliseconds).

    Sort keys present in the partition [id], in ascending order. *)
Definition partition_keys (tbl : gmap (ustring * Z) location_fix) (id : ustring)
  : list Z :=
  merge_sort Z.le
    (List.map snd
       (List.filter (fun k => bool_decide (fst k = id))
          (elements (dom tbl)))).

(** Modelled from the spec: the [query] of the location table returns up
    to [limit] fixes of one incident, ascending or descending by capture
    time.

    The items of a [query] on the partition [id]: ascending by sort key
    when [forward], descending otherwise, at most [limit] of them. *)
Definition query_items (tbl : gmap (ustring * Z) location_fix) (id : ustring)
    (forward : bool) (limit : nat) : list location_fix :=
  let ks := partition_keys tbl id in
  take limit (omap (fun ts => tbl !! (id, ts))
                   (if forward then ks else reverse ks)).

(** Modelled from the spec: the [query] call of the location table.

    [Table(LOCATIONS).query(KeyConditionExpression='incidentId = :id',
    ExpressionAttributeValues={':id': id}, ScanIndexForward=forward,
    Limit=limit)['Items']].  The client library rejects a [Limit] below
    one. *)
Definition query_locations (id : ustring) (forward : bool) (limit : Z)
  : M (list location_fix) :=
  fun w s =>
    let s' := store_tick s in
    match w_store w (st_stores s) with
    | Some x => (Raise x, s')
    | None =>
        if limit <? 1 then (Raise ParamValidationError, s')
        else (Ok (query_items (st_locations s) id forward (Z.to_nat limit)),
              s')
    end.

(** The dictionary of a stored fix, as [query] hands it back. *)
Definition fix_dict (f : location_fix) : dict :=
  drop_none
    [("incidentId", JStr (fx_incidentId f));
     ("timestamp", JInt (fx_timestamp f));
     ("victimName", opt_str (fx_victimName f));
     ("latitude", JNum (fx_latitude f));
     ("longitude", JNum (fx_longitude f));
     ("accuracy", opt_num (fx_accuracy f));
     ("speed", opt_num (fx_speed f));
     ("heading", opt_num (fx_heading f));
     ("batteryLevel", opt_int (fx_batteryLevel f));
     ("ttl", JInt (fx_ttl f))].

(** String equality [a == b]. *)
Fixpoint str_eqb (a b : ustring) : bool :=
  match a, b with
  | [], [] => true
  | c :: a', d :: b' => (c =? d)%N && str_eqb a' b'
  | _, _ => false
  end.

Definition nl : ustring := [ch_newline].

(** Lookup in a dictionary whose keys are Python strings. *)
Fixpoint assoc_get {V} (k : ustring) (d : list (ustring * V)) : option V :=
  match d with
  | [] => None
  | (k', v) :: d' => if str_eqb k k' then Some v else assoc_get k d'
  end.

(** [sorted(xs, key=len, reverse=True)]: a stable sort, longest first;
    strings of equal length keep their relative order. *)
Fixpoint insert_by_len_desc (x : ustring) (l : list ustring)
  : list ustring :=
  match l with
  | [] => [x]
  | y :: l' =>
      if (length y <=? length x)%nat then x :: l
      else y :: insert_by_len_desc x l'
  end.

Definition sorted_by_len_desc (l : list ustring) : list ustring :=
  foldr insert_by_len_desc [] l.

(** [str(x)] of a number that may be a float. *)
Definition num_str (x : Q) : M ustring :=
  fun w s => (Ok (w_num_str w x), s).

(** [s.upper()] of any string: the ASCII letters are mapped as [upper]
    maps them, and the upper-case form of a character beyond ASCII, which
    may be several characters long, is read from the Unicode tables of the
    interpreter. *)
Definition str_upper (s : ustring) : M ustring :=
  fun w st =>
    (Ok (List.concat
           (List.map
              (fun c => if (c <? 128)%N then [upper_char c] else w_upper w c)
              s)),
     st).

Definition NaNValueError : exn :=
  Exn (u "ValueError") (u "cannot convert float NaN to integer")
      (u "ValueError('cannot convert float NaN to integer')") NoResponse.

Definition InfinityOverflowError : exn :=
  Exn (u "OverflowError") (u "cannot convert float infinity to integer")
      (u "OverflowError('cannot convert float infinity to integer')")
      NoResponse.

(** The integer part of a finite float [m * 2 ^ e]. *)
Definition truncate (negative : bool) (m : positive) (e : Z) : Z :=
  let v := if 0 <=? e then Z.pos m * 2 ^ e else Z.pos m / 2 ^ (- e) in
  if negative then - v else v.

(** [int(x)] of a float: truncation towards zero; NaN and the infinities
    have no integer. *)
Definition int_of_float (x : float) : M Z :=
  match Prim2SF x with
  | S754_nan => raise NaNValueError
  | S754_infinity _ => raise InfinityOverflowError
  | S754_zero _ => ret 0
  | S754_finite negative m e => ret (truncate negative m e)
  end.

(** [json.loads(text)]. *)
Definition json_loads (text : ustring) : M body :=
  fun w s => (w_json_loads w text, s).

(* ================================================================== *)
(** * JURY_DEPLOYMENT_PACKAGE/lambda/allsenseai-eum-with-tracking.py *)
(* ================================================================== *)

Module EumWithTracking.

Definition ORIGINATOR_NUMBER : ustring := u "+12173933490".
Definition CONFIGURATION_SET : ustring := u "AllSensesAI-SafetyAlerts".
Definition MESSAGE_TYPE : ustring := u "TRANSACTIONAL".
Definition REGION : ustring := u "us-east-1".
Definition JURY_PHONE_NUMBER : ustring := u "+13053033060".

Definition cors_response (data : dict) (status_code : Z) : response :=
  Response status_code
    [("Content-Type", "application/json");
     ("Access-Control-Allow-Origin", "*");
     ("Access-Control-Allow-Methods", "GET,POST,OPTIONS");
     ("Access-Control-Allow-Headers", "Content-Type,Authorization")]
    data.

Definition NoneTypeError : exn :=
  Exn (u "AttributeError") (u "'NoneType' object has no attribute 'get'")
      (u "AttributeError(" ++ [34%N]
         ++ u "'NoneType' object has no attribute 'get'" ++ [34%N] ++ u ")")
      NoResponse.

(** [getattr(e, 'response', {}).get('Error', {}).get(key, dflt)], where
    [pick] selects the entry [key] of [Error]: a [response] that is [None]
    has no [get]. *)
Definition response_error (e : exn)
    (pick : option ustring * option ustring -> option ustring)
    (dflt : ustring) : M ustring :=
  match exn_response e with
  | NoResponse => ret dflt
  | ResponseNone => raise NoneTypeError
  | ResponseDict code message => ret (default dflt (pick (code, message)))
  end.

Definition send_eum_sms (phone_number message : ustring) : M dict :=
  try_except
    (response <- provider_call
                   (ESendTextMessage phone_number ORIGINATOR_NUMBER message
                      MESSAGE_TYPE CONFIGURATION_SET) ;;
     let message_id := get "MessageId" response in
     t <- now ;;
     ret [("status", JStr (u "sent"));
          ("messageId", message_id);
          ("phone", JStr phone_number);
          ("eumCompliant", JBool true);
          ("originatorNumber", JStr ORIGINATOR_NUMBER);
          ("campaign", JStr CONFIGURATION_SET);
          ("fullResponse", JDict response);
          ("timestamp", JStr (dt_iso t))])
    (fun e =>
       log_error (u "=== EUM SMS SENDING FAILED ===") ;;;
       log_error (u "Destination: " ++ phone_number) ;;;
       log_error (u "Error: " ++ exn_str e) ;;;
       log_error (u "Error Type: " ++ exn_type e) ;;;
       log_error (u "Error Details: " ++ exn_repr e) ;;;
       error_code <- response_error e fst (u "Unknown") ;;
       error_message <- response_error e snd (exn_str e) ;;
       log_error (u "AWS Error Code: " ++ error_code) ;;;
       log_error (u "AWS Error Message: " ++ error_message) ;;;
       t <- now ;;
       ret [("status", JStr (u "failed"));
            ("error", JStr (exn_str e));
            ("errorType", JStr (exn_type e));
            ("errorCode", JStr error_code);
            ("errorMessage", JStr error_message);
            ("phone", JStr phone_number);
            ("eumCompliant", JBool false);
            ("timestamp", JStr (dt_iso t))]).

Definition store_incident (incident_id victim_name emergency_phone
    detection_type : ustring) (loc : location) : M unit :=
  try_except
    (t1 <- now ;;
     let ttl := seconds_after t1 (7 * 86400) in
     t2 <- now ;;
     let item :=
       Incident incident_id victim_name emergency_phone None detection_type
         [("latitude", opt_num (loc_latitude loc));
          ("longitude", opt_num (loc_longitude loc));
          ("placeName", JStr (default (u "Unknown") (loc_placeName loc)));
          ("mapLink", JStr (default (u "") (loc_mapLink loc)))]
         (dt_iso t2) (u "active") ttl in
     put_incident item)
    (fun e =>
       log_error (u "Failed to store incident: " ++ exn_str e) ;;;
       raise e).

(** The text of the alert, lines 144-160 of the handler. *)
Definition danger_message (victim_name detection_type : ustring)
    (detection_data : detection_data) : ustring :=
  if str_eqb detection_type (u "emergency_words") then
    let detected_words :=
      default [u "emergency"] (dd_detectedWords detection_data) in
    u "EMERGENCY ALERT: " ++ victim_name
      ++ u " is in DANGER! Emergency words detected: "
      ++ join (u ", ") detected_words
  else if str_eqb detection_type (u "abrupt_noise") then
    u "EMERGENCY ALERT: " ++ victim_name
      ++ u " is in DANGER! Sudden loud noise detected"
  else
    u "EMERGENCY ALERT: " ++ victim_name
      ++ u " is in DANGER! Emergency situation detected".

Definition tracking_url (incident_id : ustring) : ustring :=
  u "https://track.allsensesai.com?incident=" ++ incident_id.

Definition sms_message (danger place_name incident_id hms : ustring)
  : ustring :=
  danger ++ nl ++ nl ++ u "LIVE TRACKING:" ++ nl
    ++ tracking_url incident_id ++ nl ++ nl
    ++ u "Initial Location: " ++ place_name ++ nl ++ nl
    ++ u "Incident: " ++ incident_id ++ nl
    ++ u "Time: " ++ hms ++ nl ++ nl
    ++ u "From: AllSensesAI Guardian (" ++ ORIGINATOR_NUMBER ++ u ")".

(** ["success" if status == "sent" else other]. *)
Definition sent_or (other : ustring) (status : json) : json :=
  match status with
  | JStr x => if str_eqb x (u "sent") then JStr (u "success") else JStr other
  | _ => JStr other
  end.

Definition handle_jury_emergency_alert (body : body) : M response :=
  try_except
    (let victim_name := default (u "Unknown Person") (b_victimName body) in
     let emergency_phone := default JURY_PHONE_NUMBER (b_phoneNumber body) in
     let detection_type := default (u "emergency") (b_detectionType body) in
     let detection_data :=
       default no_detection_data (b_detectionData body) in
     let loc := default no_location (b_location body) in
     h <- uuid4_hex ;;
     let incident_id := u "EMG-" ++ upper (take 8 h) in
     try_except
       (store_incident incident_id victim_name emergency_phone
          detection_type loc)
       (fun e => log_error (u "Failed to store incident: " ++ exn_str e)) ;;;
     let danger := danger_message victim_name detection_type detection_data in
     let place_name :=
       default (u "Miami Convention Center, FL") (loc_placeName loc) in
     t <- now ;;
     let text := sms_message danger place_name incident_id (dt_hms t) in
     sms_result <- send_eum_sms emergency_phone text ;;
     st1 <- index "status" sms_result ;;
     st2 <- index "status" sms_result ;;
     t' <- now ;;
     ret (cors_response
            [("status", sent_or (u "partial") st1);
             ("message",
              JStr (u "Emergency alert processed via AWS End User Messaging with live tracking"));
             ("incidentId", JStr incident_id);
             ("trackingUrl", JStr (tracking_url incident_id));
             ("victimName", JStr victim_name);
             ("emergencyPhone", JStr emergency_phone);
             ("detectionType", JStr detection_type);
             ("smsMessageId", get "messageId" sms_result);
             ("smsStatus", st2);
             ("eumCompliant", JBool true);
             ("liveTrackingEnabled", JBool true);
             ("originatorNumber", JStr ORIGINATOR_NUMBER);
             ("campaign", JStr CONFIGURATION_SET);
             ("smsError", get "error" sms_result);
             ("dangerMessage", JStr danger);
             ("location", JDict (location_dict loc));
             ("timestamp", JStr (dt_iso t'))]
            200))
    (fun e =>
       log_error (u "Emergency alert error: " ++ exn_str e) ;;;
       log_error (u "Error type: " ++ exn_type e) ;;;
       t <- now ;;
       ret (cors_response
              [("status", JStr (u "error"));
               ("message", JStr (u "Emergency alert failed: " ++ exn_str e));
               ("errorType", JStr (exn_type e));
               ("timestamp", JStr (dt_iso t))]
              500)).

Definition handle_jury_test (body : body) : M response :=
  try_except
    (let test_phone := default JURY_PHONE_NUMBER (b_phoneNumber body) in
     let victim_name := default (u "Test User") (b_victimName body) in
     t <- now ;;
     let test_message :=
       u "AllSensesAI SYSTEM TEST" ++ nl ++ nl
         ++ u "System ready for " ++ victim_name ++ u "!" ++ nl ++ nl
         ++ u "Time: " ++ dt_hms t ++ nl ++ nl
         ++ u "Emergency detection operational." ++ nl
         ++ u "Live tracking enabled." ++ nl ++ nl
         ++ u "From: AllSensesAI Guardian (" ++ ORIGINATOR_NUMBER ++ u ")" in
     sms_result <- send_eum_sms test_phone test_message ;;
     st1 <- index "status" sms_result ;;
     st2 <- index "status" sms_result ;;
     t' <- now ;;
     ret (cors_response
            [("status", sent_or (u "partial") st1);
             ("message",
              JStr (u "Test message processed via AWS End User Messaging"));
             ("victimName", JStr victim_name);
             ("testPhone", JStr test_phone);
             ("smsMessageId", get "messageId" sms_result);
             ("smsStatus", st2);
             ("eumCompliant", JBool true);
             ("liveTrackingEnabled", JBool true);
             ("originatorNumber", JStr ORIGINATOR_NUMBER);
             ("campaign", JStr CONFIGURATION_SET);
             ("smsError", get "error" sms_result);
             ("timestamp", JStr (dt_iso t'))]
            200))
    (fun e =>
       log_error (u "Test message error: " ++ exn_str e) ;;;
       ret (cors_response
              [("status", JStr (u "error"));
               ("message", JStr (u "Test failed: " ++ exn_str e));
               ("errorType", JStr (exn_type e))]
              500)).

Definition test_sms_direct (body : body) : M response :=
  try_except
    (let phone := default (u "+19543483664") (b_phoneNumber body) in
     t <- now ;;
     let message :=
       default (u "AllSensesAI Test Message via AWS End User Messaging. Time: "
                  ++ dt_hms t)
               (b_message body) in
     sms_result <- send_eum_sms phone message ;;
     st <- index "status" sms_result ;;
     let is_success :=
       match st with JStr x => str_eqb x (u "sent") | _ => false end in
     st' <- index "status" sms_result ;;
     t' <- now ;;
     ret (cors_response
            [("status",
              JStr (if is_success then u "success" else u "failed"));
             ("phone", JStr phone);
             ("smsMessageId", get "messageId" sms_result);
             ("smsStatus", st');
             ("eumCompliant", JBool is_success);
             ("originatorNumber", JStr ORIGINATOR_NUMBER);
             ("campaign", JStr CONFIGURATION_SET);
             ("smsError", get "error" sms_result);
             ("fullResponse", get "fullResponse" sms_result);
             ("timestamp", JStr (dt_iso t'))]
            200))
    (fun e =>
       log_error (u "Direct SMS test error: " ++ exn_str e) ;;;
       t <- now ;;
       ret (cors_response
              [("status", JStr (u "error"));
               ("message", JStr (exn_str e));
               ("errorType", JStr (exn_type e));
               ("smsStatus", JStr (u "failed"));
               ("smsError", JStr (exn_str e));
               ("eumCompliant", JBool false);
               ("originatorNumber", JStr ORIGINATOR_NUMBER);
               ("campaign", JStr CONFIGURATION_SET);
               ("timestamp", JStr (dt_iso t))]
              500)).

Definition check_eum_configuration : M response :=
  try_except
    (phone_numbers <-
       try_except
         (r <- provider_call (EDescribe "describe_phone_numbers") ;;
          ret (default (JList []) (dict_get "PhoneNumbers" r)))
         (fun e =>
            log_warning (u "Could not describe phone numbers: " ++ exn_str e) ;;;
            ret (JList [])) ;;
     config_sets <-
       try_except
         (r <- provider_call (EDescribe "describe_configuration_sets") ;;
          ret (default (JList []) (dict_get "ConfigurationSets" r)))
         (fun e =>
            log_warning
              (u "Could not describe configuration sets: " ++ exn_str e) ;;;
            ret (JList [])) ;;
     t <- now ;;
     ret (cors_response
            [("status", JStr (u "success"));
             ("message", JStr (u "EUM configuration check complete"));
             ("configuration",
              JDict [("originatorNumber", JStr ORIGINATOR_NUMBER);
                     ("campaign", JStr CONFIGURATION_SET);
                     ("messageType", JStr MESSAGE_TYPE);
                     ("region", JStr REGION);
                     ("phoneNumbers", phone_numbers);
                     ("configurationSets", config_sets)]);
             ("liveTrackingEnabled", JBool true);
             ("timestamp", JStr (dt_iso t))]
            200))
    (fun e =>
       log_error (u "EUM configuration check failed: " ++ exn_str e) ;;;
       ret (cors_response
              [("status", JStr (u "error"));
               ("message",
                JStr (u "Configuration check failed: " ++ exn_str e));
               ("errorType", JStr (exn_type e))]
              500)).

(** [incidentId is required], the answer to a missing or empty id. *)
Definition incident_id_required : response :=
  cors_response
    [("status", JStr (u "error"));
     ("message", JStr (u "incidentId is required"))]
    400.

(** [Decimal(str(v)) if v else None] on an optional attribute. *)
Definition truthy_num (o : option Q) : option Q :=
  match o with
  | Some v => if num_truthy v then Some v else None
  | None => None
  end.

Definition handle_update_location (body : body) : M response :=
  try_except
    (let incident_id := b_incidentId body in
     let loc := default no_location (b_location body) in
     let battery_level := b_batteryLevel body in
     match incident_id with
     | Some id =>
         if str_truthy id then
           t1 <- now ;;
           let timestamp := millis t1 in
           t2 <- now ;;
           let ttl := seconds_after t2 (24 * 3600) in
           let item :=
             LocationFix id timestamp None
               (default 0%Q (loc_latitude loc))
               (default 0%Q (loc_longitude loc))
               (Some (default 0%Q (loc_accuracy loc)))
               (truthy_num (loc_speed loc))
               (truthy_num (loc_heading loc))
               battery_level ttl in
           put_location AsDecimal item ;;;
           ret (cors_response
                  [("status", JStr (u "success"));
                   ("message", JStr (u "Location updated successfully"));
                   ("incidentId", JStr id);
                   ("timestamp", JInt timestamp)]
                  200)
         else ret incident_id_required
     | None => ret incident_id_required
     end)
    (fun e =>
       log_error (u "Update location error: " ++ exn_str e) ;;;
       ret (cors_response
              [("status", JStr (u "error"));
               ("message", JStr (exn_str e));
               ("errorType", JStr (exn_type e))]
              500)).

(** The dictionary built from a stored item by the two query handlers. *)
Definition location_view (item : location_fix) : dict :=
  [("latitude", JNum (fx_latitude item));
   ("longitude", JNum (fx_longitude item));
   ("accuracy", JNum (default 0%Q (fx_accuracy item)));
   ("speed", opt_num (truthy_num (fx_speed item)));
   ("heading", opt_num (truthy_num (fx_heading item)));
   ("batteryLevel", opt_int (fx_batteryLevel item));
   ("timestamp", JInt (fx_timestamp item))].

Definition handle_get_location (body : body) : M response :=
  try_except
    (match b_incidentId body with
     | Some id =>
         if str_truthy id then
           items <- query_locations id false 1 ;;
           match items with
           | [] =>
               ret (cors_response
                      [("status", JStr (u "success"));
                       ("message", JStr (u "No location data found"));
                       ("incidentId", JStr id);
                       ("location", JNull)]
                      200)
           | location_data :: _ =>
               ret (cors_response
                      [("status", JStr (u "success"));
                       ("incidentId", JStr id);
                       ("location", JDict (location_view location_data))]
                      200)
           end
         else ret incident_id_required
     | None => ret incident_id_required
     end)
    (fun e =>
       log_error (u "Get location error: " ++ exn_str e) ;;;
       ret (cors_response
              [("status", JStr (u "error"));
               ("message", JStr (exn_str e));
               ("errorType", JStr (exn_type e))]
              500)).

Definition handle_get_location_history (body : body) : M response :=
  try_except
    (let incident_id := b_incidentId body in
     let limit := default 100 (b_limit body) in
     match incident_id with
     | Some id =>
         if str_truthy id then
           items <- query_locations id false limit ;;
           let locations := List.map location_view items in
           ret (cors_response
                  [("status", JStr (u "success"));
                   ("incidentId", JStr id);
                   ("locationCount", JInt (Z.of_nat (length locations)));
                   ("locations", JList (List.map JDict locations))]
                  200)
         else ret incident_id_required
     | None => ret incident_id_required
     end)
    (fun e =>
       log_error (u "Get location history error: " ++ exn_str e) ;;;
       ret (cors_response
              [("status", JStr (u "error"));
               ("message", JStr (exn_str e));
               ("errorType", JStr (exn_type e))]
              500)).

(** The body of the request: the decoded [body] entry, or the event
    itself when it has none. *)
Definition parse_body (event : lambda_event) : M body :=
  match ev_payload event with
  | BodyText raw => json_loads raw
  | BodyObject b => ret b
  | NoBodyKey b => ret b
  end.

(** Actions with a handler of their own. *)
Definition recognized_actions : list ustring :=
  [u "JURY_EMERGENCY_ALERT"; u "JURY_TEST"; u "TEST_SMS";
   u "CHECK_EUM_CONFIG"; u "UPDATE_LOCATION"; u "GET_LOCATION";
   u "GET_LOCATION_HISTORY"].

Definition handler (event : lambda_event) : M response :=
  try_except
    (if match ev_httpMethod event with
        | Some m => str_eqb m (u "OPTIONS")
        | None => false
        end
     then ret (cors_response [] 200)
     else
       body <- parse_body event ;;
       let action := default (u "TEST_SMS") (b_action body) in
       if str_eqb action (u "JURY_EMERGENCY_ALERT") then
         handle_jury_emergency_alert body
       else if str_eqb action (u "JURY_TEST") then handle_jury_test body
       else if str_eqb action (u "TEST_SMS") then test_sms_direct body
       else if str_eqb action (u "CHECK_EUM_CONFIG") then
         check_eum_configuration
       else if str_eqb action (u "UPDATE_LOCATION") then
         handle_update_location body
       else if str_eqb action (u "GET_LOCATION") then
         handle_get_location body
       else if str_eqb action (u "GET_LOCATION_HISTORY") then
         handle_get_location_history body
       else
         t <- now ;;
         ret (cors_response
                [("status", JStr (u "success"));
                 ("message",
                  JStr (u "AllSensesAI Lambda is operational with live tracking"));
                 ("action", JStr action);
                 ("eumCompliant", JBool true);
                 ("liveTrackingEnabled", JBool true);
                 ("originatorNumber", JStr ORIGINATOR_NUMBER);
                 ("campaign", JStr CONFIGURATION_SET);
                 ("timestamp", JStr (dt_iso t))]
                200))
    (fun e =>
       log_error (u "Handler error: " ++ exn_str e) ;;;
       log_error (u "Error type: " ++ exn_type e) ;;;
       t <- now ;;
       ret (cors_response
              [("status", JStr (u "error"));
               ("message", JStr (exn_str e));
               ("errorType", JStr (exn_type e));
               ("timestamp", JStr (dt_iso t))]
              500)).

End EumWithTracking.

(* ================================================================== *)
(** * allsenseai-colombia-working.py *)
(* ================================================================== *)

Module ColombiaWorking.

Definition ORIGINATOR_NUMBER_US : ustring := u "+12173933490".
Definition CONFIGURATION_SET : ustring := u "AllSensesAI-SafetyAlerts".
Definition MESSAGE_TYPE : ustring := u "TRANSACTIONAL".
Definition TRACKING_BASE_URL : ustring := u "https://track.allsensesai.com".

Record country : Type := Country {
  c_name : ustring;
  c_emergency_number : ustring;
  c_language : ustring;
  c_use_eum : bool;
  c_use_sns : bool
}.

Definition USA : country :=
  Country (u "USA") (u "911") (u "en") true false.

Definition COUNTRY_CONFIG : list (ustring * country) :=
  [(u "+1", USA);
   (u "+57", Country (u "Colombia") (u "123") (u "es") false true);
   (u "+56", Country (u "Chile") (u "133") (u "es") false true);
   (u "+58", Country (u "Venezuela") (u "911") (u "es") false true);
   (u "+52", Country (u "Mexico") (u "911") (u "es") false true)].

Definition TRANSLATIONS : list (ustring * list (string * ustring)) :=
  [(u "en",
    [("emergency_alert", u "EMERGENCY ALERT");
     ("is_in_danger", u "is in DANGER!");
     ("emergency_words_detected", u "Emergency words detected");
     ("loud_noise_detected", u "Sudden loud noise detected");
     ("live_tracking", u "LIVE TRACKING");
     ("initial_location", u "Initial Location");
     ("incident", u "Incident");
     ("time", u "Time");
     ("from", u "From");
     ("system_test", u "SYSTEM TEST");
     ("system_ready", u "System ready for");
     ("emergency_detection_operational",
      u "Emergency detection operational")]);
   (u "es",
    [("emergency_alert", u "ALERTA DE EMERGENCIA");
     ("is_in_danger", u "est" ++ [8730%N; 176%N] ++ u " en PELIGRO!");
     ("emergency_words_detected", u "Palabras de emergencia detectadas");
     ("loud_noise_detected", u "Ruido fuerte repentino detectado");
     ("live_tracking", u "RASTREO EN VIVO");
     ("initial_location",
      u "Ubicaci" ++ [8730%N; 8805%N] ++ u "n Inicial");
     ("incident", u "Incidente");
     ("time", u "Hora");
     ("from", u "De");
     ("system_test", u "PRUEBA DEL SISTEMA");
     ("system_ready", u "Sistema listo para");
     ("emergency_detection_operational",
      u "Detecci" ++ [8730%N; 8805%N] ++ u "n de emergencias operativa")])].

(** The loop of [detect_country] over a country table [tbl]; [None] is the
    [KeyError] of a table without the entry it indexes. *)
Definition detect_country_in (tbl : list (ustring * country))
    (phone_number : ustring) : option (ustring * country) :=
  let phone :=
    remove_char ch_rparen
      (remove_char ch_lparen
         (remove_char ch_dash
            (remove_char ch_space (strip phone_number)))) in
  let phone := if startswith phone (u "+") then phone else u "+" ++ phone in
  match List.find (fun code => startswith phone code)
          (sorted_by_len_desc (List.map fst tbl)) with
  | Some code =>
      match assoc_get code tbl with
      | Some config => Some (code, config)
      | None => None
      end
  | None =>
      match assoc_get (u "+1") tbl with
      | Some config => Some (u "+1", config)
      | None => None
      end
  end.

Definition detect_country (phone_number : ustring)
  : option (ustring * country) :=
  detect_country_in COUNTRY_CONFIG phone_number.

Definition normalize_phone_number (phone_number : ustring) : ustring :=
  let phone :=
    remove_char ch_rparen
      (remove_char ch_lparen
         (remove_char ch_dash
            (remove_char ch_space (strip phone_number)))) in
  if startswith phone (u "+") then phone else u "+" ++ phone.

(** [TRANSLATIONS.get(language, TRANSLATIONS['en']).get(key, key)]. *)
Definition get_translation (key : string) (language : ustring) : ustring :=
  let table :=
    default (default [] (assoc_get (u "en") TRANSLATIONS))
            (assoc_get language TRANSLATIONS) in
  match List.find (fun kv => String.eqb key (fst kv)) table with
  | Some kv => snd kv
  | None => u key
  end.

Definition cors_response (data : dict) (status_code : Z) : response :=
  Response status_code
    [("Content-Type", "application/json");
     ("Access-Control-Allow-Origin", "*");
     ("Access-Control-Allow-Methods", "GET,POST,OPTIONS");
     ("Access-Control-Allow-Headers", "Content-Type,Authorization")]
    data.

Definition send_via_eum (phone_number message : ustring) : M dict :=
  try_except
    (response <- provider_call
                   (ESendTextMessage phone_number ORIGINATOR_NUMBER_US
                      message MESSAGE_TYPE CONFIGURATION_SET) ;;
     let message_id := get "MessageId" response in
     ret [("status", JStr (u "sent"));
          ("messageId", message_id);
          ("method", JStr (u "EUM"));
          ("originator", JStr ORIGINATOR_NUMBER_US)])
    (fun e =>
       log_error (u "EUM FAILED: " ++ exn_str e) ;;;
       ret [("status", JStr (u "failed"));
            ("error", JStr (exn_str e));
            ("method", JStr (u "EUM"))]).

Definition send_via_sns (phone_number message : ustring)
    (country_config : country) : M dict :=
  try_except
    (response <- provider_call
                   (ESnsPublish phone_number message
                      [("AWS.SNS.SMS.SMSType", u "Transactional")]) ;;
     let message_id := get "MessageId" response in
     ret [("status", JStr (u "sent"));
          ("messageId", message_id);
          ("method", JStr (u "SNS"));
          ("country", JStr (c_name country_config))])
    (fun e =>
       log_error (u "SNS FAILED: " ++ exn_str e) ;;;
       log_error (u "Phone: " ++ phone_number ++ u ", Country: "
                    ++ c_name country_config) ;;;
       ret [("status", JStr (u "failed"));
            ("error", JStr (exn_str e));
            ("method", JStr (u "SNS"));
            ("country", JStr (c_name country_config))]).

Definition send_sms_hybrid (phone_number message : ustring)
    (country_config : country) : M dict :=
  try_except
    (if c_use_eum country_config then send_via_eum phone_number message
     else send_via_sns phone_number message country_config)
    (fun e =>
       log_error (u "SMS sending failed: " ++ exn_str e) ;;;
       ret [("status", JStr (u "failed"));
            ("error", JStr (exn_str e));
            ("method", JStr (u "unknown"))]).

Definition store_incident (incident_id victim_name emergency_phone
    detection_type : ustring) (loc : location) (country_code : ustring)
  : M unit :=
  try_except
    (t1 <- now ;;
     t2 <- now ;;
     put_incident
       (Incident incident_id victim_name emergency_phone (Some country_code)
          detection_type (location_dict loc) (dt_iso t1) (u "active")
          (seconds_after t2 (7 * 86400))))
    (fun e => log_error (u "Store incident failed: " ++ exn_str e)).

Definition store_location_update (incident_id victim_name : ustring)
    (loc : location) (battery_level : option Z) : M unit :=
  try_except
    (t1 <- now ;;
     t2 <- now ;;
     let item :=
       LocationFix incident_id (millis t1) (Some victim_name)
         (default 0%Q (loc_latitude loc))
         (default 0%Q (loc_longitude loc))
         (Some (default 0%Q (loc_accuracy loc)))
         None None
         (match battery_level with
          | Some b => if b =? 0 then None else Some b
          | None => None
          end)
         (seconds_after t2 (24 * 3600)) in
     put_location AsFloat item)
    (fun e => log_error (u "Store location failed: " ++ exn_str e)).

Definition handle_update_location (body : body) : M response :=
  try_except
    (match b_incidentId body with
     | Some incident_id =>
         if str_truthy incident_id then
           store_location_update incident_id
             (default (u "Unknown") (b_victimName body))
             (default no_location (b_location body))
             (b_batteryLevel body) ;;;
           ret (cors_response
                  [("status", JStr (u "success"));
                   ("incidentId", JStr incident_id)]
                  200)
         else
           ret (cors_response
                  [("status", JStr (u "error"));
                   ("message", JStr (u "incidentId required"))]
                  400)
     | None =>
         ret (cors_response
                [("status", JStr (u "error"));
                 ("message", JStr (u "incidentId required"))]
                400)
     end)
    (fun e =>
       ret (cors_response
              [("status", JStr (u "error")); ("message", JStr (exn_str e))]
              500)).

(** The value of a dictionary lookup that must succeed. *)
Definition lookup_or_key_error {A} (k : string) (o : option A) : M A :=
  match o with
  | Some a => ret a
  | None => raise (KeyError k)
  end.

(** [{x}] in an f-string for [x = location.get(key, 0)]. *)
Definition coordinate_str (o : option Q) : M ustring :=
  match o with
  | Some q => num_str q
  | None => ret (u "0")
  end.

Definition has_coordinate (o : option Q) : bool :=
  match o with Some q => num_truthy q | None => false end.

Definition phone_required : response :=
  cors_response
    [("status", JStr (u "error")); ("message", JStr (u "phoneNumber required"))]
    400.

Definition handle_jury_emergency_alert (body : body) : M response :=
  try_except
    (let victim_name := default (u "Unknown Person") (b_victimName body) in
     let detection_type := default (u "emergency") (b_detectionType body) in
     let detection_data :=
       default no_detection_data (b_detectionData body) in
     let loc := default no_location (b_location body) in
     match b_phoneNumber body with
     | Some p =>
         if str_truthy p then
           let emergency_phone := normalize_phone_number p in
           cc <- lookup_or_key_error "+1" (detect_country emergency_phone) ;;
           let country_code := fst cc in
           let country_config := snd cc in
           let language := c_language country_config in
           h <- uuid4_hex ;;
           let incident_id := u "EMG-" ++ upper (take 8 h) in
           store_incident incident_id victim_name emergency_phone
             detection_type loc country_code ;;;
           (if has_coordinate (loc_latitude loc)
               && has_coordinate (loc_longitude loc)
            then store_location_update incident_id victim_name loc None
            else ret tt) ;;;
           lat <- coordinate_str (loc_latitude loc) ;;
           lon <- coordinate_str (loc_longitude loc) ;;
           let google_maps_url :=
             u "https://www.google.com/maps?q=" ++ lat ++ u "," ++ lon in
           let tracking_url :=
             TRACKING_BASE_URL ++ u "?incident=" ++ incident_id in
           let t := fun key => get_translation key language in
           let danger_message :=
             if str_eqb detection_type (u "emergency_words") then
               let detected_words :=
                 default [u "emergency"] (dd_detectedWords detection_data) in
               t "emergency_alert" ++ u ": " ++ victim_name ++ u " "
                 ++ t "is_in_danger" ++ nl ++ t "emergency_words_detected"
                 ++ u ": " ++ join (u ", ") detected_words
             else if str_eqb detection_type (u "abrupt_noise") then
               t "emergency_alert" ++ u ": " ++ victim_name ++ u " "
                 ++ t "is_in_danger" ++ nl ++ t "loud_noise_detected"
             else
               t "emergency_alert" ++ u ": " ++ victim_name ++ u " "
                 ++ t "is_in_danger" in
           let place_name :=
             default (u "Unknown Location") (loc_placeName loc) in
           tm <- now ;;
           let sms_message :=
             ([63743; 252; 246; 174]%N ++ u " " ++ danger_message ++ nl ++ nl)
               ++ ([63743; 252; 236; 231]%N ++ u " " ++ t "live_tracking"
                     ++ u ":" ++ nl ++ google_maps_url ++ nl ++ nl)
               ++ (t "initial_location" ++ u ": " ++ place_name ++ nl ++ nl)
               ++ (t "incident" ++ u ": " ++ incident_id ++ nl)
               ++ (t "time" ++ u ": " ++ dt_hms tm ++ nl ++ nl)
               ++ (t "from" ++ u ": AllSensesAI Guardian") in
           sms_result <-
             send_sms_hybrid emergency_phone sms_message country_config ;;
           st1 <- index "status" sms_result ;;
           st2 <- index "status" sms_result ;;
           t' <- now ;;
           ret (cors_response
                  [("status",
                    match st1 with
                    | JStr x =>
                        if str_eqb x (u "sent") then JStr (u "success")
                        else JStr (u "partial")
                    | _ => JStr (u "partial")
                    end);
                   ("message", JStr (u "Emergency alert processed"));
                   ("incidentId", JStr incident_id);
                   ("victimName", JStr victim_name);
                   ("emergencyPhone", JStr emergency_phone);
                   ("country", JStr (c_name country_config));
                   ("countryCode", JStr country_code);
                   ("language", JStr language);
                   ("emergencyNumber",
                    JStr (c_emergency_number country_config));
                   ("trackingUrl", JStr tracking_url);
                   ("smsMessageId", get "messageId" sms_result);
                   ("smsStatus", st2);
                   ("smsMethod", get "method" sms_result);
                   ("smsError", get "error" sms_result);
                   ("timestamp", JStr (dt_iso t'))]
                  200)
         else ret phone_required
     | None => ret phone_required
     end)
    (fun e =>
       log_error (u "Emergency alert error: " ++ exn_str e) ;;;
       ret (cors_response
              [("status", JStr (u "error"));
               ("message", JStr (u "Emergency alert failed: " ++ exn_str e));
               ("errorType", JStr (exn_type e))]
              500)).

Definition handle_get_location (body : body) : M response :=
  try_except
    (match b_incidentId body with
     | Some incident_id =>
         if str_truthy incident_id then
           items <- query_locations incident_id false 1 ;;
           match items with
           | item :: _ =>
               ret (cors_response
                      [("status", JStr (u "success"));
                       ("location", JDict (fix_dict item))]
                      200)
           | [] =>
               ret (cors_response
                      [("status", JStr (u "error"));
                       ("message", JStr (u "No location found"))]
                      404)
           end
         else
           ret (cors_response
                  [("status", JStr (u "error"));
                   ("message", JStr (u "incidentId required"))]
                  400)
     | None =>
         ret (cors_response
                [("status", JStr (u "error"));
                 ("message", JStr (u "incidentId required"))]
                400)
     end)
    (fun e =>
       ret (cors_response
              [("status", JStr (u "error")); ("message", JStr (exn_str e))]
              500)).

End ColombiaWorking.

(* ================================================================== *)
(** * allsenseai-latam-international.py *)
(* ================================================================== *)

Module LatamInternational.

Definition ORIGINATOR_NUMBER_US : ustring := u "+12173933490".

Record country : Type := Country {
  c_name : ustring;
  c_emergency_number : ustring;
  c_language : ustring;
  c_timezone : ustring;
  c_originator : ustring;
  c_use_eum : bool
}.

Definition USA : country :=
  Country (u "USA") (u "911") (u "en") (u "America/New_York")
    ORIGINATOR_NUMBER_US true.

Definition COUNTRY_CONFIG : list (ustring * country) :=
  [(u "+1", USA);
   (u "+57", Country (u "Colombia") (u "123") (u "es")
               (u "America/Bogota") ORIGINATOR_NUMBER_US true);
   (u "+56", Country (u "Chile") (u "133") (u "es")
               (u "America/Santiago") ORIGINATOR_NUMBER_US true);
   (u "+58", Country (u "Venezuela") (u "911") (u "es")
               (u "America/Caracas") ORIGINATOR_NUMBER_US true);
   (u "+52", Country (u "Mexico") (u "911") (u "es")
               (u "America/Mexico_City") ORIGINATOR_NUMBER_US true)].

(** The loop of [detect_country] over a country table [tbl],
    [for code, config in tbl.items()]: the entries are visited in the order
    of the dictionary display; [None] is the [KeyError] of a table without
    the entry it indexes. *)
Definition detect_country_in (tbl : list (ustring * country))
    (phone_number : ustring) : option (ustring * country) :=
  let phone :=
    remove_char ch_dash (remove_char ch_space (strip phone_number)) in
  match List.find (fun entry => startswith phone (fst entry)) tbl with
  | Some (code, config) => Some (code, config)
  | None =>
      match assoc_get (u "+1") tbl with
      | Some config => Some (u "+1", config)
      | None => None
      end
  end.

Definition detect_country (phone_number : ustring)
  : option (ustring * country) :=
  detect_country_in COUNTRY_CONFIG phone_number.

(** [s[a:b]] for non-negative bounds. *)
Definition slice (a b : nat) (s : ustring) : ustring :=
  take (b - a) (drop a s).

Definition format_phone_number (phone_number : ustring) : ustring :=
  let phone :=
    remove_char ch_dash
      (remove_char ch_space (remove_char ch_plus phone_number)) in
  if startswith phone (u "1") then
    u "+1-" ++ slice 1 4 phone ++ u "-" ++ slice 4 7 phone ++ u "-"
      ++ drop 7 phone
  else if startswith phone (u "57") then
    u "+57-" ++ slice 2 5 phone ++ u "-" ++ drop 5 phone
  else if startswith phone (u "56") then
    u "+56-" ++ slice 2 3 phone ++ u "-" ++ drop 3 phone
  else if startswith phone (u "58") then
    u "+58-" ++ slice 2 5 phone ++ u "-" ++ drop 5 phone
  else if startswith phone (u "52") then
    u "+52-" ++ slice 2 4 phone ++ u "-" ++ drop 4 phone
  else phone_number.

End LatamInternational.

(* ================================================================== *)
(** * Regular expressions of the shape used by the validator *)
(* ================================================================== *)

(** [^], [$], one literal character, and a bounded greedy repetition
    [cls{lo,hi}] of a character class. *)
Inductive re_atom : Type :=
| ReBol
| ReEol
| ReLit (c : N)
| ReRep (cls : N -> bool) (lo hi : nat).

(** Greedy repetition with backtracking; [k] is the rest of the match,
    [pos] the number of characters consumed so far. *)
Fixpoint rep_match (cls : N -> bool) (lo hi : nat) (pos : nat) (s : ustring)
    (k : nat -> ustring -> bool) : bool :=
  match hi with
  | O => (lo =? 0)%nat && k pos s
  | S hi' =>
      match s with
      | c :: s' =>
          if cls c then
            rep_match cls (pred lo) hi' (S pos) s' k
            || ((lo =? 0)%nat && k pos s)
          else (lo =? 0)%nat && k pos s
      | [] => (lo =? 0)%nat && k pos s
      end
  end.

(** Without [re.MULTILINE], [^] matches at the start of the string and [$]
    at its end or just before a newline that ends it. *)
Fixpoint re_match_at (p : list re_atom) (pos : nat) (s : ustring) : bool :=
  match p with
  | [] => true
  | ReBol :: p' => (pos =? 0)%nat && re_match_at p' pos s
  | ReEol :: p' =>
      match s with
      | [] => true
      | [c] => (c =? ch_newline)%N
      | _ => false
      end && re_match_at p' pos s
  | ReLit c :: p' =>
      match s with
      | d :: s' => (c =? d)%N && re_match_at p' (S pos) s'
      | [] => false
      end
  | ReRep cls lo hi :: p' =>
      rep_match cls lo hi pos s (fun pos' s' => re_match_at p' pos' s')
  end.

(** [re.match(p, s)] as a truth value. *)
Definition re_match (p : list re_atom) (s : ustring) : bool :=
  re_match_at p 0 s.

(* ================================================================== *)
(** * allsenseai-universal-sms.py *)
(* ================================================================== *)

Module UniversalSms.

(** Module-level configuration read from the environment at import. *)
Record config : Type := Config {
  DEMO_MODE : bool;
  SMS_ORIGINATOR : ustring;
  SMS_CAMPAIGN_ID : ustring;
  TRACKING_URL_BASE : ustring
}.

(** [r'^\+\d{1,3}\d{4,14}$']. *)
Definition E164_PATTERN : list re_atom :=
  [ReBol; ReLit ch_plus; ReRep is_decimal 1 3; ReRep is_decimal 4 14; ReEol].

(** Returns the pair [(phone, error)], one of them [None]. *)
Definition validate_phone_number (phone : ustring)
  : option ustring * option ustring :=
  if negb (str_truthy phone) then (None, Some (u "Phone number is required"))
  else
    let phone := remove_char ch_dash (remove_char ch_space phone) in
    let phone := if startswith phone (u "+") then phone else u "+" ++ phone in
    if negb (re_match E164_PATTERN phone) then
      (None,
       Some (u "Invalid phone format: " ++ phone
               ++ u ". Must be E.164 format (+country_code + number)"))
    else (Some phone, None).

Definition AttributeError : exn :=
  Exn (u "AttributeError")
      (u "'NoneType' object has no attribute 'startswith'")
      (u "AttributeError(" ++ [34%N]
         ++ u "'NoneType' object has no attribute 'startswith'" ++ [34%N]
         ++ u ")")
      NoResponse.

Definition latam_codes : list ustring := [u "+57"; u "+52"; u "+55"; u "+54"].

Definition send_sms_with_eum (cfg : config) (phone_number message : ustring)
    (event_id : option ustring) : M dict :=
  try_except
    (let '(validated_phone, error) := validate_phone_number phone_number in
     match error with
     | Some err =>
         log_error ([10060%N] ++ u " Phone validation failed: " ++ err) ;;;
         ret [("status", JStr (u "failed"));
              ("error", JStr err);
              ("phone", JStr phone_number);
              ("realSms", JBool false)]
     | None =>
         if DEMO_MODE cfg then
           h <- uuid4_hex ;;
           ret [("status", JStr (u "sent"));
                ("messageId", JStr (u "demo-" ++ take 12 h));
                ("phone", opt_str validated_phone);
                ("realSms", JBool false);
                ("demoMode", JBool true);
                ("note", JStr (u "SMS simulated (DEMO_MODE=true)"))]
         else
           validated <-
             match validated_phone with
             | Some v => ret v
             | None => raise AttributeError
             end ;;
           let is_latam :=
             existsb (fun code => startswith validated code) latam_codes in
           let message :=
             if match event_id with Some ev => str_truthy ev | None => false end
                && str_truthy (TRACKING_URL_BASE cfg) && negb is_latam
             then
               message ++ nl ++ nl ++ u "Track: "
                 ++ (TRACKING_URL_BASE cfg ++ u "?incident="
                       ++ default [] event_id)
             else message in
           let message_attributes :=
             [("AWS.SNS.SMS.SMSType", u "Transactional")]
               ++ (if str_truthy (SMS_ORIGINATOR cfg) && negb is_latam
                   then [("AWS.SNS.SMS.SenderID", SMS_ORIGINATOR cfg)]
                   else []) in
           try_except
             (response <- provider_call
                            (ESnsPublish validated message
                               message_attributes) ;;
              message_id <- index "MessageId" response ;;
              t <- now ;;
              ret [("status", JStr (u "sent"));
                   ("messageId", message_id);
                   ("phone", JStr validated);
                   ("realSms", JBool true);
                   ("smsMethod", JStr (u "SNS"));
                   ("originator", JStr (SMS_ORIGINATOR cfg));
                   ("campaignId", JStr (SMS_CAMPAIGN_ID cfg));
                   ("timestamp", JStr (dt_iso t))])
             (fun sns_error =>
                log_error ([10060%N] ++ u " SNS PUBLISH FAILED!") ;;;
                log_error (u "   Error Type: " ++ exn_type sns_error) ;;;
                log_error (u "   Error Message: " ++ exn_str sns_error) ;;;
                log_error (u "   Phone: " ++ validated) ;;;
                log_error (u "   Full exception:") ;;;
                ret [("status", JStr (u "failed"));
                     ("error", JStr (u "SNS Error: " ++ exn_str sns_error));
                     ("errorType", JStr (exn_type sns_error));
                     ("phone", JStr validated);
                     ("realSms", JBool false);
                     ("note",
                      JStr (u "SNS publish call failed - check IAM permissions and SNS configuration"))])
     end)
    (fun e =>
       let error_msg := exn_str e in
       log_error ([10060%N] ++ u " SMS function error for " ++ phone_number
                    ++ u ": " ++ error_msg) ;;;
       ret [("status", JStr (u "failed"));
            ("error", JStr error_msg);
            ("phone", JStr phone_number);
            ("realSms", JBool false);
            ("note",
             JStr (u "SMS delivery failed - check CloudWatch logs for details"))]).

Definition cors_response (data : dict) (status_code : Z) : response :=
  Response status_code
    [("Content-Type", "application/json");
     ("Access-Control-Allow-Origin", "*");
     ("Access-Control-Allow-Methods", "GET,POST,OPTIONS");
     ("Access-Control-Allow-Headers", "Content-Type,Authorization")]
    data.

Record contact : Type := Contact {
  ct_name : option ustring;
  ct_phone : option ustring;
  ct_optedIn : option bool;
  ct_relationship : option ustring;
  ct_priority : option Z
}.

Record user_profile : Type := UserProfile {
  up_victimName : option ustring;
  up_contacts : option (list contact)
}.

(** [{x}] in an f-string for a value that is a string or [None]. *)
Definition str_or_none (j : json) : ustring :=
  match j with JStr x => x | _ => u "None" end.

(** The body of the loop of [dispatch_emergency_sms_universal]: the entry
    appended to [results] for one opted-in contact. *)
Definition dispatch_contact (cfg : config) (sms_text event_id : ustring)
    (contact : contact) : M dict :=
  let contact_name := default (u "Unknown") (ct_name contact) in
  let contact_phone := ct_phone contact in
  match contact_phone with
  | Some phone =>
      if str_truthy phone then
        let is_latam_number :=
          existsb (fun code => startswith phone code) latam_codes in
        sms_result <-
          (if is_latam_number then send_sms_with_eum cfg phone sms_text None
           else send_sms_with_eum cfg phone sms_text (Some event_id)) ;;
        let sms_result :=
          dict_set "contactName" (JStr contact_name) sms_result in
        let sms_result :=
          dict_set "relationship"
            (JStr (default (u "contact") (ct_relationship contact)))
            sms_result in
        let sms_result :=
          dict_set "priority" (JInt (default 99 (ct_priority contact)))
            sms_result in
        status <- index "status" sms_result ;;
        (if match status with
            | JStr x => str_eqb x (u "sent")
            | _ => false
            end
         then ret tt
         else
           log_error ([10060%N] ++ u " SMS failed for " ++ contact_name
                        ++ u " (" ++ phone ++ u "): "
                        ++ str_or_none (get "error" sms_result))) ;;;
        ret sms_result
      else
        log_warning (u "Contact " ++ contact_name ++ u " has no phone number") ;;;
        ret [("contactName", JStr contact_name);
             ("status", JStr (u "failed"));
             ("error", JStr (u "No phone number provided"));
             ("relationship",
              JStr (default (u "contact") (ct_relationship contact)))]
  | None =>
      log_warning (u "Contact " ++ contact_name ++ u " has no phone number") ;;;
      ret [("contactName", JStr contact_name);
           ("status", JStr (u "failed"));
           ("error", JStr (u "No phone number provided"));
           ("relationship",
            JStr (default (u "contact") (ct_relationship contact)))]
  end.

(** [for contact in opted_contacts: ... results.append(...)]. *)
Fixpoint dispatch_contacts (cfg : config) (sms_text event_id : ustring)
    (contacts : list contact) : M (list dict) :=
  match contacts with
  | [] => ret []
  | c :: cs =>
      r <- dispatch_contact cfg sms_text event_id c ;;
      rs <- dispatch_contacts cfg sms_text event_id cs ;;
      ret (r :: rs)
  end.

(** The entries of [location_data] and [distress_result] that the
    dispatcher indexes.  The confidence is a Python float, as every
    producer of a distress result in the file makes it (0.87, 0.1, or
    the number of the model's JSON answer). *)
Record location_data : Type := LocationData {
  ld_placeName : ustring
}.

Record distress_result : Type := DistressResult {
  dr_confidence : float
}.

Definition dispatch_emergency_sms_universal (cfg : config)
    (profile : user_profile) (loc : location_data)
    (distress : distress_result) (event_id : ustring) : M (list dict) :=
  let victim_name := default (u "Unknown") (up_victimName profile) in
  let contacts := default [] (up_contacts profile) in
  let opted_contacts :=
    List.filter (fun c => default false (ct_optedIn c)) contacts in
  match opted_contacts with
  | [] =>
      log_warning (u "No opted-in contacts found") ;;;
      ret [[("status", JStr (u "error"));
            ("message", JStr (u "No opted-in contacts"))]]
  | _ =>
      confidence_percent <-
        int_of_float (PrimFloat.mul (dr_confidence distress) 100%float) ;;
      let sms_text :=
        u "AllSensesAI Alert: " ++ victim_name ++ u " at "
          ++ ld_placeName loc ++ u ". Status update required. Ref: "
          ++ take 8 event_id in
      dispatch_contacts cfg sms_text event_id opted_contacts
  end.

Definition handle_jury_emergency_alert (cfg : config) (body : body)
  : M response :=
  try_except
    (let victim_name := default (u "Unknown Person") (b_victimName body) in
     let emergency_phone := default (u "+13053033060") (b_phoneNumber body) in
     let detection_type := default (u "emergency") (b_detectionType body) in
     let detection_data :=
       default no_detection_data (b_detectionData body) in
     let loc := default no_location (b_location body) in
     h <- uuid4_hex ;;
     let incident_id := u "EMG-" ++ upper (take 8 h) in
     danger_message <-
       (if str_eqb detection_type (u "emergency_words") then
          let detected_words :=
            default [u "emergency"] (dd_detectedWords detection_data) in
          ret ([128680%N] ++ u " EMERGENCY: " ++ victim_name
                 ++ u " is in DANGER! Words detected: " ++ [34%N]
                 ++ join (u ", ") detected_words ++ [34%N])
        else if str_eqb detection_type (u "abrupt_noise") then
          volume <-
            match dd_volume detection_data with
            | Some q => num_str q
            | None => ret (u "high")
            end ;;
          ret ([128680%N] ++ u " EMERGENCY: " ++ victim_name
                 ++ u " is in DANGER! Loud noise: " ++ volume ++ u " dB")
        else
          ret ([128680%N] ++ u " EMERGENCY: " ++ victim_name
                 ++ u " is in DANGER! Emergency detected")) ;;
     let place_name := default (u "Unknown location") (loc_placeName loc) in
     let map_link :=
       default (u "https://maps.google.com/?q=25.7617,-80.1918")
         (loc_mapLink loc) in
     t <- now ;;
     let sms_message :=
       danger_message ++ nl ++ nl ++ u "Location: " ++ place_name ++ nl
         ++ u "Map: " ++ map_link ++ nl ++ nl ++ u "Incident: " ++ incident_id
         ++ nl ++ u "Time: " ++ dt_hms t in
     sms_result <-
       send_sms_with_eum cfg emergency_phone sms_message (Some incident_id) ;;
     t' <- now ;;
     ret (cors_response
            [("status", JStr (u "success"));
             ("message", JStr (u "Emergency alert sent"));
             ("incidentId", JStr incident_id);
             ("victimName", JStr victim_name);
             ("emergencyPhone", JStr emergency_phone);
             ("detectionType", JStr detection_type);
             ("smsResult", JDict sms_result);
             ("timestamp", JStr (dt_iso t'))]
            200))
    (fun e =>
       log_error (u "Emergency alert error: " ++ exn_str e) ;;;
       ret (cors_response
              [("status", JStr (u "error")); ("message", JStr (exn_str e))]
              500)).

End UniversalSms.

(* ================================================================== *)
(** * allsenseai-improved.py *)
(* ================================================================== *)

Module Improved.

Definition JURY_PHONE_NUMBER : ustring := u "+13053033060".

Record contact : Type := Contact {
  ct_name : ustring;
  ct_phone : ustring;
  ct_optedIn : option bool;
  ct_relationship : option ustring;
  ct_priority : option Z
}.

Record user_profile : Type := UserProfile {
  up_victimName : option ustring;
  up_contacts : option (list contact)
}.

Record location_data : Type := LocationData {
  ld_placeName : ustring;
  ld_mapLink : ustring
}.

(** The confidence is a Python float (0.9, 0.7, 0.1, or the number of
    the model's JSON answer). *)
Record distress_result : Type := DistressResult {
  dr_level : ustring;
  dr_confidence : float;
  dr_urgency : option ustring
}.

Definition sms_text (urgency victim_name level : ustring)
    (confidence_percent : Z) (loc : location_data) (hms event_id : ustring)
  : ustring :=
  [128680%N] ++ u " [AllSensesAI JURY DEMO] " ++ urgency ++ u " ALERT for "
    ++ victim_name ++ u "!" ++ nl ++ nl
    ++ u "Threat detected: " ++ level ++ u " ("
    ++ str_of_Z confidence_percent ++ u "% confidence)" ++ nl
    ++ u "Location: " ++ ld_placeName loc ++ nl
    ++ u "Map: " ++ ld_mapLink loc ++ nl
    ++ u "Time: " ++ hms ++ nl
    ++ u "Event ID: " ++ take 8 event_id ++ nl ++ nl
    ++ u "This is a live hackathon demonstration of our AI emergency detection system.".




End Improved.

(* ================================================================== *)
(** * allsenseai-live-tracking.py *)
(* ================================================================== *)

Module LiveTracking.

Definition cors_response (data : dict) (status_code : Z) : response :=
  Response status_code
    [("Content-Type", "application/json");
     ("Access-Control-Allow-Origin", "*");
     ("Access-Control-Allow-Methods", "GET,POST,OPTIONS");
     ("Access-Control-Allow-Headers", "Content-Type,Authorization")]
    data.

Definition incident_id_required : response :=
  cors_response
    [("status", JStr (u "error"));
     ("message", JStr (u "incidentId is required"))]
    400.

Definition handle_get_location_history (body : body) : M response :=
  try_except
    (let incident_id := b_incidentId body in
     let limit := default 100 (b_limit body) in
     match incident_id with
     | Some id =>
         if str_truthy id then
           items <- query_locations id true limit ;;
           t <- now ;;
           ret (cors_response
                  [("status", JStr (u "success"));
                   ("history", JList (List.map (fun f => JDict (fix_dict f))
                                        items));
                   ("count", JInt (Z.of_nat (length items)));
                   ("timestamp", JStr (dt_iso t))]
                  200)
         else ret incident_id_required
     | None => ret incident_id_required
     end)
    (fun e =>
       log_error (u "Get location history error: " ++ exn_str e) ;;;
       ret (cors_response
              [("status", JStr (u "error")); ("message", JStr (exn_str e))]
              500)).

End LiveTracking.

(* ================================================================== *)
(** * allsense-complete-lambda.py *)
(* ================================================================== *)

Module CompleteLambda.

(** The primary template of [send_emergency_sms]; [lat] and [lon] are the
    coordinates as the f-string prints them. *)
Definition primary_template (victim_name place_name lat lon map_link
    local_time : ustring) (confidence_percent : Z) : ustring :=
  u "[AllSenseAI] Emergency alert for " ++ victim_name
    ++ u ". Possible danger detected at " ++ place_name
    ++ u " (" ++ lat ++ u "," ++ lon ++ u ") " ++ [8212%N] ++ u " "
    ++ map_link ++ u " Time: " ++ local_time ++ u ". Confidence: "
    ++ str_of_Z confidence_percent
    ++ u "%. Please reply OK if you received this.".

(** The fallback template. *)
Definition short_template (victim_name lat lon map_link local_time : ustring)
  : ustring :=
  u "[AllSenseAI] Emergency alert for " ++ victim_name
    ++ u ". Location: " ++ lat ++ u "," ++ lon ++ u " " ++ [8212%N] ++ u " "
    ++ map_link ++ u " Time: " ++ local_time ++ u ". Reply OK to confirm.".

(** The text [send_emergency_sms] sends to every contact. *)
Definition sms_text (victim_name place_name lat lon map_link
    local_time : ustring) (confidence_percent : Z) : ustring :=
  let text :=
    primary_template victim_name place_name lat lon map_link local_time
      confidence_percent in
  if 160 <? len text then
    short_template victim_name lat lon map_link local_time
  else text.

End CompleteLambda.
(* ================================================================== *)
(** * Auxiliary definitions used in the statements *)
(* ================================================================== *)

(** A world in which every collaborator answers, and an empty state. *)
Definition sample_clock (n : nat) : datetime :=
  Datetime (1700000000000000 + Z.of_nat n * 1000)
    (u "2023-11-14T22:13:20+00:00") (u "22:13:20")
    (u "2023-11-14 22:13:20 UTC").

Definition sample_world : world :=
  World (fun _ => None) (fun _ => [("MessageId", JStr (u "msg-0001"))])
    (fun _ => None) sample_clock (fun _ => 3735928559%N)
    (fun _ => Ok empty_body) (fun _ => u "0.0") (fun c => [c]).

(** An exception of the provider or of the store. *)
Definition sample_exn : exn :=
  Exn (u "ClientError") (u "service unavailable")
    (u "ClientError('service unavailable')")
    (ResponseDict (Some (u "ServiceUnavailable"))
       (Some (u "service unavailable"))).

(** The same world with failing messaging providers. *)
Definition provider_down : world :=
  World (fun _ => Some sample_exn) (w_reply sample_world)
    (w_store sample_world) (w_clock sample_world) (w_uuid sample_world)
    (w_json_loads sample_world) (w_num_str sample_world)
    (w_upper sample_world).

(** The same world with a failing key-value store. *)
Definition store_down : world :=
  World (w_send sample_world) (w_reply sample_world)
    (fun _ => Some sample_exn) (w_clock sample_world) (w_uuid sample_world)
    (w_json_loads sample_world) (w_num_str sample_world)
    (w_upper sample_world).

Definition empty_state : state := State 0 0 0 0 [] ∅ ∅.

(** A request that only carries an action, and one that also names an
    incident. *)
Definition action_only (a : ustring) : body :=
  Body (Some a) None None None None None None None None None.

Definition for_incident (a id : ustring) : body :=
  Body (Some a) None None None None None None (Some id) None None.

(** The item [EumWithTracking.handle_update_location] writes for the
    request [b] when the clock reads [t1], then [t2]. *)
Definition written_fix (id : ustring) (b : body) (t1 t2 : datetime)
  : location_fix :=
  let loc := default no_location (b_location b) in
  LocationFix id (millis t1) None
    (default 0%Q (loc_latitude loc)) (default 0%Q (loc_longitude loc))
    (Some (default 0%Q (loc_accuracy loc)))
    (EumWithTracking.truthy_num (loc_speed loc))
    (EumWithTracking.truthy_num (loc_heading loc))
    (b_batteryLevel b) (seconds_after t2 (24 * 3600)).

(** A normalized phone number: a plus sign followed by ASCII digits only. *)
Definition plus_digits (s : ustring) : bool :=
  match s with
  | c :: ds => (c =? ch_plus)%N && forallb is_ascii_digit ds
  | [] => false
  end.

(** [a] comes before [b] in a list sorted by decreasing length. *)
Definition len_desc (a b : ustring) : Prop := (length b <= length a)%nat.

(** The characters a phone number is cleaned of. *)
Definition is_separator (c : N) : bool :=
  (c =? ch_space)%N || (c =? ch_dash)%N || (c =? ch_lparen)%N
  || (c =? ch_rparen)%N.

(** The last character of a string is a white-space character. *)
Definition ends_with_space (s : ustring) : bool :=
  match last s with Some c => isspace c | None => false end.

(** A table in which one registered prefix extends another. *)
Definition nested_table : list (ustring * ColombiaWorking.country) :=
  [(u "+1", ColombiaWorking.USA);
   (u "+1809",
    ColombiaWorking.Country (u "Dominican Republic") (u "911") (u "es")
      false true)].

(** The input of [normalize_phone_number] once stripped and cleaned of
    spaces, dashes and parentheses. *)
Definition cleaned (s : ustring) : ustring :=
  remove_char ch_rparen
    (remove_char ch_lparen
       (remove_char ch_dash (remove_char ch_space (strip s)))).

(** Events that are calls to a messaging provider. *)
Definition is_provider_call (e : event) : bool :=
  match e with
  | ESendTextMessage _ _ _ _ _ | ESnsPublish _ _ _ | EDescribe _ => true
  | ELog _ _ => false
  end.

Definition provider_calls (s : state) : list event :=
  List.filter is_provider_call (st_events s).





(** The configuration of the universal sender when no environment variable
    is set, and the same configuration in demo mode. *)
Definition default_config : UniversalSms.config :=
  UniversalSms.Config false (u "AllSensesAI") (u "AllSensesAI-SafetyAlerts")
    (u "https://d2s71iq0yaelxo.cloudfront.net/live-tracking.html").

Definition demo_config : UniversalSms.config :=
  UniversalSms.Config true (u "AllSensesAI") (u "AllSensesAI-SafetyAlerts")
    (u "https://d2s71iq0yaelxo.cloudfront.net/live-tracking.html").

(** The alert text the tracking handler composes for the request [b] with
    incident id [id] at a clock reading [t]. *)
Definition eum_alert_text (b : body) (id : ustring) (t : datetime) : ustring :=
  let loc := default no_location (b_location b) in
  EumWithTracking.sms_message
    (EumWithTracking.danger_message
       (default (u "Unknown Person") (b_victimName b))
       (default (u "emergency") (b_detectionType b))
       (default no_detection_data (b_detectionData b)))
    (default (u "Miami Convention Center, FL") (loc_placeName loc))
    id (dt_hms t).

(** A victim name of one hundred and twenty characters. *)
Definition long_name : ustring := List.repeat 65%N 120.

(** The location table is keyed by the attributes of its items, as every
    table written by [put_location] is. *)
Definition keyed (tbl : gmap (ustring * Z) location_fix) : Prop :=
  forall k f, tbl !! k = Some f -> k = (fx_incidentId f, fx_timestamp f).

(** A fix of incident [id] captured at [ts]. *)
Definition fix_at (id : ustring) (ts : Z) : location_fix :=
  LocationFix id ts None (257617 # 10000) (-801918 # 10000) (Some (5 # 1))
    None None (Some 80) (ts / 1000 + 86400).

(** A table with three fixes of the incident EMG-1, written out of order,
    and one fix of another incident. *)
Definition three_fixes : gmap (ustring * Z) location_fix :=
  <[(u "EMG-1", 2000) := fix_at (u "EMG-1") 2000]>
    (<[(u "EMG-2", 2500) := fix_at (u "EMG-2") 2500]>
       (<[(u "EMG-1", 3000) := fix_at (u "EMG-1") 3000]>
          (<[(u "EMG-1", 1000) := fix_at (u "EMG-1") 1000]> ∅))).


(** Postconditions.  [returns P m]: every run of [m] that returns, returns
    a value that satisfies [P].  [always P m]: every run of [m] returns,
    and the value satisfies [P]. *)
Definition returns {A} (P : A -> Prop) (m : M A) : Prop :=
  forall w s a s', m w s = (Ok a, s') -> P a.

Definition always {A} (P : A -> Prop) (m : M A) : Prop :=
  forall w s, exists a s', m w s = (Ok a, s') /\ P a.

(** The headers every [cors_response] carries. *)
Definition cors_headers : list (string * string) :=
  [("Content-Type", "application/json");
   ("Access-Control-Allow-Origin", "*");
   ("Access-Control-Allow-Methods", "GET,POST,OPTIONS");
   ("Access-Control-Allow-Headers", "Content-Type,Authorization")].

(** An answer of the API: the CORS headers and one of the three status
    codes the handlers use. *)
Definition http_answer (r : response) : Prop :=
  headers r = cors_headers
  /\ (statusCode r = 200 \/ statusCode r = 400 \/ statusCode r = 500).

(** The [status] entry of the body of a response. *)
Definition status_of (r : response) : option json :=
  dict_get "status" (resp_body r).


(** A world whose JSON parser rejects every text. *)
Definition JSONDecodeError : exn :=
  Exn (u "JSONDecodeError") (u "Expecting value: line 1 column 1 (char 0)")
    (u "JSONDecodeError('Expecting value: line 1 column 1 (char 0)')")
    NoResponse.

Definition parser_down : world :=
  World (w_send sample_world) (w_reply sample_world) (w_store sample_world)
    (w_clock sample_world) (w_uuid sample_world)
    (fun _ => Raise JSONDecodeError) (w_num_str sample_world)
    (w_upper sample_world).

(** The dictionary [handle_get_location] reports for the fix that
    [handle_update_location] writes for the request [b] at the clock
    reading [t]. *)
Definition reported_fix (b : body) (t : datetime) : dict :=
  let loc := default no_location (b_location b) in
  [("latitude", JNum (default 0%Q (loc_latitude loc)));
   ("longitude", JNum (default 0%Q (loc_longitude loc)));
   ("accuracy", JNum (default 0%Q (loc_accuracy loc)));
   ("speed", opt_num (EumWithTracking.truthy_num (loc_speed loc)));
   ("heading", opt_num (EumWithTracking.truthy_num (loc_heading loc)));
   ("batteryLevel", opt_int (b_batteryLevel b));
   ("timestamp", JInt (millis t))].

(** A request that reports a position at rest, heading north. *)
Definition at_rest : body :=
  Body (Some (u "UPDATE_LOCATION")) None None None None None
    (Some (Location (Some (257617 # 10000)) (Some (-801918 # 10000)) None
             (Some (0 # 1)) (Some (0 # 1)) None None))
    (Some (u "EMG-1")) (Some 0) None.

(** The country codes that the hybrid-routing variant sends through SNS. *)
Definition sns_prefixes : list ustring :=
  [u "+57"; u "+56"; u "+58"; u "+52"].

Definition via_sns (phone : ustring) : bool :=
  existsb (fun code => startswith phone code) sns_prefixes.

(** The keys of the translation tables. *)
Definition translation_keys : list string :=
  ["emergency_alert"; "is_in_danger"; "emergency_words_detected";
   "loud_noise_detected"; "live_tracking"; "initial_location"; "incident";
   "time"; "from"; "system_test"; "system_ready";
   "emergency_detection_operational"].

(** A request for an alert to a Colombian number. *)
Definition alert_to_bogota : body :=
  Body (Some (u "JURY_EMERGENCY_ALERT")) (Some (u "Ana")) 
    (Some (u "+57 (300) 123-4567")) None None None None None None None.

(** A number that the universal sender treats as Latin American. *)
Definition is_latam (phone : ustring) : bool :=
  existsb (fun code => startswith phone code) UniversalSms.latam_codes.

(** A contact of the universal dispatcher has a usable phone number. *)
Definition has_phone (c : UniversalSms.contact) : bool :=
  match UniversalSms.ct_phone c with
  | Some p => str_truthy p
  | None => false
  end.

(** The contacts of a profile that opted in. *)
Definition opted_in (profile : UniversalSms.user_profile)
  : list UniversalSms.contact :=
  List.filter (fun c => default false (UniversalSms.ct_optedIn c))
    (default [] (UniversalSms.up_contacts profile)).

(** A provider reply without a message id. *)
Definition no_message_id : world :=
  World (w_send sample_world) (fun _ => [("ResponseMetadata", JDict [])])
    (w_store sample_world) (w_clock sample_world) (w_uuid sample_world)
    (w_json_loads sample_world) (w_num_str sample_world)
    (w_upper sample_world).

(** A profile with a contact in Bogota, one without a phone number and one
    who did not opt in. *)
Definition family : UniversalSms.user_profile :=
  UniversalSms.UserProfile (Some (u "Ana"))
    (Some [UniversalSms.Contact (Some (u "Luis")) (Some (u "+573001234567"))
             (Some true) (Some (u "brother")) (Some 1);
           UniversalSms.Contact (Some (u "Eva")) None (Some true) None None;
           UniversalSms.Contact (Some (u "Max")) (Some (u "+13053033060"))
             None None None]).

(** The text the universal dispatcher composes. *)
Definition universal_text (profile : UniversalSms.user_profile)
    (loc : UniversalSms.location_data) (event_id : ustring) : ustring :=
  u "AllSensesAI Alert: "
    ++ default (u "Unknown") (UniversalSms.up_victimName profile)
    ++ u " at " ++ UniversalSms.ld_placeName loc
    ++ u ". Status update required. Ref: " ++ take 8 event_id.

(** The place and the analysis the dispatcher is given in the examples. *)
Definition bogota : UniversalSms.location_data :=
  UniversalSms.LocationData (u "Bogota").

Definition distressed : UniversalSms.distress_result :=
  UniversalSms.DistressResult (87 / 100)%float.

(** What an entry of the dispatcher's result says of its contact. *)
Definition entry_of (c : UniversalSms.contact) (r : dict) : Prop :=
  dict_get "contactName" r
  = Some (JStr (default (u "Unknown") (UniversalSms.ct_name c)))
  /\ (dict_get "status" r = Some (JStr (u "sent"))
      \/ dict_get "status" r = Some (JStr (u "failed")))
  /\ (has_phone c = false ->
      dict_get "status" r = Some (JStr (u "failed"))
      /\ dict_get "error" r = Some (JStr (u "No phone number provided"))).

(** A provider call of the dispatcher: an SNS publish that, for a Latin
    American number, carries the text [text] and no sender id. *)
Definition plain_for_latam (text : ustring) (e : event) : Prop :=
  exists v t attrs,
    e = ESnsPublish v t attrs
    /\ (is_latam v = true ->
        t = text /\ attrs = [("AWS.SNS.SMS.SMSType", u "Transactional")]).

(** An alert request to a number that is not a phone number. *)
Definition alert_to_nobody : body :=
  Body (Some (u "JURY_EMERGENCY_ALERT")) (Some (u "Ana")) (Some (u "n/a"))
    None (Some (u "abrupt_noise")) None None None None None.




(** A table of the Latin-American variant in which one registered prefix
    extends another, and a number that both prefixes match. *)
Definition latam_nested_table
  : list (ustring * LatamInternational.country) :=
  [(u "+1", LatamInternational.USA);
   (u "+1809",
    LatamInternational.Country (u "Dominican Republic") (u "911") (u "es")
      (u "America/Santo_Domingo") LatamInternational.ORIGINATOR_NUMBER_US
      true)].

Definition santo_domingo : ustring := u "+18095551234".

(** The [response] attribute of an exception is [None]. *)
Definition response_is_none (e : exn) : bool :=
  match exn_response e with ResponseNone => true | _ => false end.

(** A time-out of the client library: an exception whose [response] is
    [None], and the world in which the messaging provider raises it. *)
Definition read_timeout : exn :=
  Exn (u "ReadTimeoutError") (u "Read timeout on endpoint URL")
    (u "ReadTimeoutError('Read timeout on endpoint URL')") ResponseNone.

Definition provider_timeout : world :=
  World (fun _ => Some read_timeout) (w_reply sample_world)
    (w_store sample_world) (w_clock sample_world) (w_uuid sample_world)
    (w_json_loads sample_world) (w_num_str sample_world)
    (w_upper sample_world).

(** A world in which the store is down and the provider times out. *)
Definition all_down : world :=
  World (w_send provider_timeout) (w_reply sample_world)
    (w_store store_down) (w_clock sample_world) (w_uuid sample_world)
    (w_json_loads sample_world) (w_num_str sample_world)
    (w_upper sample_world).




(** A history request whose incident id and limit may be missing. *)
Definition history_of (id : option ustring) (limit : option Z) : body :=
  Body (Some (u "GET_LOCATION_HISTORY")) None None None None None None
    id None limit.

(** A float that [int] converts: neither NaN nor an infinity. *)
Definition has_integer (x : float) : bool :=
  match Prim2SF x with
  | S754_nan | S754_infinity _ => false
  | _ => true
  end.

(** Distress results whose confidence is not a number, and so large that
    its hundredfold is infinite. *)
Definition unmeasured : UniversalSms.distress_result :=
  UniversalSms.DistressResult nan.

(* ================================================================== *)
(** * Basic facts about strings *)
(* ================================================================== *)

(** Symbolic execution of a monadic computation from a state given by its
    components. *)
Ltac run :=
  cbv beta iota zeta delta
    [try_except bind ret raise provider_call now uuid4_hex log_error
     log_warning emit index json_loads num_str put_incident put_location
     store_tick st_sends st_stores st_ticks st_uuids st_events st_incidents
     st_locations str_upper EumWithTracking.response_error] in *.

(** Decides whether the location of an incident holds a float, once its
    coordinates are known. *)
Ltac floats :=
  cbn [json_has_float inc_initialLocation opt_num orb] in *; run.

Lemma str_eqb_spec (a b : ustring) : str_eqb a b = true <-> a = b.
Proof.
  revert b; induction a as [|c a IH]; intros [|d b]; simpl; try easy.
  rewrite andb_true_iff, N.eqb_eq, IH. split.
  - intros [-> ->]; reflexivity.
  - intros [= -> ->]; auto.
Qed.

Lemma str_eqb_refl (a : ustring) : str_eqb a a = true.
Proof. apply str_eqb_spec; reflexivity. Qed.

Lemma str_eqb_neq (a b : ustring) : a <> b -> str_eqb a b = false.
Proof.
  intros H. destruct (str_eqb a b) eqn:E; [|reflexivity].
  apply str_eqb_spec in E. contradiction.
Qed.

(* ================================================================== *)
(** * Routing of unknown actions *)
(* ================================================================== *)

Section handler_unknown.
Import EumWithTracking.

(** C9.  When the request is not a pre-flight, its body has been parsed and
    its [action] is a string outside the recognized actions, the handler
    answers with HTTP 200 and a body whose status is [success] and which
    echoes the action; nothing is sent, logged or stored. *)
Theorem handler_unknown_action_success (w : world) (s : state) (event : lambda_event)
    (b : body) (a : ustring) :
  ev_httpMethod event <> Some (u "OPTIONS") ->
  parse_body event w s = (Ok b, s) ->
  b_action b = Some a ->
  ~ In a recognized_actions ->
  exists resp s',
    handler event w s = (Ok resp, s')
    /\ statusCode resp = 200
    /\ dict_get "status" (resp_body resp) = Some (JStr (u "success"))
    /\ dict_get "action" (resp_body resp) = Some (JStr a)
    /\ st_events s' = st_events s
    /\ st_incidents s' = st_incidents s
    /\ st_locations s' = st_locations s.
Proof.
  intros Hm Hp Ha Hn.
  unfold handler, try_except, bind.
  assert (Hpre : match ev_httpMethod event with
                 | Some m => str_eqb m (u "OPTIONS") | None => false end = false).
  { destruct (ev_httpMethod event) as [m|]; [|reflexivity].
    apply str_eqb_neq. congruence. }
  rewrite Hpre, Hp, Ha. cbn [default from_option id].
  unfold recognized_actions in Hn. simpl in Hn.
  repeat match goal with
  | |- context [str_eqb a ?x] => rewrite (str_eqb_neq a x) by (intros ->; apply Hn; tauto)
  end.
  eexists _, _. split; [reflexivity|].
  repeat split; reflexivity.
Qed.
End handler_unknown.

Lemma handler_unknown_action_witness :
  exists resp s',
    EumWithTracking.handler
      (LambdaEvent (Some (u "POST")) (BodyObject (action_only (u "PING"))))
      sample_world empty_state = (Ok resp, s')
    /\ statusCode resp = 200
    /\ dict_get "status" (resp_body resp) = Some (JStr (u "success"))
    /\ dict_get "action" (resp_body resp) = Some (JStr (u "PING"))
    /\ st_events s' = st_events empty_state
    /\ st_incidents s' = st_incidents empty_state
    /\ st_locations s' = st_locations empty_state.
Proof.
  apply (handler_unknown_action_success sample_world empty_state
           (LambdaEvent (Some (u "POST"))
              (BodyObject (action_only (u "PING"))))
           (action_only (u "PING")) (u "PING")).
  - vm_compute. discriminate.
  - reflexivity.
  - reflexivity.
  - vm_compute. intuition discriminate.
Defined.

(* ================================================================== *)
(** * Location updates *)
(* ================================================================== *)

Section update_location.



Lemma update_location_store_down (w : world) (s : state) (b : body)
    (id : ustring) (e : exn) :
  b_incidentId b = Some id -> id <> [] ->
  w_store w (st_stores s) = Some e ->
  exists resp s',
    EumWithTracking.handle_update_location b w s = (Ok resp, s')
    /\ statusCode resp = 500
    /\ dict_get "status" (resp_body resp) = Some (JStr (u "error"))
    /\ st_locations s' = st_locations s
    /\ st_incidents s' = st_incidents s.
Proof.
  intros H Hid Hst.
  unfold EumWithTracking.handle_update_location, try_except, bind.
  rewrite H. destruct id as [|c id]; [contradiction|].
  cbn [str_truthy]. unfold now, put_location. cbn. rewrite Hst. cbn.
  eexists _, _. split; [reflexivity|]. repeat split; reflexivity.
Qed.



End update_location.




(* ================================================================== *)
(** * Country detection *)
(* ================================================================== *)

Lemma startswith_app (s p : ustring) :
  startswith s p = true <-> exists rest, s = p ++ rest.
Proof.
  revert s; induction p as [|c p IH]; intros s; simpl.
  - split; [intros _; exists s; reflexivity | reflexivity].
  - destruct s as [|d s].
    + split; [discriminate | intros [rest H]; discriminate].
    + rewrite andb_true_iff, N.eqb_eq, IH. split.
      * intros [-> [rest ->]]. exists rest. reflexivity.
      * intros [rest [= -> ->]]. split; [reflexivity | exists rest; reflexivity].
Qed.

Lemma startswith_same_length (s p q : ustring) :
  startswith s p = true -> startswith s q = true ->
  length p = length q -> p = q.
Proof.
  rewrite !startswith_app. intros [r1 ->] [r2 H] Hl.
  apply (f_equal (take (length p))) in H.
  rewrite take_app_length in H. rewrite Hl in H.
  rewrite take_app_length in H. exact H.
Qed.

Lemma insert_by_len_desc_perm (x : ustring) (l : list ustring) :
  insert_by_len_desc x l ≡ₚ x :: l.
Proof.
  induction l as [|y l IH]; simpl; [reflexivity|].
  destruct (length y <=? length x)%nat; [reflexivity|].
  rewrite IH. apply Permutation_swap.
Qed.

Lemma sorted_by_len_desc_perm (l : list ustring) :
  sorted_by_len_desc l ≡ₚ l.
Proof.
  induction l as [|x l IH]; simpl; [reflexivity|].
  rewrite insert_by_len_desc_perm, IH. reflexivity.
Qed.

Lemma insert_by_len_desc_sorted (x : ustring) (l : list ustring) :
  StronglySorted len_desc l -> StronglySorted len_desc (insert_by_len_desc x l).
Proof.
  induction 1 as [|y l Hs IH Hy]; simpl.
  - repeat constructor.
  - destruct (length y <=? length x)%nat eqn:E.
    + apply Nat.leb_le in E. constructor.
      * constructor; assumption.
      * constructor; [exact E|].
        rewrite Forall_forall in *. intros z Hz.
        unfold len_desc in *. specialize (Hy z Hz). lia.
    + apply Nat.leb_gt in E. constructor; [exact IH|].
      rewrite insert_by_len_desc_perm. constructor; [|exact Hy].
      unfold len_desc. lia.
Qed.

Lemma sorted_by_len_desc_sorted (l : list ustring) :
  StronglySorted len_desc (sorted_by_len_desc l).
Proof.
  induction l as [|x l IH]; simpl; [constructor|].
  apply insert_by_len_desc_sorted, IH.
Qed.

Lemma find_sorted_longest (p : ustring) (l : list ustring) (c : ustring) :
  StronglySorted len_desc l ->
  List.find (fun code => startswith p code) l = Some c ->
  forall c', In c' l -> startswith p c' = true ->
             (length c' <= length c)%nat.
Proof.
  induction 1 as [|y l Hs IH Hy]; simpl; [discriminate|].
  destruct (startswith p y) eqn:E.
  - intros [= <-] c' [<-|Hin] _; [lia|].
    rewrite Forall_forall in Hy. apply (Hy c'), list_elem_of_In, Hin.
  - intros Hf c' [<-|Hin] Hc'; [congruence|]. apply IH; assumption.
Qed.

Lemma assoc_get_In {V} (tbl : list (ustring * V)) (k : ustring) (v : V) :
  NoDup (List.map fst tbl) -> In (k, v) tbl -> assoc_get k tbl = Some v.
Proof.
  induction tbl as [|[k' v'] tbl IH]; simpl; [easy|].
  intros Hnd [[= -> ->]|Hin].
  - rewrite str_eqb_refl. reflexivity.
  - apply NoDup_cons in Hnd as [Hk Hnd].
    rewrite str_eqb_neq; [apply IH; assumption|].
    intros ->. apply Hk. apply list_elem_of_In.
    apply (in_map fst) in Hin. exact Hin.
Qed.

Section any_table.
Import ColombiaWorking.
Variable tbl : list (ustring * country).
Hypothesis distinct_keys : NoDup (List.map fst tbl).

(** On any country table with distinct prefixes, [detect_country] returns
    the entry of the longest registered prefix of the cleaned number. *)
Lemma detect_country_in_longest (phone code : ustring) (cfg : country) :
  In (code, cfg) tbl ->
  startswith (normalize_phone_number phone) code = true ->
  (forall code', In code' (List.map fst tbl) ->
                 startswith (normalize_phone_number phone) code' = true ->
                 (length code' <= length code)%nat) ->
  detect_country_in tbl phone = Some (code, cfg).
Proof.
  intros Hin Hp Hmax. unfold detect_country_in.
  fold (normalize_phone_number phone).
  set (p := normalize_phone_number phone) in *.
  assert (Hk : In code (sorted_by_len_desc (List.map fst tbl))).
  { apply list_elem_of_In. rewrite sorted_by_len_desc_perm.
    apply list_elem_of_In. apply (in_map fst) in Hin. exact Hin. }
  destruct (List.find (fun c => startswith p c)
              (sorted_by_len_desc (List.map fst tbl))) as [c|] eqn:Hf.
  - pose proof (find_sorted_longest p _ c
                  (sorted_by_len_desc_sorted _) Hf code Hk Hp) as Hle.
    apply find_some in Hf as [Hc Hpc].
    assert (Hc' : In c (List.map fst tbl)).
    { apply list_elem_of_In. rewrite <- sorted_by_len_desc_perm.
      apply list_elem_of_In, Hc. }
    pose proof (Hmax c Hc' Hpc) as Hge.
    assert (c = code) as ->.
    { apply (startswith_same_length p); [assumption..|lia]. }
    rewrite (assoc_get_In tbl code cfg distinct_keys Hin). reflexivity.
  - exfalso. pose proof (find_none _ _ Hf code Hk) as Hn. simpl in Hn.
    congruence.
Qed.

Lemma detect_country_in_default (phone : ustring) (cfg : country) :
  assoc_get (u "+1") tbl = Some cfg ->
  (forall code', In code' (List.map fst tbl) ->
                 startswith (normalize_phone_number phone) code' = false) ->
  detect_country_in tbl phone = Some (u "+1", cfg).
Proof.
  intros Hus Hno. unfold detect_country_in.
  fold (normalize_phone_number phone).
  set (p := normalize_phone_number phone) in *.
  destruct (List.find (fun c => startswith p c)
              (sorted_by_len_desc (List.map fst tbl))) as [c|] eqn:Hf.
  - apply find_some in Hf as [Hc Hpc].
    assert (Hc' : In c (List.map fst tbl)).
    { apply list_elem_of_In. rewrite <- sorted_by_len_desc_perm.
      apply list_elem_of_In, Hc. }
    rewrite (Hno c Hc') in Hpc. discriminate.
  - rewrite Hus. reflexivity.
Qed.

End any_table.

Example colombia_iteration_order :
  sorted_by_len_desc (List.map fst ColombiaWorking.COUNTRY_CONFIG)
  = [u "+57"; u "+56"; u "+58"; u "+52"; u "+1"].
Proof. reflexivity. Qed.

Example nested_prefix_longer_wins :
  option_map fst
    (ColombiaWorking.detect_country_in nested_table (u "+1 (809) 555-1234"))
  = Some (u "+1809").
Proof. reflexivity. Qed.

(* ================================================================== *)
(** * The phone normalizer *)
(* ================================================================== *)

Ltac bool_arith :=
  unfold isspace, is_separator, is_ascii_digit, ch_space, ch_dash,
    ch_lparen, ch_rparen, ch_plus, ch_newline in *;
  repeat rewrite ?negb_true_iff, ?negb_false_iff, ?orb_false_iff,
    ?andb_false_iff, ?orb_true_iff, ?andb_true_iff, ?N.eqb_eq, ?N.eqb_neq,
    ?N.leb_le, ?N.leb_gt, ?N.ltb_lt, ?N.ltb_ge in *;
  lia.

Lemma digit_not_space (c : N) : is_ascii_digit c = true -> isspace c = false.
Proof. intros H. bool_arith. Qed.

Lemma digit_not_separator (c : N) :
  is_ascii_digit c = true -> is_separator c = false.
Proof. intros H. bool_arith. Qed.

Lemma separator_iff (c : N) :
  is_separator c = false <->
  c <> ch_space /\ c <> ch_dash /\ c <> ch_lparen /\ c <> ch_rparen.
Proof. bool_arith. Qed.

Lemma remove_char_id (c : N) (s : ustring) :
  forallb (fun x => negb (x =? c)%N) s = true -> remove_char c s = s.
Proof.
  induction s as [|d s IH]; simpl; [reflexivity|].
  rewrite andb_true_iff. intros [-> H]. rewrite IH by exact H. reflexivity.
Qed.

Lemma remove_char_forallb (P : N -> bool) (c : N) (s : ustring) :
  forallb P s = true -> forallb P (remove_char c s) = true.
Proof.
  unfold remove_char. rewrite !forallb_forall. intros H x Hx.
  apply filter_In in Hx as [Hx _]. apply H, Hx.
Qed.

Lemma remove_char_absent (c : N) (s : ustring) :
  forallb (fun x => negb (x =? c)%N) (remove_char c s) = true.
Proof.
  unfold remove_char. rewrite forallb_forall. intros x Hx.
  apply filter_In in Hx as [_ Hx]. exact Hx.
Qed.

Lemma cleaned_no_separator (s : ustring) :
  forallb (fun c => negb (is_separator c)) (cleaned s) = true.
Proof.
  unfold cleaned.
  set (s1 := remove_char ch_space (strip s)).
  set (s2 := remove_char ch_dash s1).
  set (s3 := remove_char ch_lparen s2).
  pose proof (remove_char_absent ch_space (strip s)) as H1. fold s1 in H1.
  pose proof (remove_char_absent ch_dash s1) as H2. fold s2 in H2.
  pose proof (remove_char_absent ch_lparen s2) as H3. fold s3 in H3.
  pose proof (remove_char_absent ch_rparen s3) as H4.
  apply (remove_char_forallb _ ch_dash) in H1. fold s2 in H1.
  apply (remove_char_forallb _ ch_lparen) in H1. fold s3 in H1.
  apply (remove_char_forallb _ ch_rparen) in H1.
  apply (remove_char_forallb _ ch_lparen) in H2. fold s3 in H2.
  apply (remove_char_forallb _ ch_rparen) in H2.
  apply (remove_char_forallb _ ch_rparen) in H3.
  rewrite forallb_forall in *. intros x Hx.
  specialize (H1 x Hx). specialize (H2 x Hx). specialize (H3 x Hx).
  specialize (H4 x Hx). bool_arith.
Qed.

Lemma rstrip_id (s : ustring) : ends_with_space s = false -> rstrip s = s.
Proof.
  unfold ends_with_space.
  induction s as [|c s IH]; [reflexivity|].
  destruct s as [|d s].
  - simpl. intros ->. reflexivity.
  - intros H. change (last (c :: d :: s)) with (last (d :: s)) in H.
    specialize (IH H). simpl in IH |- *. rewrite IH. reflexivity.
Qed.

Lemma strip_id (c : N) (s : ustring) :
  isspace c = false -> ends_with_space (c :: s) = false ->
  strip (c :: s) = c :: s.
Proof.
  intros Hc He. unfold strip. simpl lstrip. rewrite Hc.
  apply rstrip_id, He.
Qed.

Lemma normalize_unfold (s : ustring) :
  ColombiaWorking.normalize_phone_number s
  = if startswith (cleaned s) (u "+") then cleaned s else u "+" ++ cleaned s.
Proof. reflexivity. Qed.

Lemma cleaned_id (s : ustring) :
  forallb (fun c => negb (is_separator c)) s = true ->
  strip s = s -> cleaned s = s.
Proof.
  intros Hs Hst. unfold cleaned. rewrite Hst.
  assert (H : forall c, is_separator c = true ->
            forallb (fun x => negb (x =? c)%N) s = true).
  { intros c Hc. rewrite forallb_forall in *. intros x Hx.
    specialize (Hs x Hx). destruct (N.eqb_spec x c) as [->|]; [|reflexivity].
    rewrite Hc in Hs. discriminate. }
  rewrite (remove_char_id ch_space s) by (apply H; reflexivity).
  rewrite (remove_char_id ch_dash s) by (apply H; reflexivity).
  rewrite (remove_char_id ch_lparen s) by (apply H; reflexivity).
  rewrite (remove_char_id ch_rparen s) by (apply H; reflexivity).
  reflexivity.
Qed.

(** A string that starts with a plus sign, has no separator and does not
    end in white space is a fixed point of the normalizer. *)
Lemma normalize_fixed (o : ustring) :
  startswith o (u "+") = true ->
  forallb (fun c => negb (is_separator c)) o = true ->
  ends_with_space o = false ->
  ColombiaWorking.normalize_phone_number o = o.
Proof.
  intros Hp Hs He. rewrite normalize_unfold.
  assert (Hc : cleaned o = o).
  { apply cleaned_id; [exact Hs|].
    pose proof Hp as Hp'. apply startswith_app in Hp' as [rest ->].
    change (u "+" ++ rest) with (ch_plus :: rest) in *.
    apply strip_id; [reflexivity | exact He]. }
  rewrite Hc, Hp. reflexivity.
Qed.

Lemma ends_with_space_digits (c : N) (ds : ustring) :
  isspace c = false -> forallb is_ascii_digit ds = true ->
  ends_with_space (c :: ds) = false.
Proof.
  unfold ends_with_space. revert c.
  induction ds as [|d ds IH]; intros c Hc Hd; simpl in *; [exact Hc|].
  apply andb_true_iff in Hd as [Hd Hds].
  apply (IH d); [apply digit_not_space, Hd | exact Hds].
Qed.

Lemma plus_digits_inv (s : ustring) :
  plus_digits s = true ->
  exists ds, s = ch_plus :: ds /\ forallb is_ascii_digit ds = true.
Proof.
  destruct s as [|c ds]; simpl; [discriminate|].
  rewrite andb_true_iff, N.eqb_eq. intros [-> H]. eauto.
Qed.

(** A normalized number is left unchanged by the normalizer. *)
Lemma normalize_plus_digits (p : ustring) :
  plus_digits p = true -> ColombiaWorking.normalize_phone_number p = p.
Proof.
  intros H. apply plus_digits_inv in H as (ds & -> & Hd).
  apply normalize_fixed.
  - reflexivity.
  - simpl. rewrite forallb_forall in *. intros x Hx.
    rewrite (digit_not_separator x (Hd x Hx)). reflexivity.
  - apply ends_with_space_digits; [reflexivity | exact Hd].
Qed.

(** C4, amended.  The normalizer strips surrounding white space, removes
    every space, dash and parenthesis and prepends a plus sign when the
    cleaned string does not start with one, so its output always starts
    with a plus sign and contains no space, dash or parenthesis.  The output
    is a plus sign followed by digits only when the cleaned input consists
    of digits after an optional leading plus sign; other characters are
    passed through.  The normalizer is idempotent on every output that does
    not end in a white-space character, in particular on every output that
    is a plus sign followed by digits. *)
Theorem normalize_phone_number_contract (s : ustring) :
  let o := ColombiaWorking.normalize_phone_number s in
  startswith o (u "+") = true
  /\ forallb (fun c => negb (is_separator c)) o = true
  /\ (startswith (cleaned s) (u "+") = false -> o = ch_plus :: cleaned s)
  /\ (startswith (cleaned s) (u "+") = true -> o = cleaned s)
  /\ (forall ds, forallb is_ascii_digit ds = true ->
        cleaned s = ds \/ cleaned s = ch_plus :: ds ->
        o = ch_plus :: ds /\ plus_digits o = true)
  /\ (ends_with_space o = false ->
      ColombiaWorking.normalize_phone_number o = o)
  /\ (plus_digits o = true -> ColombiaWorking.normalize_phone_number o = o).
Proof.
  intros o.
  assert (H1 : startswith o (u "+") = true).
  { subst o. rewrite normalize_unfold.
    destruct (startswith (cleaned s) (u "+")) eqn:E; [exact E|reflexivity]. }
  assert (H2 : forallb (fun c => negb (is_separator c)) o = true).
  { subst o. rewrite normalize_unfold.
    destruct (startswith (cleaned s) (u "+"));
      [apply cleaned_no_separator|].
    change (u "+" ++ cleaned s) with (ch_plus :: cleaned s). simpl.
    apply cleaned_no_separator. }
  split; [exact H1|]. split; [exact H2|].
  split; [|split; [|split; [|split]]].
  - intros E. subst o. rewrite normalize_unfold, E. reflexivity.
  - intros E. subst o. rewrite normalize_unfold, E. reflexivity.
  - intros ds Hd [Hc|Hc]; subst o; rewrite normalize_unfold, Hc.
    + assert (E : startswith ds (u "+") = false).
      { destruct ds as [|d ds]; [reflexivity|].
        simpl in Hd. apply andb_true_iff in Hd as [Hd _].
        change (startswith (d :: ds) (u "+")) with ((ch_plus =? d)%N && true).
        rewrite andb_true_r. bool_arith. }
      rewrite E. change (u "+" ++ ds) with (ch_plus :: ds).
      split; [reflexivity|]. simpl. exact Hd.
    + change (startswith (ch_plus :: ds) (u "+")) with true. cbv iota.
      split; [reflexivity|]. simpl. exact Hd.
  - intros He. apply normalize_fixed; assumption.
  - apply normalize_plus_digits.
Qed.

Lemma normalize_phone_number_contract_witness :
  ColombiaWorking.normalize_phone_number (u "+1 (305) 303-3060")
  = u "+13053033060"
  /\ ColombiaWorking.normalize_phone_number
       (ColombiaWorking.normalize_phone_number (u "+1 (305) 303-3060"))
     = ColombiaWorking.normalize_phone_number (u "+1 (305) 303-3060").
Proof.
  split; [reflexivity|].
  apply (normalize_phone_number_contract (u "+1 (305) 303-3060")).
  reflexivity.
Defined.

Example strip_surrounding_space :
  strip ([9%N] ++ u "  +1 305 " ++ nl) = u "+1 305".
Proof. reflexivity. Qed.

Example normalize_without_plus :
  ColombiaWorking.normalize_phone_number (u " 57 300-123 4567 ")
  = u "+573001234567".
Proof. reflexivity. Qed.

(** C4 as stated fails: letters are passed through, so the output need not
    be a plus sign followed by digits, and an output that ends in a tab is
    changed by a second application. *)
Lemma normalize_passes_letters_and_tab :
  ColombiaWorking.normalize_phone_number (u "abc") = u "+abc"
  /\ plus_digits (ColombiaWorking.normalize_phone_number (u "abc")) = false
  /\ ColombiaWorking.normalize_phone_number (u "(" ++ [9%N] ++ u ")")
     = u "+" ++ [9%N]
  /\ ColombiaWorking.normalize_phone_number
       (ColombiaWorking.normalize_phone_number (u "(" ++ [9%N] ++ u ")"))
     <> ColombiaWorking.normalize_phone_number (u "(" ++ [9%N] ++ u ")").
Proof.
  split; [reflexivity|]. split; [reflexivity|]. split; [reflexivity|].
  vm_compute. discriminate.
Qed.

(* ================================================================== *)
(** * The transport selector on normalized numbers *)
(* ================================================================== *)

Lemma colombia_distinct_keys :
  NoDup (List.map fst ColombiaWorking.COUNTRY_CONFIG).
Proof.
  apply NoDup_ListNoDup. vm_compute.
  repeat (constructor; [simpl; intuition discriminate|]). constructor.
Qed.

Lemma latam_clean_plus_digits (p : ustring) :
  plus_digits p = true ->
  remove_char ch_dash (remove_char ch_space (strip p)) = p.
Proof.
  intros H. apply plus_digits_inv in H as (ds & -> & Hd).
  rewrite strip_id;
    [|reflexivity|apply ends_with_space_digits; [reflexivity|exact Hd]].
  assert (Hs : forall c, is_separator c = true ->
            forallb (fun x => negb (x =? c)%N) (ch_plus :: ds) = true).
  { intros c Hc. cbn [forallb]. rewrite forallb_forall in Hd.
    apply andb_true_iff. split.
    - destruct (N.eqb_spec ch_plus c) as [<-|]; [discriminate|reflexivity].
    - apply forallb_forall. intros x Hx.
      pose proof (digit_not_separator x (Hd x Hx)) as Hn.
      destruct (N.eqb_spec x c) as [->|]; [congruence|reflexivity]. }
  rewrite (remove_char_id ch_space) by (apply Hs; reflexivity).
  apply remove_char_id, Hs. reflexivity.
Qed.

(** The selector of the Latin-American variant returns the first entry,
    in the order of the table, whose prefix matches. *)
Lemma latam_find_first (tbl before after : list (ustring * LatamInternational.country))
    (p code : ustring) (cfg : LatamInternational.country) :
  tbl = before ++ (code, cfg) :: after ->
  startswith p code = true ->
  (forall entry, In entry before -> startswith p (fst entry) = false) ->
  List.find (fun entry => startswith p (fst entry)) tbl = Some (code, cfg).
Proof.
  intros -> Hp Hno. induction before as [|e before IH]; cbn [app List.find].
  - cbn [fst]. rewrite Hp. reflexivity.
  - rewrite (Hno e) by (left; reflexivity).
    apply IH. intros entry Hin. apply Hno. right. exact Hin.
Qed.

(** No prefix of the Latin-American table extends another one, so the
    first entry that matches, in the order of the table, is the only one
    that matches. *)
Lemma latam_first_match (p code : ustring)
    (cfg : LatamInternational.country) :
  In (code, cfg) LatamInternational.COUNTRY_CONFIG ->
  startswith p code = true ->
  List.find (fun entry => startswith p (fst entry))
    LatamInternational.COUNTRY_CONFIG = Some (code, cfg).
Proof.
  intros Hin Hp. apply startswith_app in Hp as [rest ->].
  simpl in Hin.
  repeat (destruct Hin as [[= <- <-]|Hin]; [reflexivity|]).
  contradiction.
Qed.

Lemma latam_only_match (p code code' : ustring) :
  In code (List.map fst LatamInternational.COUNTRY_CONFIG) ->
  In code' (List.map fst LatamInternational.COUNTRY_CONFIG) ->
  startswith p code = true -> startswith p code' = true -> code' = code.
Proof.
  intros Hin Hin' Hp Hp'. apply startswith_app in Hp as [rest ->].
  simpl in Hin, Hin'.
  repeat (destruct Hin as [<-|Hin];
          [repeat (destruct Hin' as [<-|Hin'];
                   [first [reflexivity|discriminate]|]);
           contradiction|]).
  contradiction.
Qed.

Lemma latam_detect_longest (phone code : ustring)
    (cfg : LatamInternational.country) :
  plus_digits phone = true ->
  In (code, cfg) LatamInternational.COUNTRY_CONFIG ->
  startswith phone code = true ->
  LatamInternational.detect_country phone = Some (code, cfg).
Proof.
  intros Hn Hin Hp.
  unfold LatamInternational.detect_country,
    LatamInternational.detect_country_in.
  rewrite (latam_clean_plus_digits phone Hn).
  rewrite (latam_first_match phone code cfg Hin Hp). reflexivity.
Qed.

Lemma latam_detect_default (phone : ustring) :
  plus_digits phone = true ->
  (forall code', In code' (List.map fst LatamInternational.COUNTRY_CONFIG) ->
                 startswith phone code' = false) ->
  LatamInternational.detect_country phone
  = Some (u "+1", LatamInternational.USA).
Proof.
  intros Hn Hno.
  unfold LatamInternational.detect_country,
    LatamInternational.detect_country_in.
  rewrite (latam_clean_plus_digits phone Hn).
  destruct (List.find _ _) as [[c cfg]|] eqn:Hf; [|reflexivity].
  apply find_some in Hf as [Hin Hp]. simpl in Hp.
  rewrite (Hno c) in Hp; [discriminate|].
  apply (in_map fst) in Hin. exact Hin.
Qed.

(** C2, amended.  The selector of the hybrid-routing variant visits the
    prefixes of its table by decreasing length: on every table with
    distinct prefixes, and for every normalized number, it returns the
    entry of the longest registered prefix of the number, also when a
    shorter registered prefix matches too, and the entry of +1 when no
    prefix matches; a number that starts with +57 resolves to Colombia.
    The selector of the Latin-American variant visits the entries in the
    order of the table and returns the first one that matches; on its own
    table no registered prefix extends another, so at most one prefix
    matches and the first match is the longest one; the US entry is the
    default there too. *)
Theorem detect_country_longest_prefix :
  (forall (tbl : list (ustring * ColombiaWorking.country))
          (phone code : ustring) (cfg : ColombiaWorking.country),
     NoDup (List.map fst tbl) ->
     plus_digits phone = true ->
     In (code, cfg) tbl ->
     startswith phone code = true ->
     (forall code', In code' (List.map fst tbl) ->
                    startswith phone code' = true ->
                    (length code' <= length code)%nat) ->
     ColombiaWorking.detect_country_in tbl phone = Some (code, cfg))
  /\ (forall (tbl : list (ustring * ColombiaWorking.country))
             (phone : ustring) (cfg : ColombiaWorking.country),
        plus_digits phone = true ->
        assoc_get (u "+1") tbl = Some cfg ->
        (forall code', In code' (List.map fst tbl) ->
                       startswith phone code' = false) ->
        ColombiaWorking.detect_country_in tbl phone = Some (u "+1", cfg))
  /\ (forall phone,
        plus_digits phone = true ->
        startswith phone (u "+57") = true ->
        ColombiaWorking.detect_country phone
        = Some (u "+57",
                ColombiaWorking.Country (u "Colombia") (u "123") (u "es")
                  false true))
  /\ (forall (tbl before after : list (ustring * LatamInternational.country))
             (phone code : ustring) (cfg : LatamInternational.country),
        plus_digits phone = true ->
        tbl = before ++ (code, cfg) :: after ->
        startswith phone code = true ->
        (forall entry, In entry before ->
                       startswith phone (fst entry) = false) ->
        LatamInternational.detect_country_in tbl phone = Some (code, cfg))
  /\ (forall (phone code : ustring) (cfg : LatamInternational.country),
        plus_digits phone = true ->
        In (code, cfg) LatamInternational.COUNTRY_CONFIG ->
        startswith phone code = true ->
        LatamInternational.detect_country phone = Some (code, cfg)
        /\ forall code',
             In code' (List.map fst LatamInternational.COUNTRY_CONFIG) ->
             startswith phone code' = true -> code' = code)
  /\ (forall phone,
        plus_digits phone = true ->
        (forall code',
           In code' (List.map fst LatamInternational.COUNTRY_CONFIG) ->
           startswith phone code' = false) ->
        LatamInternational.detect_country phone
        = Some (u "+1", LatamInternational.USA)).
Proof.
  split; [|split; [|split; [|split; [|split]]]].
  - intros tbl phone code cfg Hnd Hn Hin Hp Hmax.
    pose proof (normalize_plus_digits phone Hn) as Hid.
    apply (detect_country_in_longest tbl Hnd); rewrite ?Hid; assumption.
  - intros tbl phone cfg Hn Hus Hno.
    pose proof (normalize_plus_digits phone Hn) as Hid.
    apply (detect_country_in_default tbl); [exact Hus|].
    rewrite Hid. exact Hno.
  - intros phone Hn Hp.
    pose proof (normalize_plus_digits phone Hn) as Hid.
    apply (detect_country_in_longest _ colombia_distinct_keys);
      rewrite ?Hid; [right; left; reflexivity | exact Hp |].
    intros code' Hin _. simpl in Hin.
    repeat (destruct Hin as [<-|Hin]; [vm_compute; lia|]). contradiction.
  - intros tbl before after phone code cfg Hn Ht Hp Hno.
    unfold LatamInternational.detect_country_in.
    rewrite (latam_clean_plus_digits phone Hn).
    rewrite (latam_find_first tbl before after phone code cfg Ht Hp Hno).
    reflexivity.
  - intros phone code cfg Hn Hin Hp. split.
    + apply latam_detect_longest; assumption.
    + intros code' Hin' Hp'.
      apply (latam_only_match phone code code'); try assumption.
      apply (in_map fst) in Hin. exact Hin.
  - intros phone Hn Hno. apply latam_detect_default; assumption.
Qed.

(** A number that two registered prefixes match, +1 and +1809: the
    hybrid-routing selector returns the entry of the longer one. *)
Lemma detect_country_longest_prefix_witness :
  startswith santo_domingo (u "+1") = true
  /\ startswith santo_domingo (u "+1809") = true
  /\ ColombiaWorking.detect_country_in nested_table santo_domingo
     = Some (u "+1809",
             ColombiaWorking.Country (u "Dominican Republic") (u "911")
               (u "es") false true).
Proof.
  split; [reflexivity|]. split; [reflexivity|].
  apply (proj1 detect_country_longest_prefix nested_table santo_domingo).
  - apply NoDup_ListNoDup. vm_compute.
    repeat (constructor; [simpl; intuition discriminate|]). constructor.
  - reflexivity.
  - right. left. reflexivity.
  - reflexivity.
  - intros code' Hin _. simpl in Hin.
    repeat (destruct Hin as [<-|Hin]; [vm_compute; lia|]). contradiction.
Defined.

(** C2 as stated fails on the selector of the Latin-American variant: it
    does not visit the prefixes by decreasing length, so on a table in
    which +1809 is registered after +1 a number that both prefixes match
    resolves to the shorter one. *)
Lemma latam_first_match_shadows_longer :
  In (u "+1809") (List.map fst latam_nested_table)
  /\ startswith santo_domingo (u "+1809") = true
  /\ LatamInternational.detect_country_in latam_nested_table santo_domingo
     = Some (u "+1", LatamInternational.USA).
Proof.
  split; [right; left; reflexivity|]. split; reflexivity.
Qed.

(* ================================================================== *)
(** * Provider failures *)
(* ================================================================== *)






Lemma eum_send_eum_sms_success (w : world) (s : state)
    (phone message : ustring) :
  w_send w (st_sends s) = None ->
  exists r s',
    EumWithTracking.send_eum_sms phone message w s = (Ok r, s')
    /\ dict_get "status" r = Some (JStr (u "sent"))
    /\ dict_get "messageId" r
       = Some (get "MessageId" (w_reply w (st_sends s)))
    /\ st_sends s' = S (st_sends s)
    /\ st_events s' =
         st_events s
         ++ [ESendTextMessage phone EumWithTracking.ORIGINATOR_NUMBER message
               EumWithTracking.MESSAGE_TYPE
               EumWithTracking.CONFIGURATION_SET].
Proof.
  intros H. destruct s as [n1 n2 n3 n4 evs inc locs].
  unfold EumWithTracking.send_eum_sms. run. rewrite H. run.
  eexists _, _. split; [reflexivity|]. repeat split.
Qed.





(* ================================================================== *)
(** * What the validator's pattern accepts *)
(* ================================================================== *)

Lemma rep_match_spec (cls : N -> bool) (hi : nat) :
  forall (lo pos : nat) (s : ustring) (k : nat -> ustring -> bool),
    (lo <= hi)%nat ->
    rep_match cls lo hi pos s k = true <->
    exists n, (lo <= n <= hi)%nat /\ (n <= length s)%nat
              /\ forallb cls (take n s) = true
              /\ k (pos + n)%nat (drop n s) = true.
Proof.
  assert (Hzero : forall lo hi' pos s (k : nat -> ustring -> bool),
            (lo =? 0)%nat && k pos s = true ->
            exists n, (lo <= n <= hi')%nat /\ (n <= length s)%nat
                      /\ forallb cls (take n s) = true
                      /\ k (pos + n)%nat (drop n s) = true).
  { intros lo hi' pos s k H. apply andb_true_iff in H as [H1 H2].
    apply Nat.eqb_eq in H1. exists 0%nat. rewrite Nat.add_0_r.
    split; [lia|]. split; [lia|]. split; [reflexivity|exact H2]. }
  assert (Hback : forall lo pos s (k : nat -> ustring -> bool),
            (lo <= 0)%nat -> k (pos + 0)%nat (drop 0 s) = true ->
            (lo =? 0)%nat && k pos s = true).
  { intros lo pos s k Hlo H. rewrite Nat.add_0_r in H.
    apply andb_true_iff. split; [apply Nat.eqb_eq; lia|exact H]. }
  induction hi as [|hi IH]; intros lo pos s k Hlo.
  - cbn [rep_match]. split; [apply Hzero|].
    intros (n & Hn & _ & _ & H). assert (n = 0%nat) as -> by lia.
    apply Hback; [lia|exact H].
  - destruct s as [|c s].
    + cbn [rep_match]. split; [apply Hzero|].
      intros (n & Hn & Hl & _ & H). simpl in Hl.
      assert (n = 0%nat) as -> by lia. apply Hback; [lia|exact H].
    + cbn [rep_match]. destruct (cls c) eqn:Hc.
      * rewrite orb_true_iff, (IH (pred lo) (S pos) s k) by lia. split.
        -- intros [(m & Hm & Hl & Hf & Hk)|H]; [|apply Hzero, H].
           exists (S m). split; [lia|]. split; [simpl; lia|].
           split; [simpl; rewrite Hc; exact Hf|].
           replace (pos + S m)%nat with (S pos + m)%nat by lia. exact Hk.
        -- intros (n & Hn & Hl & Hf & Hk). destruct n as [|m].
           ++ right. apply Hback; [lia|exact Hk].
           ++ left. exists m. simpl in Hl, Hf, Hk.
              apply andb_true_iff in Hf as [_ Hf].
              replace (pos + S m)%nat with (S pos + m)%nat in Hk by lia.
              split; [lia|]. split; [lia|]. split; assumption.
      * split; [apply Hzero|].
        intros (n & Hn & Hl & Hf & Hk). destruct n as [|m].
        -- apply Hback; [lia|exact Hk].
        -- simpl in Hf. rewrite Hc in Hf. discriminate.
Qed.

Lemma forallb_take_drop (P : N -> bool) (n : nat) (s : ustring) :
  forallb P s = true ->
  forallb P (take n s) = true /\ forallb P (drop n s) = true.
Proof.
  intros H. rewrite <- (take_drop n s), forallb_app in H.
  apply andb_true_iff in H. exact H.
Qed.

(** The strings the pattern matches: a plus sign, five to seventeen
    decimal digits, and possibly one final newline. *)
Lemma E164_PATTERN_accepts (s : ustring) :
  re_match UniversalSms.E164_PATTERN s = true <->
  exists ds tail,
    s = ch_plus :: ds ++ tail
    /\ forallb is_decimal ds = true
    /\ (5 <= length ds <= 17)%nat
    /\ (tail = [] \/ tail = [ch_newline]).
Proof.
  unfold re_match, UniversalSms.E164_PATTERN. cbn [re_match_at Nat.eqb].
  rewrite andb_true_l. destruct s as [|c s].
  { split; [discriminate|]. intros (ds & tail & H & _). discriminate. }
  rewrite andb_true_iff, N.eqb_eq, rep_match_spec by lia. split.
  - intros [<- (n1 & Hn1 & Hl1 & Hf1 & H)].
    apply rep_match_spec in H; [|lia].
    destruct H as (n2 & Hn2 & Hl2 & Hf2 & H).
    apply andb_true_iff in H as [H _].
    exists (take n1 s ++ take n2 (drop n1 s)), (drop n2 (drop n1 s)).
    split; [|split; [|split]].
    + rewrite <- app_assoc, !take_drop. reflexivity.
    + rewrite forallb_app, Hf1, Hf2. reflexivity.
    + rewrite length_app, !length_take. lia.
    + destruct (drop n2 (drop n1 s)) as [|d [|d' tl]];
        [left; reflexivity| |discriminate].
      apply N.eqb_eq in H. subst d. right. reflexivity.
  - intros (ds & tail & [= -> ->] & Hd & Hl & Ht).
    split; [reflexivity|].
    set (n1 := if (length ds <=? 15)%nat then 1%nat else 3%nat).
    assert (Hn1 : (1 <= n1 <= 3)%nat /\ (4 <= length ds - n1 <= 14)%nat).
    { subst n1. destruct (Nat.leb_spec (length ds) 15); lia. }
    exists n1. split; [lia|]. split; [rewrite length_app; lia|].
    rewrite take_app_le, drop_app_le by lia.
    split; [apply (forallb_take_drop _ n1 ds Hd)|].
    apply rep_match_spec; [lia|].
    exists (length ds - n1)%nat. split; [lia|].
    split; [rewrite length_app, length_drop; lia|].
    assert (Hlen : length (drop n1 ds) = (length ds - n1)%nat)
      by apply length_drop.
    rewrite <- Hlen, take_app_length, drop_app_length.
    split; [apply (forallb_take_drop _ n1 ds Hd)|].
    destruct Ht as [-> | ->]; reflexivity.
Qed.

(** Every number made of a plus sign, five to seventeen ASCII digits and a
    final newline passes the validator unchanged. *)
Lemma validator_accepts_newline_tail (ds : ustring) :
  forallb is_ascii_digit ds = true ->
  (5 <= length ds <= 17)%nat ->
  UniversalSms.validate_phone_number (ch_plus :: ds ++ nl)
  = (Some (ch_plus :: ds ++ nl), None).
Proof.
  intros Hd Hl. unfold UniversalSms.validate_phone_number.
  cbn [str_truthy negb].
  assert (Hc : forall c, is_separator c = true ->
            forallb (fun x => negb (x =? c)%N) (ch_plus :: ds ++ nl) = true).
  { intros c Hc. cbn [forallb]. rewrite forallb_app.
    rewrite forallb_forall in Hd.
    apply andb_true_iff. split; [|apply andb_true_iff; split].
    - destruct (N.eqb_spec ch_plus c) as [<-|]; [discriminate|reflexivity].
    - apply forallb_forall. intros x Hx.
      pose proof (digit_not_separator x (Hd x Hx)) as Hn.
      destruct (N.eqb_spec x c) as [->|]; [congruence|reflexivity].
    - unfold nl. cbn [forallb].
      destruct (N.eqb_spec ch_newline c) as [<-|];
        [discriminate|reflexivity]. }
  rewrite (remove_char_id ch_space) by (apply Hc; reflexivity).
  rewrite (remove_char_id ch_dash) by (apply Hc; reflexivity).
  change (startswith (ch_plus :: ds ++ nl) (u "+")) with true. cbv iota.
  assert (Hm : re_match UniversalSms.E164_PATTERN (ch_plus :: ds ++ nl)
               = true).
  { apply E164_PATTERN_accepts. exists ds, nl.
    split; [reflexivity|]. split; [|split; [exact Hl|right; reflexivity]].
    rewrite forallb_forall in *. intros x Hx. specialize (Hd x Hx).
    unfold is_decimal, Nd_runs. cbn [existsb]. rewrite orb_true_iff. left.
    bool_arith. }
  rewrite Hm. reflexivity.
Qed.

Example validator_examples :
  UniversalSms.validate_phone_number (u "1 305-303 3060")
  = (Some (u "+13053033060"), None)
  /\ UniversalSms.validate_phone_number (u "")
     = (None, Some (u "Phone number is required"))
  /\ fst (UniversalSms.validate_phone_number (u "+1 (305) 303-3060")) = None
  /\ fst (UniversalSms.validate_phone_number (u "+1234")) = None
  /\ fst (UniversalSms.validate_phone_number (u "+123456789012345678"))
     = None.
Proof. repeat split. Qed.

(* ================================================================== *)
(** * The universal sender: validation and demo mode *)
(* ================================================================== *)

Lemma validate_cases (phone : ustring) :
  (exists err, UniversalSms.validate_phone_number phone = (None, Some err))
  \/ (exists v, UniversalSms.validate_phone_number phone = (Some v, None)).
Proof.
  unfold UniversalSms.validate_phone_number.
  destruct (negb (str_truthy phone)); [left; eauto|].
  destruct (negb (re_match _ _)); [left|right]; eauto.
Qed.

(** A number the validator rejects is answered with a failure and reaches
    no provider. *)
Lemma send_rejected_phone (cfg : UniversalSms.config) (w : world)
    (s : state) (phone message : ustring) (event_id : option ustring)
    (err : ustring) :
  UniversalSms.validate_phone_number phone = (None, Some err) ->
  exists r s',
    UniversalSms.send_sms_with_eum cfg phone message event_id w s = (Ok r, s')
    /\ dict_get "status" r = Some (JStr (u "failed"))
    /\ dict_get "error" r = Some (JStr err)
    /\ st_sends s' = st_sends s
    /\ provider_calls s' = provider_calls s.
Proof.
  intros H. destruct s as [n1 n2 n3 n4 evs inc locs].
  unfold UniversalSms.send_sms_with_eum. rewrite H. run.
  eexists _, _. split; [reflexivity|]. repeat split.
  unfold provider_calls. cbn. rewrite List.filter_app. cbn. apply app_nil_r.
Qed.

(** In demo mode a number the validator accepts gets a synthetic success
    and reaches no provider. *)
Lemma send_demo_mode (cfg : UniversalSms.config) (w : world) (s : state)
    (phone message : ustring) (event_id : option ustring) (v : ustring) :
  UniversalSms.DEMO_MODE cfg = true ->
  UniversalSms.validate_phone_number phone = (Some v, None) ->
  exists r s',
    UniversalSms.send_sms_with_eum cfg phone message event_id w s = (Ok r, s')
    /\ dict_get "status" r = Some (JStr (u "sent"))
    /\ dict_get "messageId" r
       = Some (JStr (u "demo-"
                       ++ take 12 (uuid_hex (w_uuid w (st_uuids s)))))
    /\ dict_get "demoMode" r = Some (JBool true)
    /\ dict_get "realSms" r = Some (JBool false)
    /\ dict_get "phone" r = Some (JStr v)
    /\ st_sends s' = st_sends s
    /\ st_events s' = st_events s.
Proof.
  intros Hd H. destruct s as [n1 n2 n3 n4 evs inc locs].
  unfold UniversalSms.send_sms_with_eum. rewrite H, Hd. run.
  eexists _, _. split; [reflexivity|]. repeat split.
Qed.

(** Outside demo mode a number the validator accepts is handed to the
    provider as it was validated. *)
Lemma send_validated_phone (cfg : UniversalSms.config) (w : world)
    (s : state) (phone message : ustring) (event_id : option ustring)
    (v : ustring) :
  UniversalSms.DEMO_MODE cfg = false ->
  UniversalSms.validate_phone_number phone = (Some v, None) ->
  exists r s' text attrs,
    UniversalSms.send_sms_with_eum cfg phone message event_id w s = (Ok r, s')
    /\ provider_calls s' = provider_calls s ++ [ESnsPublish v text attrs]
    /\ st_sends s' = S (st_sends s)
    /\ (w_send w (st_sends s) = None ->
        forall mid, dict_get "MessageId" (w_reply w (st_sends s)) = Some mid ->
        dict_get "status" r = Some (JStr (u "sent"))
        /\ dict_get "messageId" r = Some mid
        /\ dict_get "phone" r = Some (JStr v)).
Proof.
  intros Hd H. destruct s as [n1 n2 n3 n4 evs inc locs].
  unfold UniversalSms.send_sms_with_eum. rewrite H, Hd. run.
  unfold provider_calls.
  destruct (w_send w n1) as [e|] eqn:E; run.
  - eexists _, _, _, _. split; [reflexivity|]. cbn.
    split; [|split; [reflexivity|discriminate]].
    rewrite !List.filter_app. cbn. rewrite !app_nil_r. reflexivity.
  - destruct (dict_get "MessageId" (w_reply w n1)) as [mid|] eqn:Em;
      run.
    + eexists _, _, _, _. split; [reflexivity|]. cbn.
      split; [|split; [reflexivity|]].
      * rewrite !List.filter_app. reflexivity.
      * intros _ mid' [= <-]. repeat split.
    + eexists _, _, _, _. split; [reflexivity|]. cbn.
      split; [|split; [reflexivity|intros _ mid' [=]]].
      rewrite !List.filter_app. cbn. rewrite !app_nil_r. reflexivity.
Qed.

(** C8, amended.  In demo mode no external provider is ever invoked.  A
    request whose phone number passes validation gets a synthetic success:
    status [sent], a message id made of the prefix [demo-] and twelve
    random hexadecimal digits, and the marker [demoMode]; a request whose
    phone number fails validation gets a failure that carries the
    validation error. *)
Theorem demo_mode_short_circuit (cfg : UniversalSms.config) (w : world)
    (s : state) (phone message : ustring) (event_id : option ustring) :
  UniversalSms.DEMO_MODE cfg = true ->
  exists r s',
    UniversalSms.send_sms_with_eum cfg phone message event_id w s = (Ok r, s')
    /\ st_sends s' = st_sends s
    /\ provider_calls s' = provider_calls s
    /\ (forall v,
          UniversalSms.validate_phone_number phone = (Some v, None) ->
          dict_get "status" r = Some (JStr (u "sent"))
          /\ dict_get "messageId" r
             = Some (JStr (u "demo-"
                             ++ take 12 (uuid_hex (w_uuid w (st_uuids s)))))
          /\ dict_get "demoMode" r = Some (JBool true)
          /\ dict_get "realSms" r = Some (JBool false)
          /\ dict_get "phone" r = Some (JStr v))
    /\ (forall err,
          UniversalSms.validate_phone_number phone = (None, Some err) ->
          dict_get "status" r = Some (JStr (u "failed"))
          /\ dict_get "error" r = Some (JStr err)).
Proof.
  intros Hd. destruct (validate_cases phone) as [[err H]|[v H]].
  - destruct (send_rejected_phone cfg w s phone message event_id err H)
      as (r & s' & E & H1 & H2 & H3 & H4).
    exists r, s'. split; [exact E|]. split; [exact H3|].
    split; [exact H4|]. split.
    + intros v Hv. congruence.
    + intros err' He. assert (err' = err) as -> by congruence. auto.
  - destruct (send_demo_mode cfg w s phone message event_id v Hd H)
      as (r & s' & E & H1 & H2 & H3 & H4 & H5 & H6 & H7).
    exists r, s'. split; [exact E|]. split; [exact H6|].
    split; [unfold provider_calls; rewrite H7; reflexivity|]. split.
    + intros v' Hv. assert (v' = v) as -> by congruence. auto.
    + intros err' He. congruence.
Qed.

Lemma demo_mode_short_circuit_witness :
  exists r s',
    UniversalSms.send_sms_with_eum demo_config (u "+1 305-303-3060")
      (u "test") None sample_world empty_state = (Ok r, s')
    /\ st_sends s' = st_sends empty_state
    /\ provider_calls s' = provider_calls empty_state
    /\ dict_get "status" r = Some (JStr (u "sent"))
    /\ dict_get "messageId" r = Some (JStr (u "demo-000000000000"))
    /\ dict_get "demoMode" r = Some (JBool true).
Proof.
  destruct (demo_mode_short_circuit demo_config sample_world empty_state
              (u "+1 305-303-3060") (u "test") None eq_refl)
    as (r & s' & E & H1 & H2 & Hv & _).
  destruct (Hv (u "+13053033060") eq_refl) as (A & B & C & _).
  exists r, s'. repeat split; assumption.
Defined.

(** C8 as stated fails for a request whose phone number is not valid:
    in demo mode too, the answer is a failure, not a synthetic success. *)
Lemma demo_mode_rejects_invalid_phone :
  UniversalSms.DEMO_MODE demo_config = true
  /\ exists r s',
       UniversalSms.send_sms_with_eum demo_config (u "") (u "test") None
         sample_world empty_state = (Ok r, s')
       /\ dict_get "status" r = Some (JStr (u "failed"))
       /\ dict_get "error" r = Some (JStr (u "Phone number is required"))
       /\ dict_get "messageId" r = None
       /\ dict_get "demoMode" r = None.
Proof.
  split; [reflexivity|]. eexists _, _.
  split; [vm_compute; reflexivity|]. repeat split.
Qed.

(** C3.  The validator accepts a number that ends in a newline, because
    [$] also matches just before a final newline; the number is then handed
    to the provider with its newline. *)
Theorem validator_accepts_trailing_newline (w : world) (s : state)
    (message : ustring) (event_id : option ustring) :
  let phone := u "+12345678901" ++ nl in
  plus_digits phone = false
  /\ UniversalSms.validate_phone_number phone = (Some phone, None)
  /\ exists r s' text attrs,
       UniversalSms.send_sms_with_eum default_config phone message event_id
         w s = (Ok r, s')
       /\ provider_calls s' = provider_calls s ++ [ESnsPublish phone text attrs]
       /\ st_sends s' = S (st_sends s).
Proof.
  intros phone. split; [reflexivity|]. split; [reflexivity|].
  destruct (send_validated_phone default_config w s phone message event_id
              phone eq_refl eq_refl)
    as (r & s' & text & attrs & E & H1 & H2 & _).
  exists r, s', text, attrs. auto.
Qed.

(* ================================================================== *)
(** * Store failures during an alert *)
(* ================================================================== *)

Lemma eum_alert_survives_store_failure (w : world) (s : state) (b : body)
    (e : exn) :
  w_store w (st_stores s) = Some e ->
  exists resp s' text,
    EumWithTracking.handle_jury_emergency_alert b w s = (Ok resp, s')
    /\ In (ELog LError (u "Failed to store incident: " ++ exn_str e))
          (st_events s')
    /\ provider_calls s' =
         provider_calls s
         ++ [ESendTextMessage
               (default EumWithTracking.JURY_PHONE_NUMBER (b_phoneNumber b))
               EumWithTracking.ORIGINATOR_NUMBER text
               EumWithTracking.MESSAGE_TYPE
               EumWithTracking.CONFIGURATION_SET]
    /\ st_incidents s' = st_incidents s
    /\ match w_send w (st_sends s) with
       | None =>
           statusCode resp = 200
           /\ dict_get "status" (resp_body resp) = Some (JStr (u "success"))
       | Some x =>
           if response_is_none x then
             statusCode resp = 500
             /\ dict_get "status" (resp_body resp) = Some (JStr (u "error"))
             /\ dict_get "message" (resp_body resp)
                = Some (JStr (u "Emergency alert failed: "
                                ++ exn_str EumWithTracking.NoneTypeError))
           else
             statusCode resp = 200
             /\ dict_get "status" (resp_body resp)
                = Some (JStr (u "partial"))
             /\ dict_get "smsError" (resp_body resp)
                = Some (JStr (exn_str x))
       end.
Proof.
  intros H. destruct s as [n1 n2 n3 n4 evs inc locs].
  unfold EumWithTracking.handle_jury_emergency_alert,
    EumWithTracking.store_incident, EumWithTracking.send_eum_sms,
    response_is_none.
  run. rewrite H. run. unfold provider_calls.
  destruct (w_send w n1) as [x|] eqn:E; run;
    [destruct (exn_response x) as [| |code msg]; run|];
    (eexists _, _, _; split; [reflexivity|]; cbn;
     split; [rewrite !in_app_iff; cbn; tauto|];
     split; [rewrite !List.filter_app; cbn; rewrite ?app_nil_r; reflexivity|];
     split; [reflexivity|]; repeat split).
Qed.

Lemma assoc_get_key {V} (tbl : list (ustring * V)) (k : ustring) :
  In k (List.map fst tbl) -> exists v, assoc_get k tbl = Some v.
Proof.
  induction tbl as [|[k' v'] tbl IH]; simpl; [easy|].
  destruct (str_eqb k k') eqn:E; [eauto|].
  intros [->|Hin]; [rewrite str_eqb_refl in E; discriminate|auto].
Qed.

Lemma colombia_detect_total (p : ustring) :
  exists code cfg, ColombiaWorking.detect_country p = Some (code, cfg).
Proof.
  unfold ColombiaWorking.detect_country, ColombiaWorking.detect_country_in.
  destruct (List.find _ _) as [c|] eqn:Hf; [|eexists _, _; reflexivity].
  apply find_some in Hf as [Hc _].
  assert (Hc' : In c (List.map fst ColombiaWorking.COUNTRY_CONFIG)).
  { apply list_elem_of_In. rewrite <- sorted_by_len_desc_perm.
    apply list_elem_of_In, Hc. }
  destruct (assoc_get_key _ c Hc') as [v ->]. eauto.
Qed.

(** [store_incident] of the hybrid-routing handler never raises: a store
    failure is logged and swallowed. *)
Lemma colombia_store_incident_swallows (w : world) (s : state)
    (id name phone dtype cc : ustring) (loc : location) (e : exn) :
  w_store w (st_stores s) = Some e ->
  ColombiaWorking.store_incident id name phone dtype loc cc w s
  = (Ok tt,
     State (st_sends s) (S (st_stores s)) (S (S (st_ticks s))) (st_uuids s)
       (st_events s ++ [ELog LError (u "Store incident failed: " ++ exn_str e)])
       (st_incidents s) (st_locations s)).
Proof.
  intros H. destruct s as [n1 n2 n3 n4 evs inc locs].
  unfold ColombiaWorking.store_incident. run. rewrite H. reflexivity.
Qed.

(** [store_location_update] never raises and never calls a provider. *)
Lemma colombia_store_location_quiet (w : world) (s : state)
    (id name : ustring) (loc : location) (bl : option Z) :
  exists s',
    ColombiaWorking.store_location_update id name loc bl w s = (Ok tt, s')
    /\ st_sends s' = st_sends s
    /\ st_incidents s' = st_incidents s
    /\ provider_calls s' = provider_calls s
    /\ (forall x, In x (st_events s) -> In x (st_events s')).
Proof.
  destruct s as [n1 n2 n3 n4 evs inc locs].
  unfold ColombiaWorking.store_location_update. run.
  destruct (w_store w n2); run;
    (eexists; split; [reflexivity|]; cbn; repeat split;
     [unfold provider_calls; cbn; rewrite List.filter_app; cbn;
      apply app_nil_r
     |intros x Hx; apply in_app_iff; tauto]).
Qed.

Lemma colombia_send_sms_hybrid_total (w : world) (s : state)
    (phone message : ustring) (cfg : ColombiaWorking.country) :
  exists r s' ev st,
    ColombiaWorking.send_sms_hybrid phone message cfg w s = (Ok r, s')
    /\ dict_get "status" r = Some (JStr st)
    /\ (st = u "sent" \/ st = u "failed")
    /\ provider_calls s' = provider_calls s ++ [ev]
    /\ st_incidents s' = st_incidents s
    /\ (forall x, In x (st_events s) -> In x (st_events s')).
Proof.
  destruct s as [n1 n2 n3 n4 evs inc locs].
  unfold ColombiaWorking.send_sms_hybrid, ColombiaWorking.send_via_eum,
    ColombiaWorking.send_via_sns, provider_calls.
  run.
  destruct (ColombiaWorking.c_use_eum cfg);
    destruct (w_send w n1); run;
    eexists _, _, _, _; (split; [reflexivity|]); cbn;
    (split; [reflexivity|]);
    (split; [tauto|]);
    (split; [rewrite !List.filter_app; cbn; rewrite ?app_nil_r; reflexivity|]);
    (split; [reflexivity|]);
    intros x Hx; rewrite ?in_app_iff; tauto.
Qed.

Lemma colombia_alert_survives_store_failure (w : world) (s : state)
    (b : body) (p : ustring) (e : exn) :
  b_phoneNumber b = Some p -> p <> [] ->
  w_store w (st_stores s) = Some e ->
  exists resp s' ev,
    ColombiaWorking.handle_jury_emergency_alert b w s = (Ok resp, s')
    /\ statusCode resp = 200
    /\ (dict_get "status" (resp_body resp) = Some (JStr (u "success"))
        \/ dict_get "status" (resp_body resp) = Some (JStr (u "partial")))
    /\ In (ELog LError (u "Store incident failed: " ++ exn_str e))
          (st_events s')
    /\ provider_calls s' = provider_calls s ++ [ev]
    /\ st_incidents s' = st_incidents s.
Proof.
  intros Hb Hp Hst.
  unfold ColombiaWorking.handle_jury_emergency_alert. rewrite Hb.
  destruct p as [|c p]; [contradiction|]. cbn [str_truthy].
  destruct (colombia_detect_total
              (ColombiaWorking.normalize_phone_number (c :: p)))
    as (code & cfg & Hd).
  unfold try_except at 1. unfold bind at 1. rewrite Hd.
  cbn [ColombiaWorking.lookup_or_key_error ret].
  unfold bind at 1. unfold uuid4_hex at 1. cbn [fst snd].
  unfold bind at 1.
  rewrite colombia_store_incident_swallows with (e := e) by exact Hst.
  set (s1 := State _ _ _ _ _ _ _).
  unfold bind at 1.
  set (upd := if _ : bool then _ else _).
  assert (Hupd : exists s2, upd w s1 = (Ok tt, s2)
                 /\ st_sends s2 = st_sends s1
                 /\ st_incidents s2 = st_incidents s1
                 /\ provider_calls s2 = provider_calls s1
                 /\ (forall x, In x (st_events s1) -> In x (st_events s2))).
  { subst upd. destruct (_ && _).
    - apply colombia_store_location_quiet.
    - exists s1. repeat split; auto. }
  destruct Hupd as (s2 & -> & Hs2 & Hi2 & Hc2 & He2).
  unfold bind at 1.
  assert (Hcoord : forall o st0, exists t,
            ColombiaWorking.coordinate_str o w st0 = (Ok t, st0)).
  { intros [q|] st0; eexists; reflexivity. }
  destruct (Hcoord (loc_latitude (default no_location (b_location b))) s2)
    as [lat ->].
  unfold bind at 1.
  destruct (Hcoord (loc_longitude (default no_location (b_location b))) s2)
    as [lon ->].
  unfold bind at 1. unfold now at 1.
  set (s3 := State _ _ _ _ _ _ _).
  unfold bind at 1.
  match goal with
  | |- context [ColombiaWorking.send_sms_hybrid ?ph ?m ?c w s3] =>
      destruct (colombia_send_sms_hybrid_total w s3 ph m c)
        as (r & s4 & ev & st & -> & Hr & Hst4 & Hc4 & Hi4 & He4)
  end.
  unfold bind, index, now, ret. rewrite Hr.
  eexists _, _, ev. split; [reflexivity|]. cbn.
  split; [reflexivity|]. split; [|split; [|split]].
  - destruct Hst4 as [-> | ->]; [left|right]; reflexivity.
  - apply He4. subst s3. cbn. apply He2. subst s1. cbn.
    apply in_app_iff. cbn. tauto.
  - unfold provider_calls in *. cbn. rewrite Hc4. subst s3. cbn.
    rewrite Hc2. subst s1. cbn. rewrite List.filter_app. cbn.
    rewrite app_nil_r. reflexivity.
  - rewrite Hi4. subst s3. cbn. rewrite Hi2. reflexivity.
Qed.

(** C7.  When the write of the incident record fails, the alert flow goes
    on: the failure is logged as an error, the SMS is handed to the
    provider and the incidents table is left as it was.  The answer is
    decided by the SMS alone.  The hybrid-routing handler answers HTTP 200
    with status [success] or [partial].  So does the tracking handler:
    [success] when the provider accepts the message, [partial] with the
    text of the provider's exception when it raises.  Only a provider
    exception whose [response] attribute is [None] makes the sender of the
    tracking handler raise; the answer is then an HTTP 500 that reports
    that [AttributeError], not the failure of the store. *)
Theorem alert_survives_store_failure (w : world) (s : state) (b : body)
    (e : exn) :
  w_store w (st_stores s) = Some e ->
  (exists resp s' text,
     EumWithTracking.handle_jury_emergency_alert b w s = (Ok resp, s')
     /\ In (ELog LError (u "Failed to store incident: " ++ exn_str e))
           (st_events s')
     /\ provider_calls s' =
          provider_calls s
          ++ [ESendTextMessage
                (default EumWithTracking.JURY_PHONE_NUMBER (b_phoneNumber b))
                EumWithTracking.ORIGINATOR_NUMBER text
                EumWithTracking.MESSAGE_TYPE
                EumWithTracking.CONFIGURATION_SET]
     /\ st_incidents s' = st_incidents s
     /\ match w_send w (st_sends s) with
        | None =>
            statusCode resp = 200
            /\ dict_get "status" (resp_body resp) = Some (JStr (u "success"))
        | Some x =>
            if response_is_none x then
              statusCode resp = 500
              /\ dict_get "status" (resp_body resp) = Some (JStr (u "error"))
              /\ dict_get "message" (resp_body resp)
                 = Some (JStr (u "Emergency alert failed: "
                                 ++ exn_str EumWithTracking.NoneTypeError))
            else
              statusCode resp = 200
              /\ dict_get "status" (resp_body resp)
                 = Some (JStr (u "partial"))
              /\ dict_get "smsError" (resp_body resp)
                 = Some (JStr (exn_str x))
        end)
  /\ (forall p,
        b_phoneNumber b = Some p -> p <> [] ->
        exists resp s' ev,
          ColombiaWorking.handle_jury_emergency_alert b w s = (Ok resp, s')
          /\ statusCode resp = 200
          /\ (dict_get "status" (resp_body resp) = Some (JStr (u "success"))
              \/ dict_get "status" (resp_body resp)
                 = Some (JStr (u "partial")))
          /\ In (ELog LError (u "Store incident failed: " ++ exn_str e))
                (st_events s')
          /\ provider_calls s' = provider_calls s ++ [ev]
          /\ st_incidents s' = st_incidents s).
Proof.
  intros H. split.
  - apply eum_alert_survives_store_failure, H.
  - intros p Hb Hp. apply (colombia_alert_survives_store_failure w s b p e);
      assumption.
Qed.

Lemma alert_survives_store_failure_witness :
  (exists resp s' text,
     EumWithTracking.handle_jury_emergency_alert
       (action_only (u "JURY_EMERGENCY_ALERT")) store_down empty_state
     = (Ok resp, s')
     /\ In (ELog LError (u "Failed to store incident: service unavailable"))
           (st_events s')
     /\ provider_calls s' =
          provider_calls empty_state
          ++ [ESendTextMessage EumWithTracking.JURY_PHONE_NUMBER
                EumWithTracking.ORIGINATOR_NUMBER text
                EumWithTracking.MESSAGE_TYPE
                EumWithTracking.CONFIGURATION_SET]
     /\ st_incidents s' = st_incidents empty_state
     /\ statusCode resp = 200
     /\ dict_get "status" (resp_body resp) = Some (JStr (u "success")))
  /\ (exists resp s' text,
        EumWithTracking.handle_jury_emergency_alert
          (action_only (u "JURY_EMERGENCY_ALERT")) all_down empty_state
        = (Ok resp, s')
        /\ In (ELog LError (u "Failed to store incident: service unavailable"))
              (st_events s')
        /\ provider_calls s' =
             provider_calls empty_state
             ++ [ESendTextMessage EumWithTracking.JURY_PHONE_NUMBER
                   EumWithTracking.ORIGINATOR_NUMBER text
                   EumWithTracking.MESSAGE_TYPE
                   EumWithTracking.CONFIGURATION_SET]
        /\ st_incidents s' = st_incidents empty_state
        /\ statusCode resp = 500
        /\ dict_get "status" (resp_body resp) = Some (JStr (u "error"))
        /\ dict_get "message" (resp_body resp)
           = Some (JStr (u "Emergency alert failed: 'NoneType' object has no attribute 'get'"))).
Proof.
  split.
  - exact (proj1 (alert_survives_store_failure store_down empty_state
                    (action_only (u "JURY_EMERGENCY_ALERT")) sample_exn
                    eq_refl)).
  - exact (proj1 (alert_survives_store_failure all_down empty_state
                    (action_only (u "JURY_EMERGENCY_ALERT")) sample_exn
                    eq_refl)).
Defined.

(* ================================================================== *)
(** * Length of the alert text *)
(* ================================================================== *)

Lemma len_app (a b : ustring) : len (a ++ b) = len a + len b.
Proof. unfold len. rewrite length_app. lia. Qed.

Lemma len_nonneg (a : ustring) : 0 <= len a.
Proof. unfold len. lia. Qed.

(** The tracking handler has a single template, and every text it yields
    is longer than 160 characters. *)
Lemma eum_sms_message_long (name dtype : ustring) (dd : detection_data)
    (place id hms : ustring) :
  160 < len (EumWithTracking.sms_message
               (EumWithTracking.danger_message name dtype dd) place id hms).
Proof.
  unfold EumWithTracking.sms_message, EumWithTracking.tracking_url,
    EumWithTracking.danger_message.
  pose proof (len_nonneg name). pose proof (len_nonneg place).
  pose proof (len_nonneg id). pose proof (len_nonneg hms).
  pose proof (len_nonneg
                (join (u ", ") (default [u "emergency"] (dd_detectedWords dd)))).
  destruct (str_eqb dtype (u "emergency_words"));
    [|destruct (str_eqb dtype (u "abrupt_noise"))];
    rewrite !len_app;
    repeat match goal with
           | |- context [len (u ?x)] =>
               let n := eval vm_compute in (len (u x)) in
               change (len (u x)) with n
           end;
    change (len nl) with 1;
    change (len EumWithTracking.ORIGINATOR_NUMBER) with 12; lia.
Qed.

Lemma eum_alert_text_sent (w : world) (s : state) (b : body) :
  exists resp s',
    EumWithTracking.handle_jury_emergency_alert b w s = (Ok resp, s')
    /\ provider_calls s' =
         provider_calls s
         ++ [ESendTextMessage
               (default EumWithTracking.JURY_PHONE_NUMBER (b_phoneNumber b))
               EumWithTracking.ORIGINATOR_NUMBER
               (eum_alert_text b
                  (u "EMG-" ++ upper (take 8 (uuid_hex (w_uuid w (st_uuids s)))))
                  (w_clock w (S (S (st_ticks s)))))
               EumWithTracking.MESSAGE_TYPE
               EumWithTracking.CONFIGURATION_SET].
Proof.
  destruct s as [n1 n2 n3 n4 evs inc locs].
  unfold EumWithTracking.handle_jury_emergency_alert,
    EumWithTracking.store_incident, EumWithTracking.send_eum_sms,
    provider_calls, eum_alert_text.
  run.
  destruct (w_store w n2);
    [|destruct (loc_latitude (default no_location (b_location b)));
      destruct (loc_longitude (default no_location (b_location b)));
      floats];
    (destruct (w_send w n1) as [x|];
     [destruct (exn_response x) as [| |code msg]|]); run;
    eexists _, _; (split; [reflexivity|]); cbn;
    rewrite !List.filter_app; cbn; rewrite ?app_nil_r; reflexivity.
Qed.

Lemma complete_sms_text_cases (victim place lat lon link time : ustring)
    (pct : Z) :
  let primary :=
    CompleteLambda.primary_template victim place lat lon link time pct in
  let text := CompleteLambda.sms_text victim place lat lon link time pct in
  (160 < len primary ->
   text = CompleteLambda.short_template victim lat lon link time)
  /\ (len primary <= 160 -> text = primary /\ len text <= 160).
Proof.
  intros primary text. subst text. unfold CompleteLambda.sms_text.
  fold primary. destruct (Z.ltb_spec 160 (len primary)); split; intros;
    try lia; auto.
Qed.

(** C5, amended.  Only [send_emergency_sms] of [allsense-complete-lambda.py]
    shortens: a primary rendering of more than 160 characters is replaced
    by the rendering of the short template, and a primary rendering of at
    most 160 characters is sent as it is.  The short rendering has no
    bound of its own.  The tracking handler composes its text from a single
    template and hands it to the dispatcher; that text is always longer
    than 160 characters. *)
Theorem alert_text_length (w : world) (s : state) (b : body)
    (victim place lat lon link time : ustring) (pct : Z) :
  let primary :=
    CompleteLambda.primary_template victim place lat lon link time pct in
  let text := CompleteLambda.sms_text victim place lat lon link time pct in
  (160 < len primary ->
   text = CompleteLambda.short_template victim lat lon link time)
  /\ (len primary <= 160 -> text = primary /\ len text <= 160)
  /\ (exists resp s' sent,
        EumWithTracking.handle_jury_emergency_alert b w s = (Ok resp, s')
        /\ provider_calls s' =
             provider_calls s
             ++ [ESendTextMessage
                   (default EumWithTracking.JURY_PHONE_NUMBER
                      (b_phoneNumber b))
                   EumWithTracking.ORIGINATOR_NUMBER sent
                   EumWithTracking.MESSAGE_TYPE
                   EumWithTracking.CONFIGURATION_SET]
        /\ sent = eum_alert_text b
                    (u "EMG-"
                       ++ upper (take 8 (uuid_hex (w_uuid w (st_uuids s)))))
                    (w_clock w (S (S (st_ticks s))))
        /\ 160 < len sent).
Proof.
  intros primary text.
  destruct (complete_sms_text_cases victim place lat lon link time pct)
    as [H1 H2].
  split; [exact H1|]. split; [exact H2|].
  destruct (eum_alert_text_sent w s b) as (resp & s' & E & Hc).
  eexists resp, s', _. split; [exact E|]. split; [exact Hc|].
  split; [reflexivity|]. apply eum_sms_message_long.
Qed.

Lemma alert_text_length_witness :
  CompleteLambda.sms_text (u "Carlos Perez")
    (u "Miami Convention Center, Miami, FL") (u "25.7617") (u "-80.1918")
    (u "https://maps.google.com/?q=25.7617,-80.1918")
    (u "2023-11-14 22:13:20 UTC") 90
  = CompleteLambda.short_template (u "Carlos Perez") (u "25.7617")
      (u "-80.1918") (u "https://maps.google.com/?q=25.7617,-80.1918")
      (u "2023-11-14 22:13:20 UTC").
Proof.
  apply (alert_text_length sample_world empty_state empty_body
           (u "Carlos Perez") (u "Miami Convention Center, Miami, FL")
           (u "25.7617") (u "-80.1918")
           (u "https://maps.google.com/?q=25.7617,-80.1918")
           (u "2023-11-14 22:13:20 UTC") 90).
  vm_compute. reflexivity.
Defined.

(** C5 as stated fails twice: the text the tracking handler hands to the
    dispatcher for a request without any field is 271 characters long, and
    the short rendering of the one sender that shortens exceeds 160
    characters for a long victim name. *)
Lemma alert_text_exceeds_budget :
  (exists resp s' sent,
     EumWithTracking.handle_jury_emergency_alert empty_body sample_world
       empty_state = (Ok resp, s')
     /\ provider_calls s' =
          [ESendTextMessage EumWithTracking.JURY_PHONE_NUMBER
             EumWithTracking.ORIGINATOR_NUMBER sent
             EumWithTracking.MESSAGE_TYPE EumWithTracking.CONFIGURATION_SET]
     /\ len sent = 271)
  /\ CompleteLambda.sms_text long_name (u "Test Plaza") (u "25.7617")
       (u "-80.1918") (u "https://maps.google.com/?q=25.7617,-80.1918")
       (u "2023-11-14 22:13:20 UTC") 90
     = CompleteLambda.short_template long_name (u "25.7617") (u "-80.1918")
         (u "https://maps.google.com/?q=25.7617,-80.1918")
         (u "2023-11-14 22:13:20 UTC")
  /\ len (CompleteLambda.sms_text long_name (u "Test Plaza") (u "25.7617")
            (u "-80.1918") (u "https://maps.google.com/?q=25.7617,-80.1918")
            (u "2023-11-14 22:13:20 UTC") 90) = 279.
Proof.
  split; [|split; vm_compute; reflexivity].
  eexists _, _, _. split; [vm_compute; reflexivity|].
  split; vm_compute; reflexivity.
Qed.

(* ================================================================== *)
(** * Queries on the location table *)
(* ================================================================== *)

Section query.
Variable tbl : gmap (ustring * Z) location_fix.
Variable id : ustring.

Lemma partition_keys_elem (ts : Z) :
  ts ∈ partition_keys tbl id <-> is_Some (tbl !! (id, ts)).
Proof.
  unfold partition_keys. rewrite merge_sort_Permutation.
  rewrite list_elem_of_In, in_map_iff. split.
  - intros ([i t] & <- & Hin). apply filter_In in Hin as [Hin Hi].
    apply bool_decide_eq_true in Hi. simpl in Hi. subst i.
    apply list_elem_of_In, elem_of_elements, elem_of_dom in Hin. exact Hin.
  - intros H. exists (id, ts). split; [reflexivity|].
    apply filter_In. split.
    + apply list_elem_of_In, elem_of_elements, elem_of_dom, H.
    + apply bool_decide_eq_true. reflexivity.
Qed.

Lemma partition_keys_NoDup : NoDup (partition_keys tbl id).
Proof.
  unfold partition_keys. rewrite merge_sort_Permutation.
  apply (NoDup_fmap_2_strong snd).
  - intros [i1 t1] [i2 t2] H1 H2 Heq. simpl in Heq. subst t2.
    apply list_elem_of_In, filter_In in H1 as [_ H1].
    apply list_elem_of_In, filter_In in H2 as [_ H2].
    apply bool_decide_eq_true in H1, H2. simpl in H1, H2. congruence.
  - apply NoDup_ListNoDup, List.NoDup_filter, NoDup_ListNoDup, NoDup_elements.
Qed.

Lemma partition_keys_sorted : StronglySorted Z.lt (partition_keys tbl id).
Proof.
  assert (Hs : StronglySorted Z.le (partition_keys tbl id)).
  { apply StronglySorted_merge_sort; apply _. }
  pose proof partition_keys_NoDup as Hn.
  induction Hs as [|x l Hs IH Hx]; constructor.
  - apply IH. apply NoDup_cons in Hn as [_ Hn]. exact Hn.
  - apply NoDup_cons in Hn as [Hx' _].
    rewrite Forall_forall in *. intros y Hy. specialize (Hx y Hy).
    assert (x <> y) by (intros ->; contradiction). lia.
Qed.

(** Every key of the partition is bound, so the query returns one item per
    key. *)
Lemma lookup_all (ks : list Z) :
  (forall ts, ts ∈ ks -> is_Some (tbl !! (id, ts))) ->
  Forall2 (fun ts f => tbl !! (id, ts) = Some f) ks
    (omap (fun ts => tbl !! (id, ts)) ks).
Proof.
  induction ks as [|t ks IH]; intros H; [constructor|].
  destruct (H t) as [f Hf]; [left|].
  cbn. rewrite Hf. constructor; [exact Hf|].
  apply IH. intros ts Hts. apply H. right. exact Hts.
Qed.

Lemma query_items_length (forward : bool) (limit : nat) :
  (length (query_items tbl id forward limit) <= limit)%nat.
Proof. unfold query_items. rewrite length_take. lia. Qed.

Lemma query_items_stored (forward : bool) (limit : nat) (f : location_fix) :
  f ∈ query_items tbl id forward limit ->
  exists ts, tbl !! (id, ts) = Some f.
Proof.
  unfold query_items. intros H. apply elem_of_take in H as (i & H & _).
  apply list_elem_of_lookup_2, list_elem_of_omap in H as (ts & _ & H).
  eauto.
Qed.

(** The capture times of the answer: the first [limit] keys of the
    partition in the direction asked for. *)
Lemma query_items_timestamps (forward : bool) (limit : nat) :
  keyed tbl ->
  List.map fx_timestamp (query_items tbl id forward limit)
  = take limit (if forward then partition_keys tbl id
                else reverse (partition_keys tbl id)).
Proof.
  intros Hk. unfold query_items.
  set (ks := if forward then _ else _).
  assert (HF : Forall2 (fun ts f => tbl !! (id, ts) = Some f) ks
                 (omap (fun ts => tbl !! (id, ts)) ks)).
  { apply lookup_all. intros ts Hts. apply partition_keys_elem. subst ks.
    destruct forward; [exact Hts|]. rewrite elem_of_reverse in Hts. exact Hts. }
  revert limit.
  induction HF as [|t f ks' items Hf HF IH]; intros [|n]; try reflexivity.
  simpl. rewrite IH. f_equal.
  apply Hk in Hf. congruence.
Qed.

Lemma query_items_descending (limit : nat) :
  keyed tbl ->
  StronglySorted (flip Z.lt)
    (List.map fx_timestamp (query_items tbl id false limit)).
Proof.
  intros Hk. rewrite (query_items_timestamps false limit Hk).
  assert (H : StronglySorted (flip Z.lt) (reverse (partition_keys tbl id))).
  { apply Sorted_StronglySorted; [intros x y z; unfold flip; lia|].
    apply Sorted_reverse, StronglySorted_Sorted, partition_keys_sorted. }
  rewrite <- (take_drop limit (reverse (partition_keys tbl id))) in H.
  apply StronglySorted_app_1_l in H. exact H.
Qed.

Lemma query_items_ascending (limit : nat) :
  keyed tbl ->
  StronglySorted Z.lt
    (List.map fx_timestamp (query_items tbl id true limit)).
Proof.
  intros Hk. rewrite (query_items_timestamps true limit Hk).
  pose proof partition_keys_sorted as H.
  rewrite <- (take_drop limit (partition_keys tbl id)) in H.
  apply StronglySorted_app_1_l in H. exact H.
Qed.




End query.

Lemma keyed_empty : keyed ∅.
Proof. intros k f H. rewrite lookup_empty in H. discriminate. Qed.

(** [put_location] keeps the table keyed by the attributes of its items. *)
Lemma put_location_keyed (numbers : number_type) (w : world) (s : state)
    (item : location_fix) :
  keyed (st_locations s) ->
  keyed (st_locations (snd (put_location numbers item w s))).
Proof.
  intros Hk. destruct s as [n1 n2 n3 n4 evs inc locs]. unfold put_location.
  run. destruct (w_store w n2); [exact Hk|]. destruct numbers; [|exact Hk].
  cbn.
  intros k f H. destruct (decide (k = (fx_incidentId item, fx_timestamp item)))
    as [->|Hne].
  - rewrite lookup_insert_eq in H. congruence.
  - rewrite lookup_insert_ne in H by congruence. apply Hk, H.
Qed.










Example three_fixes_newest_two :
  query_items three_fixes (u "EMG-1") false 2
  = [fix_at (u "EMG-1") 3000; fix_at (u "EMG-1") 2000]
  /\ query_items three_fixes (u "EMG-1") true 2
     = [fix_at (u "EMG-1") 1000; fix_at (u "EMG-1") 2000].
Proof. split; vm_compute; reflexivity. Qed.
(* ================================================================== *)
(** * Postconditions of handlers *)
(* ================================================================== *)

Lemma returns_ret {A} (P : A -> Prop) (a : A) : P a -> returns P (ret a).
Proof. intros H w s a' s' [= <- _]. exact H. Qed.

Lemma returns_raise {A} (P : A -> Prop) (e : exn) : returns P (raise e).
Proof. intros w s a s' [=]. Qed.

Lemma returns_bind {A B} (P : B -> Prop) (m : M A) (k : A -> M B) :
  (forall a, returns P (k a)) -> returns P (bind m k).
Proof.
  intros H w s b s'. unfold bind.
  destruct (m w s) as [[a|e] s1]; [apply H|discriminate].
Qed.

Lemma returns_try {A} (P : A -> Prop) (m : M A) (h : exn -> M A) :
  returns P m -> (forall e, returns P (h e)) -> returns P (try_except m h).
Proof.
  intros Hm Hh w s a s'. unfold try_except.
  destruct (m w s) as [[a'|e] s1] eqn:E.
  - intros [= <- <-]. exact (Hm _ _ _ _ E).
  - apply Hh.
Qed.

Lemma always_ret {A} (P : A -> Prop) (a : A) : P a -> always P (ret a).
Proof. intros H w s. exists a, s. split; [reflexivity|exact H]. Qed.

Lemma always_bind {A B} (P : B -> Prop) (m : M A) (k : A -> M B) :
  always (fun _ => True) m -> (forall a, always P (k a)) ->
  always P (bind m k).
Proof.
  intros Hm Hk w s. unfold bind.
  destruct (Hm w s) as (a & s1 & -> & _). apply Hk.
Qed.

Lemma always_try {A} (P : A -> Prop) (m : M A) (h : exn -> M A) :
  returns P m -> (forall e, always P (h e)) -> always P (try_except m h).
Proof.
  intros Hm Hh w s. unfold try_except.
  destruct (m w s) as [[a|e] s1] eqn:E.
  - exists a, s1. split; [reflexivity|exact (Hm _ _ _ _ E)].
  - apply Hh.
Qed.

Lemma always_weaken {A} (P Q : A -> Prop) (m : M A) :
  (forall a, P a -> Q a) -> always P m -> always Q m.
Proof.
  intros H Hm w s. destruct (Hm w s) as (a & s' & E & Ha).
  exists a, s'. split; [exact E|apply H, Ha].
Qed.

Lemma always_emit (e : event) : always (fun _ => True) (emit e).
Proof. intros w s. eexists _, _. split; [reflexivity|exact I]. Qed.

Lemma always_now : always (fun _ => True) now.
Proof. intros w s. eexists _, _. split; [reflexivity|exact I]. Qed.

Lemma always_uuid4_hex : always (fun _ => True) uuid4_hex.
Proof. intros w s. eexists _, _. split; [reflexivity|exact I]. Qed.

Lemma always_num_str (q : Q) : always (fun _ => True) (num_str q).
Proof. intros w s. eexists _, _. split; [reflexivity|exact I]. Qed.

(** One step through the syntax of a computation. *)
Ltac returns_step :=
  lazymatch goal with
  | |- returns _ (try_except _ _) => apply returns_try; [|intros ?]
  | |- returns _ (bind _ _) => apply returns_bind; intros ?
  | |- returns _ (ret _) => apply returns_ret
  | |- returns _ (raise _) => apply returns_raise
  | |- returns _ (index _ _) => unfold index
  | |- returns _ (match ?x with _ => _ end) => destruct x
  | |- returns _ (let _ := _ in _) => cbv zeta
  end.

Ltac always_step :=
  lazymatch goal with
  | |- always _ (bind _ _) => apply always_bind; [|intros ?]
  | |- always _ (ret _) => apply always_ret
  | |- always _ (log_error _) => apply always_emit
  | |- always _ (log_warning _) => apply always_emit
  | |- always _ (emit _) => apply always_emit
  | |- always _ now => apply always_now
  | |- always _ uuid4_hex => apply always_uuid4_hex
  | |- always _ (num_str _) => apply always_num_str
  | |- always _ (match ?x with _ => _ end) => destruct x
  | |- always _ (let _ := _ in _) => cbv zeta
  end.

Lemma http_answer_cors_eum (d : dict) (c : Z) :
  c = 200 \/ c = 400 \/ c = 500 ->
  http_answer (EumWithTracking.cors_response d c).
Proof. intros H. split; [reflexivity|exact H]. Qed.

Ltac http_leaf :=
  try (apply http_answer_cors_eum; auto; fail).

Section eum_answers.
Import EumWithTracking.

Lemma returns_handle_jury_emergency_alert (b : body) :
  returns http_answer (handle_jury_emergency_alert b).
Proof.
  unfold handle_jury_emergency_alert.
  repeat returns_step; http_leaf.
Qed.

Lemma returns_handle_jury_test (b : body) :
  returns http_answer (handle_jury_test b).
Proof. unfold handle_jury_test. repeat returns_step; http_leaf. Qed.

Lemma returns_test_sms_direct (b : body) :
  returns http_answer (test_sms_direct b).
Proof. unfold test_sms_direct. repeat returns_step; http_leaf. Qed.

Lemma returns_check_eum_configuration :
  returns http_answer check_eum_configuration.
Proof. unfold check_eum_configuration. repeat returns_step; http_leaf. Qed.

Lemma returns_handle_update_location (b : body) :
  returns http_answer (handle_update_location b).
Proof.
  unfold handle_update_location, incident_id_required.
  repeat returns_step; http_leaf.
Qed.

Lemma returns_handle_get_location (b : body) :
  returns http_answer (handle_get_location b).
Proof.
  unfold handle_get_location, incident_id_required.
  repeat returns_step; http_leaf.
Qed.

Lemma returns_handle_get_location_history (b : body) :
  returns http_answer (handle_get_location_history b).
Proof.
  unfold handle_get_location_history, incident_id_required.
  repeat returns_step; http_leaf.
Qed.

(** X1.  The entry point never raises: whatever the event and whatever the
    parser, the providers, the store and the clock do, it returns a
    response that carries the CORS headers and the status code 200, 400
    or 500. *)
Theorem handler_always_answers (event : lambda_event) (w : world)
    (s : state) :
  exists resp s',
    handler event w s = (Ok resp, s')
    /\ headers resp = cors_headers
    /\ (statusCode resp = 200 \/ statusCode resp = 400
        \/ statusCode resp = 500).
Proof.
  assert (H : always http_answer (handler event)).
  { unfold handler. apply always_try.
    - destruct (match ev_httpMethod event with
                | Some m => str_eqb m (u "OPTIONS") | None => false end).
      + returns_step. http_leaf.
      + apply returns_bind. intros b. cbv zeta.
        repeat match goal with
               | |- returns _ (if ?c then _ else _) => destruct c
               end.
        * apply returns_handle_jury_emergency_alert.
        * apply returns_handle_jury_test.
        * apply returns_test_sms_direct.
        * apply returns_check_eum_configuration.
        * apply returns_handle_update_location.
        * apply returns_handle_get_location.
        * apply returns_handle_get_location_history.
        * repeat returns_step; http_leaf.
    - intros e. repeat always_step; http_leaf. }
  destruct (H w s) as (resp & s' & E & Hh & Hc). eauto.
Qed.

End eum_answers.
(* ================================================================== *)
(** * The entry point of the tracking variant *)
(* ================================================================== *)

Section eum_entry.
Import EumWithTracking.

Lemma not_preflight (event : lambda_event) :
  ev_httpMethod event <> Some (u "OPTIONS") ->
  match ev_httpMethod event with
  | Some m => str_eqb m (u "OPTIONS")
  | None => false
  end = false.
Proof.
  intros H. destruct (ev_httpMethod event) as [m|]; [|reflexivity].
  apply str_eqb_neq. congruence.
Qed.

(** X2.  The body of a pre-flight request is not read: the answer is an empty
    200 and nothing changes, even when the body is not JSON.  For any other
    method a body that the parser rejects is answered with HTTP 500,
    status [error] and the parser's message, and no provider or table is
    touched. *)
Theorem handler_unparsable_body (w : world) (s : state)
    (event : lambda_event) (raw : ustring) (e : exn) :
  ev_payload event = BodyText raw ->
  w_json_loads w raw = Raise e ->
  (ev_httpMethod event = Some (u "OPTIONS") ->
   handler event w s = (Ok (cors_response [] 200), s))
  /\ (ev_httpMethod event <> Some (u "OPTIONS") ->
      exists resp s',
        handler event w s = (Ok resp, s')
        /\ statusCode resp = 500
        /\ status_of resp = Some (JStr (u "error"))
        /\ dict_get "message" (resp_body resp) = Some (JStr (exn_str e))
        /\ dict_get "errorType" (resp_body resp) = Some (JStr (exn_type e))
        /\ provider_calls s' = provider_calls s
        /\ st_sends s' = st_sends s
        /\ st_stores s' = st_stores s
        /\ st_incidents s' = st_incidents s
        /\ st_locations s' = st_locations s).
Proof.
  intros Hp He. split.
  - intros Hm. unfold handler, try_except. rewrite Hm. reflexivity.
  - intros Hm. destruct s as [n1 n2 n3 n4 evs inc locs].
    unfold handler, parse_body. rewrite (not_preflight event Hm), Hp.
    run. rewrite He.
    eexists _, _. split; [reflexivity|]. unfold provider_calls. cbn.
    repeat split. rewrite !List.filter_app. cbn. rewrite !app_nil_r.
    reflexivity.
Qed.

Lemma handler_unparsable_body_witness :
  let event := LambdaEvent (Some (u "POST")) (BodyText (u "not json")) in
  exists resp s',
    handler event parser_down empty_state = (Ok resp, s')
    /\ statusCode resp = 500
    /\ status_of resp = Some (JStr (u "error"))
    /\ provider_calls s' = [].
Proof.
  intros event.
  destruct (handler_unparsable_body parser_down empty_state event
              (u "not json") JSONDecodeError eq_refl eq_refl) as [_ H].
  destruct H as (resp & s' & E & Hc & Hs & _ & _ & Hp & _);
    [discriminate|].
  exists resp, s'. repeat split; assumption.
Defined.

Lemma test_sms_direct_runs (w : world) (s : state) (b : body) :
  exists resp s',
    test_sms_direct b w s = (Ok resp, s')
    /\ match w_send w (st_sends s) with
       | None =>
           statusCode resp = 200
           /\ status_of resp = Some (JStr (u "success"))
           /\ dict_get "smsError" (resp_body resp) = Some JNull
       | Some e =>
           if response_is_none e then
             statusCode resp = 500
             /\ status_of resp = Some (JStr (u "error"))
             /\ dict_get "smsError" (resp_body resp)
                = Some (JStr (exn_str NoneTypeError))
           else
             statusCode resp = 200
             /\ status_of resp = Some (JStr (u "failed"))
             /\ dict_get "smsError" (resp_body resp)
                = Some (JStr (exn_str e))
       end
    /\ provider_calls s' =
         provider_calls s
         ++ [ESendTextMessage
               (default (u "+19543483664") (b_phoneNumber b))
               ORIGINATOR_NUMBER
               (default
                  (u "AllSensesAI Test Message via AWS End User Messaging. Time: "
                     ++ dt_hms (w_clock w (st_ticks s)))
                  (b_message b))
               MESSAGE_TYPE CONFIGURATION_SET].
Proof.
  destruct s as [n1 n2 n3 n4 evs inc locs].
  unfold test_sms_direct, send_eum_sms, response_is_none. run.
  unfold provider_calls.
  destruct (w_send w n1) as [x|] eqn:E; run;
    [destruct (exn_response x) as [| |code msg]; run|];
    (eexists _, _; split; [reflexivity|]; cbn;
     split; [repeat split|];
     rewrite !List.filter_app; cbn; rewrite ?app_nil_r; reflexivity).
Qed.

(** X3.  A request without [action] is treated as TEST_SMS: one text message is
    handed to the provider, addressed to the request's [phoneNumber] or,
    when there is none, to +19543483664.  The answer is HTTP 200 with
    status [success] when the provider accepted the message, and HTTP 200
    with status [failed] and the provider's error when it raised.  Only
    when the exception of the provider has a [response] attribute that is
    [None] does the sender raise an [AttributeError] itself; the answer
    is then HTTP 500 with status [error] and the text of that error. *)
Theorem handler_default_action (w : world) (s : state)
    (event : lambda_event) (b : body) :
  ev_httpMethod event <> Some (u "OPTIONS") ->
  parse_body event w s = (Ok b, s) ->
  b_action b = None ->
  exists resp s',
    handler event w s = (Ok resp, s')
    /\ match w_send w (st_sends s) with
       | None =>
           statusCode resp = 200
           /\ status_of resp = Some (JStr (u "success"))
           /\ dict_get "smsError" (resp_body resp) = Some JNull
       | Some e =>
           if response_is_none e then
             statusCode resp = 500
             /\ status_of resp = Some (JStr (u "error"))
             /\ dict_get "smsError" (resp_body resp)
                = Some (JStr (exn_str NoneTypeError))
           else
             statusCode resp = 200
             /\ status_of resp = Some (JStr (u "failed"))
             /\ dict_get "smsError" (resp_body resp)
                = Some (JStr (exn_str e))
       end
    /\ provider_calls s' =
         provider_calls s
         ++ [ESendTextMessage
               (default (u "+19543483664") (b_phoneNumber b))
               ORIGINATOR_NUMBER
               (default
                  (u "AllSensesAI Test Message via AWS End User Messaging. Time: "
                     ++ dt_hms (w_clock w (st_ticks s)))
                  (b_message b))
               MESSAGE_TYPE CONFIGURATION_SET].
Proof.
  intros Hm Hp Ha.
  destruct (test_sms_direct_runs w s b) as (resp & s' & E & H).
  exists resp, s'. split; [|exact H].
  unfold handler, try_except, bind.
  rewrite (not_preflight event Hm), Hp, Ha. cbn [default from_option id].
  change (str_eqb (u "TEST_SMS") (u "JURY_EMERGENCY_ALERT")) with false.
  change (str_eqb (u "TEST_SMS") (u "JURY_TEST")) with false.
  change (str_eqb (u "TEST_SMS") (u "TEST_SMS")) with true.
  cbv iota. rewrite E. reflexivity.
Qed.

Lemma handler_default_action_witness :
  let event := LambdaEvent (Some (u "POST")) (BodyObject empty_body) in
  (exists resp s',
     handler event sample_world empty_state = (Ok resp, s')
     /\ statusCode resp = 200
     /\ status_of resp = Some (JStr (u "success"))
     /\ provider_calls s' =
          [ESendTextMessage (u "+19543483664") ORIGINATOR_NUMBER
             (u "AllSensesAI Test Message via AWS End User Messaging. Time: 22:13:20")
             MESSAGE_TYPE CONFIGURATION_SET])
  /\ (exists resp s',
        handler event provider_timeout empty_state = (Ok resp, s')
        /\ statusCode resp = 500
        /\ status_of resp = Some (JStr (u "error"))
        /\ dict_get "smsError" (resp_body resp)
           = Some (JStr (u "'NoneType' object has no attribute 'get'"))).
Proof.
  intros event. split.
  - destruct (handler_default_action sample_world empty_state event
                empty_body)
      as (resp & s' & E & (Hc & Hs & _) & Hp);
      [discriminate|reflexivity|reflexivity|].
    exists resp, s'. repeat split; assumption.
  - destruct (handler_default_action provider_timeout empty_state event
                empty_body)
      as (resp & s' & E & (Hc & Hs & He) & Hp);
      [discriminate|reflexivity|reflexivity|].
    exists resp, s'. repeat split; assumption.
Defined.

(** X5.  CHECK_EUM_CONFIG asks the provider twice (phone numbers, then
    configuration sets) and answers HTTP 200 with status [success]
    whatever the two calls do: a call that raises is logged as a warning
    and reported as an empty list. *)
Theorem check_eum_configuration_tolerant (w : world) (s : state) :
  exists resp s' cfg,
    check_eum_configuration w s = (Ok resp, s')
    /\ statusCode resp = 200
    /\ status_of resp = Some (JStr (u "success"))
    /\ dict_get "configuration" (resp_body resp) = Some (JDict cfg)
    /\ provider_calls s' =
         provider_calls s
         ++ [EDescribe "describe_phone_numbers";
             EDescribe "describe_configuration_sets"]
    /\ dict_get "phoneNumbers" cfg
       = Some (match w_send w (st_sends s) with
               | Some _ => JList []
               | None =>
                   default (JList [])
                     (dict_get "PhoneNumbers" (w_reply w (st_sends s)))
               end)
    /\ dict_get "configurationSets" cfg
       = Some (match w_send w (S (st_sends s)) with
               | Some _ => JList []
               | None =>
                   default (JList [])
                     (dict_get "ConfigurationSets"
                        (w_reply w (S (st_sends s))))
               end).
Proof.
  destruct s as [n1 n2 n3 n4 evs inc locs].
  unfold check_eum_configuration. run. unfold provider_calls.
  destruct (w_send w n1) as [x|] eqn:E1; run;
    destruct (w_send w (S n1)) as [y|] eqn:E2; run;
    (eexists _, _, _; split; [reflexivity|]; cbn;
     split; [reflexivity|]; split; [reflexivity|]; split; [reflexivity|];
     split; [|split; reflexivity];
     rewrite !List.filter_app; cbn; rewrite ?app_nil_r, <- ?app_assoc;
     reflexivity).
Qed.

(** X4.  The alert and the system test of the tracking variant answer
    in every run, whatever the store and the provider do.  The answer is
    HTTP 200 with status [success] when the provider accepted the text
    message; when it raised, the answer is HTTP 200 with status
    [partial], [smsStatus] [failed] and the text of the exception as
    [smsError].  The one exception is a provider exception whose
    [response] attribute is [None]: the sender then raises an
    [AttributeError] and the answer is HTTP 500 with status [error]. *)
Theorem eum_alert_status (w : world) (s : state) (b : body) :
  (exists resp s',
     handle_jury_emergency_alert b w s = (Ok resp, s')
     /\ match w_send w (st_sends s) with
        | None =>
            statusCode resp = 200
            /\ status_of resp = Some (JStr (u "success"))
            /\ dict_get "smsStatus" (resp_body resp) = Some (JStr (u "sent"))
            /\ dict_get "smsError" (resp_body resp) = Some JNull
        | Some e =>
            if response_is_none e then
              statusCode resp = 500
              /\ status_of resp = Some (JStr (u "error"))
              /\ dict_get "message" (resp_body resp)
                 = Some (JStr (u "Emergency alert failed: "
                                 ++ exn_str NoneTypeError))
            else
              statusCode resp = 200
              /\ status_of resp = Some (JStr (u "partial"))
              /\ dict_get "smsStatus" (resp_body resp)
                 = Some (JStr (u "failed"))
              /\ dict_get "smsError" (resp_body resp)
                 = Some (JStr (exn_str e))
        end)
  /\ (exists resp s',
        handle_jury_test b w s = (Ok resp, s')
        /\ match w_send w (st_sends s) with
           | None =>
               statusCode resp = 200
               /\ status_of resp = Some (JStr (u "success"))
               /\ dict_get "smsStatus" (resp_body resp)
                  = Some (JStr (u "sent"))
               /\ dict_get "smsError" (resp_body resp) = Some JNull
           | Some e =>
               if response_is_none e then
                 statusCode resp = 500
                 /\ status_of resp = Some (JStr (u "error"))
                 /\ dict_get "message" (resp_body resp)
                    = Some (JStr (u "Test failed: "
                                    ++ exn_str NoneTypeError))
               else
                 statusCode resp = 200
                 /\ status_of resp = Some (JStr (u "partial"))
                 /\ dict_get "smsStatus" (resp_body resp)
                    = Some (JStr (u "failed"))
                 /\ dict_get "smsError" (resp_body resp)
                    = Some (JStr (exn_str e))
           end).
Proof.
  destruct s as [n1 n2 n3 n4 evs inc locs]. unfold response_is_none. split.
  - unfold handle_jury_emergency_alert, store_incident, send_eum_sms. run.
    destruct (w_store w n2);
      [|destruct (loc_latitude (default no_location (b_location b)));
        destruct (loc_longitude (default no_location (b_location b)));
        floats];
      (destruct (w_send w n1) as [x|];
       [destruct (exn_response x) as [| |code msg]|]); run;
      eexists _, _; (split; [reflexivity|]); repeat split.
  - unfold handle_jury_test, send_eum_sms. run.
    destruct (w_send w n1) as [x|];
      [destruct (exn_response x) as [| |code msg]|]; run;
      eexists _, _; (split; [reflexivity|]); repeat split.
Qed.

End eum_entry.
(* ================================================================== *)
(** * Incidents and fixes: what is written and what is read back *)
(* ================================================================== *)




Section latest.
Context (tbl : gmap (ustring * Z) location_fix) (id : ustring).

Lemma query_items_none (forward : bool) (limit : nat) :
  (forall ts, tbl !! (id, ts) = None) ->
  query_items tbl id forward limit = [].
Proof.
  intros H. unfold query_items.
  assert (E : partition_keys tbl id = []).
  { destruct (partition_keys tbl id) as [|t l] eqn:E; [reflexivity|].
    assert (Ht : t ∈ partition_keys tbl id) by (rewrite E; left).
    apply partition_keys_elem in Ht as [f Hf]. rewrite H in Hf.
    discriminate. }
  rewrite E. destruct forward; destruct limit; reflexivity.
Qed.

Lemma query_items_latest (t : Z) (f : location_fix) :
  tbl !! (id, t) = Some f ->
  (forall ts, is_Some (tbl !! (id, ts)) -> ts <= t) ->
  query_items tbl id false 1 = [f].
Proof.
  intros Hf Hmax. unfold query_items.
  assert (Hs : StronglySorted (flip Z.lt) (reverse (partition_keys tbl id))).
  { apply Sorted_StronglySorted; [intros x y z; unfold flip; lia|].
    apply Sorted_reverse, StronglySorted_Sorted, partition_keys_sorted. }
  assert (Ht : t ∈ reverse (partition_keys tbl id)).
  { rewrite elem_of_reverse. apply partition_keys_elem. eauto. }
  assert (Hall : forall x, x ∈ reverse (partition_keys tbl id) -> x <= t).
  { intros x Hx. rewrite elem_of_reverse in Hx.
    apply Hmax, partition_keys_elem, Hx. }
  destruct (reverse (partition_keys tbl id)) as [|h r].
  { inversion Ht. }
  assert (h = t) as ->.
  { apply StronglySorted_inv in Hs as [_ Hh].
    apply elem_of_cons in Ht as [Ht|Ht]; [auto|].
    rewrite Forall_forall in Hh. specialize (Hh t Ht). unfold flip in Hh.
    specialize (Hall h ltac:(left)). lia. }
  cbn. rewrite Hf. reflexivity.
Qed.

End latest.

Section eum_store.
Import EumWithTracking.



Lemma get_location_latest (w : world) (s : state) (b : body)
    (id : ustring) (t : Z) (f : location_fix) :
  b_incidentId b = Some id -> id <> [] ->
  w_store w (st_stores s) = None ->
  st_locations s !! (id, t) = Some f ->
  (forall ts, is_Some (st_locations s !! (id, ts)) -> ts <= t) ->
  exists resp s',
    handle_get_location b w s = (Ok resp, s')
    /\ statusCode resp = 200
    /\ status_of resp = Some (JStr (u "success"))
    /\ dict_get "location" (resp_body resp) = Some (JDict (location_view f)).
Proof.
  intros Hb Hid Hst Hf Hmax. destruct s as [n1 n2 n3 n4 evs inc locs].
  unfold handle_get_location, query_locations. rewrite Hb.
  destruct id as [|c id]; [contradiction|]. cbn [str_truthy].
  run. cbn in Hst, Hf, Hmax. rewrite Hst.
  change (1 <? 1) with false. change (Z.to_nat 1) with 1%nat. cbv iota.
  rewrite (query_items_latest locs (c :: id) t f Hf Hmax).
  eexists _, _. split; [reflexivity|]. repeat split.
Qed.

Lemma truthy_num_idem (o : option Q) :
  truthy_num (truthy_num o) = truthy_num o.
Proof.
  destruct o as [q|]; [|reflexivity]. unfold truthy_num.
  destruct (num_truthy q) eqn:E; [rewrite E|]; reflexivity.
Qed.

(** X7.  Writing a fix and reading the latest one back.  When the store
    answers both calls and no fix of the incident carries a later
    timestamp, GET_LOCATION after UPDATE_LOCATION reports the position
    just sent: latitude, longitude and accuracy as given (0 when absent),
    the battery level as given, the timestamp of the write, and a speed or
    heading that was absent or 0 as null. *)
Theorem update_then_get_location (w : world) (s : state) (b b' : body)
    (id : ustring) :
  b_incidentId b = Some id -> id <> [] ->
  b_incidentId b' = Some id ->
  w_store w (st_stores s) = None ->
  w_store w (S (st_stores s)) = None ->
  (forall ts, is_Some (st_locations s !! (id, ts)) ->
              ts <= millis (w_clock w (st_ticks s))) ->
  exists r1 s1 r2 s2,
    handle_update_location b w s = (Ok r1, s1)
    /\ handle_get_location b' w s1 = (Ok r2, s2)
    /\ statusCode r2 = 200
    /\ status_of r2 = Some (JStr (u "success"))
    /\ dict_get "location" (resp_body r2)
       = Some (JDict (reported_fix b (w_clock w (st_ticks s))))
    /\ dict_get "timestamp" (resp_body r1)
       = Some (JInt (millis (w_clock w (st_ticks s)))).
Proof.
  intros Hb Hid Hb' H1 H2 Hmax. destruct s as [n1 n2 n3 n4 evs inc locs].
  cbn in H1, H2, Hmax.
  set (t := millis (w_clock w n3)) in *.
  set (f := written_fix id b (w_clock w n3) (w_clock w (S n3))).
  set (s1 := State n1 (S n2) (S (S n3)) n4 evs inc (<[(id, t) := f]> locs)).
  assert (E1 : exists r1,
             handle_update_location b w (State n1 n2 n3 n4 evs inc locs)
             = (Ok r1, s1)
             /\ dict_get "timestamp" (resp_body r1) = Some (JInt t)).
  { unfold handle_update_location. rewrite Hb.
    destruct id as [|c id]; [contradiction|]. cbn [str_truthy].
    run. rewrite H1. eexists. split; reflexivity. }
  destruct E1 as (r1 & E1 & Ht).
  destruct (get_location_latest w s1 b' id t f Hb' Hid H2) as
    (r2 & s2 & E2 & Hc & Hs & Hl).
  - apply lookup_insert_eq.
  - intros ts [g Hg]. cbn in Hg.
    destruct (decide (ts = t)) as [->|Hne]; [lia|].
    rewrite lookup_insert_ne in Hg by congruence.
    apply Hmax. eauto.
  - exists r1, s1, r2, s2. repeat split; try assumption.
    rewrite Hl. unfold location_view, reported_fix, f, written_fix.
    cbn [fx_latitude fx_longitude fx_accuracy fx_speed fx_heading
         fx_batteryLevel fx_timestamp default from_option Datatypes.id].
    rewrite !truthy_num_idem. reflexivity.
Qed.

Lemma update_then_get_location_witness :
  exists r1 s1 r2 s2,
    handle_update_location at_rest sample_world empty_state = (Ok r1, s1)
    /\ handle_get_location (for_incident (u "GET_LOCATION") (u "EMG-1"))
         sample_world s1 = (Ok r2, s2)
    /\ dict_get "location" (resp_body r2)
       = Some (JDict
                 [("latitude", JNum (257617 # 10000));
                  ("longitude", JNum (-801918 # 10000));
                  ("accuracy", JNum 0);
                  ("speed", JNull);
                  ("heading", JNull);
                  ("batteryLevel", JInt 0);
                  ("timestamp", JInt 1700000000000)]).
Proof.
  destruct (update_then_get_location sample_world empty_state at_rest
              (for_incident (u "GET_LOCATION") (u "EMG-1")) (u "EMG-1"))
    as (r1 & s1 & r2 & s2 & E1 & E2 & _ & _ & Hl & _);
    [reflexivity|discriminate|reflexivity|reflexivity|reflexivity| |].
  - intros ts [g Hg]. cbn in Hg. rewrite lookup_empty in Hg. discriminate.
  - exists r1, s1, r2, s2. split; [exact E1|]. split; [exact E2|].
    rewrite Hl. reflexivity.
Defined.

(** X8.  A store that raises on UPDATE_LOCATION: the tracking handler answers
    HTTP 500 with status [error] and the text of the exception; the
    hybrid-routing handler logs the exception and answers HTTP 200 with
    status [success].  In both, no fix has been written. *)
Theorem update_location_store_failure (w : world) (s : state) (b : body)
    (id : ustring) (e : exn) :
  b_incidentId b = Some id -> id <> [] ->
  w_store w (st_stores s) = Some e ->
  (exists resp s',
     handle_update_location b w s = (Ok resp, s')
     /\ statusCode resp = 500
     /\ status_of resp = Some (JStr (u "error"))
     /\ dict_get "message" (resp_body resp) = Some (JStr (exn_str e))
     /\ st_locations s' = st_locations s)
  /\ (exists resp s',
        ColombiaWorking.handle_update_location b w s = (Ok resp, s')
        /\ statusCode resp = 200
        /\ status_of resp = Some (JStr (u "success"))
        /\ st_events s' =
             st_events s
             ++ [ELog LError (u "Store location failed: " ++ exn_str e)]
        /\ st_locations s' = st_locations s).
Proof.
  intros Hb Hid Hst. destruct s as [n1 n2 n3 n4 evs inc locs].
  destruct id as [|c id]; [contradiction|]. split.
  - unfold handle_update_location. rewrite Hb. cbn [str_truthy].
    run. rewrite Hst. run.
    eexists _, _. split; [reflexivity|]. repeat split.
  - unfold ColombiaWorking.handle_update_location,
      ColombiaWorking.store_location_update.
    rewrite Hb. cbn [str_truthy]. run. rewrite Hst. run.
    eexists _, _. split; [reflexivity|]. repeat split.
Qed.

Lemma update_location_store_failure_witness :
  exists r1 s1 r2 s2,
    handle_update_location at_rest store_down empty_state = (Ok r1, s1)
    /\ statusCode r1 = 500
    /\ ColombiaWorking.handle_update_location at_rest store_down empty_state
       = (Ok r2, s2)
    /\ statusCode r2 = 200
    /\ status_of r2 = Some (JStr (u "success"))
    /\ st_locations s2 = ∅.
Proof.
  destruct (update_location_store_failure store_down empty_state at_rest
              (u "EMG-1") sample_exn)
    as [(r1 & s1 & E1 & H1 & _) (r2 & s2 & E2 & H2 & H3 & _ & H4)];
    [reflexivity|discriminate|reflexivity|].
  exists r1, s1, r2, s2. repeat split; assumption.
Defined.

(** X9.  GET_LOCATION for an incident without any stored fix, the store
    answering: the tracking handler answers HTTP 200 with status [success]
    and a null location; the hybrid-routing handler answers HTTP 404 with
    status [error]. *)
Theorem get_location_without_fix (w : world) (s : state) (b : body)
    (id : ustring) :
  b_incidentId b = Some id -> id <> [] ->
  w_store w (st_stores s) = None ->
  (forall ts, st_locations s !! (id, ts) = None) ->
  (exists resp s',
     handle_get_location b w s = (Ok resp, s')
     /\ statusCode resp = 200
     /\ status_of resp = Some (JStr (u "success"))
     /\ dict_get "location" (resp_body resp) = Some JNull)
  /\ (exists resp s',
        ColombiaWorking.handle_get_location b w s = (Ok resp, s')
        /\ statusCode resp = 404
        /\ status_of resp = Some (JStr (u "error"))
        /\ dict_get "location" (resp_body resp) = None).
Proof.
  intros Hb Hid Hst Hno. destruct s as [n1 n2 n3 n4 evs inc locs].
  destruct id as [|c id]; [contradiction|]. cbn in Hst, Hno. split.
  - unfold handle_get_location, query_locations. rewrite Hb.
    cbn [str_truthy]. run. rewrite Hst. change (1 <? 1) with false. cbv iota.
    rewrite (query_items_none locs (c :: id) false _ Hno).
    eexists _, _. split; [reflexivity|]. repeat split.
  - unfold ColombiaWorking.handle_get_location, query_locations. rewrite Hb.
    cbn [str_truthy]. run. rewrite Hst. change (1 <? 1) with false. cbv iota.
    rewrite (query_items_none locs (c :: id) false _ Hno).
    eexists _, _. split; [reflexivity|]. repeat split.
Qed.

Lemma get_location_without_fix_witness :
  exists r1 s1 r2 s2,
    handle_get_location (for_incident (u "GET_LOCATION") (u "EMG-1"))
      sample_world empty_state = (Ok r1, s1)
    /\ statusCode r1 = 200
    /\ ColombiaWorking.handle_get_location
         (for_incident (u "GET_LOCATION") (u "EMG-1")) sample_world
         empty_state = (Ok r2, s2)
    /\ statusCode r2 = 404.
Proof.
  destruct (get_location_without_fix sample_world empty_state
              (for_incident (u "GET_LOCATION") (u "EMG-1")) (u "EMG-1"))
    as [(r1 & s1 & E1 & H1 & _) (r2 & s2 & E2 & H2 & _)];
    [reflexivity|discriminate|reflexivity| |].
  - intros ts. apply lookup_empty.
  - exists r1, s1, r2, s2. repeat split; assumption.
Defined.

End eum_store.
(* ================================================================== *)
(** * The hybrid-routing variant: country, language and route *)
(* ================================================================== *)

Lemma rstrip_startswith (pre : ustring) :
  forallb (fun c => negb (isspace c)) pre = true ->
  forall s, startswith (rstrip s) pre = startswith s pre.
Proof.
  induction pre as [|a pre IH]; intros Hpre s; [reflexivity|].
  cbn [forallb] in Hpre. apply andb_true_iff in Hpre as [Ha Hpre].
  destruct s as [|c s]; [reflexivity|].
  cbn [rstrip]. specialize (IH Hpre s).
  destruct (rstrip s) as [|d r] eqn:E.
  - destruct (isspace c) eqn:Hc.
    + cbn [startswith]. destruct (N.eqb_spec a c) as [->|]; [|reflexivity].
      rewrite Hc in Ha. discriminate.
    + cbn [startswith]. rewrite IH. reflexivity.
  - cbn [startswith]. rewrite IH. reflexivity.
Qed.

Lemma rstrip_forallb (P : N -> bool) (s : ustring) :
  forallb P s = true -> forallb P (rstrip s) = true.
Proof.
  induction s as [|c s IH]; [reflexivity|].
  cbn [forallb rstrip]. intros H. apply andb_true_iff in H as [Hc Hs].
  specialize (IH Hs). destruct (rstrip s) as [|d r].
  - destruct (isspace c); [reflexivity|]. cbn [forallb]. rewrite Hc.
    reflexivity.
  - cbn [forallb] in *. rewrite Hc. exact IH.
Qed.

Lemma normalize_starts_plus (s : ustring) :
  startswith (ColombiaWorking.normalize_phone_number s) (u "+") = true.
Proof.
  rewrite normalize_unfold.
  destruct (startswith (cleaned s) (u "+")) eqn:E; [exact E|reflexivity].
Qed.

Lemma normalize_no_separator (s : ustring) :
  forallb (fun c => negb (is_separator c))
    (ColombiaWorking.normalize_phone_number s) = true.
Proof.
  rewrite normalize_unfold.
  destruct (startswith (cleaned s) (u "+")); [apply cleaned_no_separator|].
  change (u "+" ++ cleaned s) with (ch_plus :: cleaned s). cbn [forallb].
  rewrite cleaned_no_separator. reflexivity.
Qed.

(** Normalizing twice can only drop trailing white space, so the prefixes
    of a normalized number are stable. *)
Lemma normalize_prefix_stable (s pre : ustring) :
  forallb (fun c => negb (isspace c)) pre = true ->
  startswith
    (ColombiaWorking.normalize_phone_number
       (ColombiaWorking.normalize_phone_number s)) pre
  = startswith (ColombiaWorking.normalize_phone_number s) pre.
Proof.
  intros Hpre.
  pose proof (normalize_starts_plus s) as Hp.
  pose proof (normalize_no_separator s) as Hs.
  set (o := ColombiaWorking.normalize_phone_number s) in *.
  assert (Hc : cleaned o = rstrip o).
  { unfold cleaned, strip.
    assert (Hl : lstrip o = o).
    { apply startswith_app in Hp as [rest ->]. reflexivity. }
    rewrite Hl.
    assert (H : forall c, is_separator c = true ->
              forallb (fun x => negb (x =? c)%N) (rstrip o) = true).
    { intros c Hc. apply rstrip_forallb.
      rewrite forallb_forall in *. intros x Hx. specialize (Hs x Hx).
      destruct (N.eqb_spec x c) as [->|]; [|reflexivity].
      rewrite Hc in Hs. discriminate. }
    rewrite (remove_char_id ch_space) by (apply H; reflexivity).
    rewrite (remove_char_id ch_dash) by (apply H; reflexivity).
    rewrite (remove_char_id ch_lparen) by (apply H; reflexivity).
    rewrite (remove_char_id ch_rparen) by (apply H; reflexivity).
    reflexivity. }
  rewrite (normalize_unfold o), Hc.
  rewrite (rstrip_startswith (u "+") eq_refl o), Hp.
  apply rstrip_startswith, Hpre.
Qed.

Section colombia.
Import ColombiaWorking.

Lemma detect_country_cases (phone : ustring) :
  let q := normalize_phone_number phone in
  detect_country phone
  = Some (if startswith q (u "+57") then
            (u "+57", Country (u "Colombia") (u "123") (u "es") false true)
          else if startswith q (u "+56") then
            (u "+56", Country (u "Chile") (u "133") (u "es") false true)
          else if startswith q (u "+58") then
            (u "+58", Country (u "Venezuela") (u "911") (u "es") false true)
          else if startswith q (u "+52") then
            (u "+52", Country (u "Mexico") (u "911") (u "es") false true)
          else (u "+1", USA)).
Proof.
  intros q. unfold detect_country, detect_country_in.
  fold (normalize_phone_number phone). fold q.
  change (sorted_by_len_desc (List.map fst COUNTRY_CONFIG))
    with [u "+57"; u "+56"; u "+58"; u "+52"; u "+1"].
  cbn [List.find].
  destruct (startswith q (u "+57")); [reflexivity|].
  destruct (startswith q (u "+56")); [reflexivity|].
  destruct (startswith q (u "+58")); [reflexivity|].
  destruct (startswith q (u "+52")); [reflexivity|].
  destruct (startswith q (u "+1")); reflexivity.
Qed.

(** The country of a normalized number decides route and language. *)
Lemma detect_country_route (p : ustring) :
  let ph := normalize_phone_number p in
  exists code cfg,
    detect_country ph = Some (code, cfg)
    /\ c_use_eum cfg = negb (via_sns ph)
    /\ c_language cfg = (if via_sns ph then u "es" else u "en").
Proof.
  intros ph. rewrite detect_country_cases. cbv zeta. subst ph.
  rewrite !normalize_prefix_stable by reflexivity.
  unfold via_sns, sns_prefixes. cbn [existsb].
  destruct (startswith _ (u "+57")); [eexists _, _; repeat split|].
  destruct (startswith _ (u "+56")); [eexists _, _; repeat split|].
  destruct (startswith _ (u "+58")); [eexists _, _; repeat split|].
  destruct (startswith _ (u "+52")); eexists _, _; repeat split.
Qed.

Lemma store_incident_quiet (w : world) (s : state)
    (id name phone dtype cc : ustring) (loc : location) :
  exists s',
    store_incident id name phone dtype loc cc w s = (Ok tt, s')
    /\ provider_calls s' = provider_calls s.
Proof.
  destruct s as [n1 n2 n3 n4 evs inc locs].
  unfold store_incident, provider_calls. run.
  destruct (w_store w n2); run;
    [|destruct (json_has_float _); run];
    eexists; (split; [reflexivity|]); cbn;
    rewrite ?List.filter_app; cbn; rewrite ?app_nil_r; reflexivity.
Qed.

Lemma send_sms_hybrid_route (w : world) (s : state)
    (phone message : ustring) (cfg : country) :
  exists r s' st,
    send_sms_hybrid phone message cfg w s = (Ok r, s')
    /\ dict_get "status" r = Some (JStr st)
    /\ dict_get "method" r
       = Some (JStr (if c_use_eum cfg then u "EUM" else u "SNS"))
    /\ provider_calls s' =
         provider_calls s
         ++ [if c_use_eum cfg then
               ESendTextMessage phone ORIGINATOR_NUMBER_US message
                 MESSAGE_TYPE CONFIGURATION_SET
             else
               ESnsPublish phone message
                 [("AWS.SNS.SMS.SMSType", u "Transactional")]].
Proof.
  destruct s as [n1 n2 n3 n4 evs inc locs].
  unfold send_sms_hybrid, send_via_eum, send_via_sns, provider_calls.
  run.
  destruct (c_use_eum cfg); destruct (w_send w n1); run;
    eexists _, _, _; (split; [reflexivity|]); cbn;
    (split; [reflexivity|]); (split; [reflexivity|]);
    rewrite !List.filter_app; cbn; rewrite ?app_nil_r; reflexivity.
Qed.

Lemma alert_runs (w : world) (s : state) (b : body) (p code : ustring)
    (cfg : country) :
  b_phoneNumber b = Some p -> p <> [] ->
  detect_country (normalize_phone_number p) = Some (code, cfg) ->
  exists resp s' text rest,
    handle_jury_emergency_alert b w s = (Ok resp, s')
    /\ statusCode resp = 200
    /\ dict_get "emergencyPhone" (resp_body resp)
       = Some (JStr (normalize_phone_number p))
    /\ dict_get "language" (resp_body resp) = Some (JStr (c_language cfg))
    /\ dict_get "smsMethod" (resp_body resp)
       = Some (JStr (if c_use_eum cfg then u "EUM" else u "SNS"))
    /\ provider_calls s' =
         provider_calls s
         ++ [if c_use_eum cfg then
               ESendTextMessage (normalize_phone_number p)
                 ORIGINATOR_NUMBER_US text MESSAGE_TYPE CONFIGURATION_SET
             else
               ESnsPublish (normalize_phone_number p) text
                 [("AWS.SNS.SMS.SMSType", u "Transactional")]]
    /\ text =
         [63743; 252; 246; 174]%N ++ u " "
           ++ get_translation "emergency_alert" (c_language cfg) ++ u ": "
           ++ default (u "Unknown Person") (b_victimName b) ++ u " "
           ++ get_translation "is_in_danger" (c_language cfg) ++ rest.
Proof.
  intros Hb Hp Hd.
  unfold handle_jury_emergency_alert. rewrite Hb.
  destruct p as [|c p]; [contradiction|]. cbn [str_truthy].
  unfold try_except at 1. unfold bind at 1. rewrite Hd.
  cbn [lookup_or_key_error ret].
  unfold bind at 1. unfold uuid4_hex at 1. cbn [fst snd].
  unfold bind at 1.
  set (s1 := State _ _ _ _ _ _ _).
  match goal with
  | |- context [store_incident ?a1 ?a2 ?a3 ?a4 ?a5 ?a6 w s1] =>
      destruct (store_incident_quiet w s1 a1 a2 a3 a4 a6 a5)
        as (s1' & -> & Hc1)
  end.
  unfold bind at 1.
  set (upd := if _ : bool then _ else _).
  assert (Hupd : exists s2, upd w s1' = (Ok tt, s2)
                 /\ provider_calls s2 = provider_calls s1').
  { subst upd. destruct (_ && _).
    - match goal with
      | |- context [store_location_update ?a1 ?a2 ?a3 ?a4 w s1'] =>
          destruct (colombia_store_location_quiet w s1' a1 a2 a3 a4)
            as (s2 & E & _ & _ & Hc & _)
      end.
      exists s2. split; assumption.
    - exists s1'. split; reflexivity. }
  destruct Hupd as (s2 & -> & Hc2).
  unfold bind at 1.
  assert (Hcoord : forall o st0, exists t,
            coordinate_str o w st0 = (Ok t, st0)).
  { intros [q|] st0; eexists; reflexivity. }
  destruct (Hcoord (loc_latitude (default no_location (b_location b))) s2)
    as [lat ->].
  unfold bind at 1.
  destruct (Hcoord (loc_longitude (default no_location (b_location b))) s2)
    as [lon ->].
  unfold bind at 1. unfold now at 1.
  set (s3 := State _ _ _ _ _ _ _).
  unfold bind at 1.
  match goal with
  | |- context [send_sms_hybrid ?ph ?m ?c0 w s3] =>
      destruct (send_sms_hybrid_route w s3 ph m c0)
        as (r & s4 & st & -> & Hr & Hm & Hc4)
  end.
  unfold bind, index, now, ret. rewrite Hr.
  eexists _, _, _,
    (if str_eqb (default (u "emergency") (b_detectionType b))
          (u "emergency_words")
     then _
     else if str_eqb (default (u "emergency") (b_detectionType b))
               (u "abrupt_noise")
          then _ else _).
  split; [reflexivity|]. cbn [statusCode resp_body
    cors_response dict_get String.eqb Ascii.eqb Bool.eqb fst snd].
  split; [reflexivity|]. split; [reflexivity|]. split; [reflexivity|].
  split; [unfold get; rewrite Hm; reflexivity|].
  split.
  - unfold provider_calls in *. cbn [st_events]. rewrite Hc4.
    subst s3. cbn [st_events]. rewrite Hc2, Hc1. subst s1.
    cbn [st_events]. reflexivity.
  - destruct (str_eqb _ (u "emergency_words"));
      [|destruct (str_eqb _ (u "abrupt_noise"))];
      rewrite <- ?app_assoc; reflexivity.
Qed.

(** X10.  Country, route and language of an alert.  The phone number of the
    request is normalized; when the normalized number starts with +57, +56,
    +58 or +52 the text is composed in Spanish and handed to SNS as a
    transactional message, otherwise (a +1 number or a number of any other
    country) it is composed in English and handed to End User Messaging
    with the US originator.  The answer is HTTP 200 and names the
    normalized number, the language and the route. *)
Theorem colombia_alert_route_and_language (w : world) (s : state)
    (b : body) (p : ustring) :
  b_phoneNumber b = Some p -> p <> [] ->
  let ph := normalize_phone_number p in
  let lang := if via_sns ph then u "es" else u "en" in
  exists resp s' text rest,
    handle_jury_emergency_alert b w s = (Ok resp, s')
    /\ statusCode resp = 200
    /\ dict_get "emergencyPhone" (resp_body resp) = Some (JStr ph)
    /\ dict_get "language" (resp_body resp) = Some (JStr lang)
    /\ dict_get "smsMethod" (resp_body resp)
       = Some (JStr (if via_sns ph then u "SNS" else u "EUM"))
    /\ provider_calls s' =
         provider_calls s
         ++ [if via_sns ph then
               ESnsPublish ph text
                 [("AWS.SNS.SMS.SMSType", u "Transactional")]
             else
               ESendTextMessage ph ORIGINATOR_NUMBER_US text MESSAGE_TYPE
                 CONFIGURATION_SET]
    /\ text =
         [63743; 252; 246; 174]%N ++ u " "
           ++ get_translation "emergency_alert" lang ++ u ": "
           ++ default (u "Unknown Person") (b_victimName b) ++ u " "
           ++ get_translation "is_in_danger" lang ++ rest.
Proof.
  intros Hb Hp ph lang.
  destruct (detect_country_route p) as (code & cfg & Hd & Hu & Hl).
  destruct (alert_runs w s b p code cfg Hb Hp Hd)
    as (resp & s' & text & rest & E & H1 & H2 & H3 & H4 & H5 & H6).
  fold ph in Hu, Hl, H2, H5. rewrite Hu in H4, H5. rewrite Hl in H3, H6.
  exists resp, s', text, rest. subst lang.
  destruct (via_sns ph); cbn [negb] in *; repeat split; assumption.
Qed.

Lemma colombia_alert_route_and_language_witness :
  exists resp s' text rest,
    handle_jury_emergency_alert alert_to_bogota sample_world empty_state
    = (Ok resp, s')
    /\ dict_get "emergencyPhone" (resp_body resp)
       = Some (JStr (u "+573001234567"))
    /\ dict_get "language" (resp_body resp) = Some (JStr (u "es"))
    /\ provider_calls s' =
         [ESnsPublish (u "+573001234567") text
            [("AWS.SNS.SMS.SMSType", u "Transactional")]]
    /\ text =
         [63743; 252; 246; 174]%N ++ u " ALERTA DE EMERGENCIA: Ana est"
           ++ [8730; 176]%N ++ u " en PELIGRO!" ++ rest.
Proof.
  destruct (colombia_alert_route_and_language sample_world empty_state
              alert_to_bogota (u "+57 (300) 123-4567") eq_refl)
    as (resp & s' & text & rest & E & _ & H2 & H3 & _ & H5 & H6);
    [discriminate|].
  exists resp, s', text, rest. split; [exact E|].
  split; [exact H2|]. split; [exact H3|]. split; [exact H5|exact H6].
Defined.

(** X11.  An alert without a phone number, or with an empty one, is refused
    with HTTP 400 before anything happens: no incident id is drawn, nothing
    is stored, logged or sent. *)
Theorem colombia_alert_requires_phone (w : world) (s : state) (b : body) :
  b_phoneNumber b = None \/ b_phoneNumber b = Some [] ->
  exists resp,
    handle_jury_emergency_alert b w s = (Ok resp, s)
    /\ statusCode resp = 400
    /\ status_of resp = Some (JStr (u "error"))
    /\ dict_get "message" (resp_body resp)
       = Some (JStr (u "phoneNumber required")).
Proof.
  intros [H|H]; unfold handle_jury_emergency_alert, try_except; rewrite H;
    eexists; (split; [reflexivity|repeat split]).
Qed.

Lemma colombia_alert_requires_phone_witness :
  exists resp,
    handle_jury_emergency_alert empty_body provider_down empty_state
    = (Ok resp, empty_state)
    /\ statusCode resp = 400.
Proof.
  destruct (colombia_alert_requires_phone provider_down empty_state
              empty_body (or_introl eq_refl)) as (resp & E & H & _).
  exists resp. split; assumption.
Defined.

Lemma find_key_none (key : string) (table : list (string * ustring)) :
  ~ In key (List.map fst table) ->
  List.find (fun kv => String.eqb key (fst kv)) table = None.
Proof.
  induction table as [|[k v] table IH]; [reflexivity|].
  cbn [List.map In List.find fst]. intros H.
  destruct (String.eqb_spec key k) as [->|_]; [tauto|]. apply IH. tauto.
Qed.

(** X12.  Fallbacks of the translation lookup: a language other than [en] and
    [es] reads the English table, and a key that the tables do not have
    is returned as it is, whatever the language. *)
Theorem get_translation_fallbacks (key : string) (language : ustring) :
  (language <> u "en" -> language <> u "es" ->
   get_translation key language = get_translation key (u "en"))
  /\ (~ In key translation_keys -> get_translation key language = u key).
Proof.
  split.
  - intros H1 H2. unfold get_translation, TRANSLATIONS.
    cbn [assoc_get]. rewrite (str_eqb_neq _ _ H1), (str_eqb_neq _ _ H2).
    reflexivity.
  - intros H. unfold get_translation.
    assert (Ht : forall table,
              List.map fst table = translation_keys ->
              match List.find (fun kv => String.eqb key (fst kv)) table with
              | Some kv => snd kv
              | None => u key
              end = u key).
    { intros table E. rewrite find_key_none; [reflexivity|].
      rewrite E. exact H. }
    unfold TRANSLATIONS. cbn [assoc_get].
    destruct (str_eqb language (u "en")); [apply Ht; reflexivity|].
    destruct (str_eqb language (u "es")); apply Ht; reflexivity.
Qed.

Lemma get_translation_fallbacks_witness :
  get_translation "incident" (u "fr") = u "Incident"
  /\ get_translation "greeting" (u "es") = u "greeting".
Proof.
  destruct (get_translation_fallbacks "incident" (u "fr")) as [H1 _].
  destruct (get_translation_fallbacks "greeting" (u "es")) as [_ H2].
  split.
  - rewrite H1; [reflexivity|discriminate|discriminate].
  - apply H2. cbn. intuition discriminate.
Defined.

End colombia.
(* ================================================================== *)
(** * The universal sender and its dispatcher *)
(* ================================================================== *)

Lemma is_decimal_ge (c : N) : is_decimal c = true -> (48 <= c)%N.
Proof.
  unfold is_decimal. rewrite existsb_exists. intros (lo & Hin & H).
  apply andb_true_iff in H as [H _]. apply N.leb_le in H.
  assert (Hlo : forallb (fun lo => (48 <=? lo)%N) Nd_runs = true)
    by (vm_compute; reflexivity).
  rewrite forallb_forall in Hlo. specialize (Hlo lo Hin).
  apply N.leb_le in Hlo. lia.
Qed.

Lemma validate_accepts (phone v : ustring) :
  UniversalSms.validate_phone_number phone = (Some v, None) ->
  re_match UniversalSms.E164_PATTERN v = true.
Proof.
  unfold UniversalSms.validate_phone_number.
  destruct (negb (str_truthy phone)); [discriminate|].
  destruct (negb (re_match _ _)) eqn:E; [discriminate|].
  intros [= <-]. apply negb_false_iff in E. exact E.
Qed.

(** X13.  What the validator lets through, and that it is idempotent: an
    accepted number is a plus sign, five to seventeen decimal digits and
    possibly a final newline, hence free of spaces and dashes, and the
    validator accepts it again unchanged. *)
Theorem validate_phone_number_accepted (phone v : ustring) :
  UniversalSms.validate_phone_number phone = (Some v, None) ->
  (exists ds tail,
     v = ch_plus :: ds ++ tail
     /\ forallb is_decimal ds = true
     /\ (5 <= length ds <= 17)%nat
     /\ (tail = [] \/ tail = [ch_newline]))
  /\ UniversalSms.validate_phone_number v = (Some v, None).
Proof.
  intros H. apply validate_accepts in H.
  pose proof H as Hm. apply E164_PATTERN_accepts in H.
  split; [exact H|].
  destruct H as (ds & tail & -> & Hd & Hl & Ht).
  assert (Hno : forall c, (c < 48)%N -> c <> ch_plus -> c <> ch_newline ->
            forallb (fun x => negb (x =? c)%N) (ch_plus :: ds ++ tail) = true).
  { intros c Hc Hp Hn. cbn [forallb]. rewrite forallb_app.
    apply andb_true_iff. split; [apply negb_true_iff, N.eqb_neq; congruence|].
    apply andb_true_iff. split.
    - rewrite forallb_forall in *. intros x Hx.
      apply negb_true_iff, N.eqb_neq. pose proof (is_decimal_ge x (Hd x Hx)).
      lia.
    - destruct Ht as [-> | ->]; [reflexivity|]. cbn [forallb].
      rewrite andb_true_r. apply negb_true_iff, N.eqb_neq. congruence. }
  unfold UniversalSms.validate_phone_number.
  cbn [str_truthy negb].
  rewrite (remove_char_id ch_space) by (apply Hno; [reflexivity| |]; discriminate).
  rewrite (remove_char_id ch_dash) by (apply Hno; [reflexivity| |]; discriminate).
  change (startswith (ch_plus :: ds ++ tail) (u "+")) with true. cbv iota.
  rewrite Hm. reflexivity.
Qed.

Lemma validate_phone_number_accepted_witness :
  UniversalSms.validate_phone_number (u "57 300-123-4567")
  = (Some (u "+573001234567"), None)
  /\ UniversalSms.validate_phone_number (u "+573001234567")
     = (Some (u "+573001234567"), None).
Proof.
  split; [reflexivity|].
  apply (validate_phone_number_accepted (u "57 300-123-4567")). reflexivity.
Defined.

Section universal.
Import UniversalSms.
Context (cfg : config).

(** The outcomes of one call of the sender. *)
Lemma send_sms_outcome (w : world) (s : state) (phone message : ustring)
    (event_id : option ustring) :
  exists r s' st,
    send_sms_with_eum cfg phone message event_id w s = (Ok r, s')
    /\ dict_get "status" r = Some (JStr st)
    /\ ((st = u "failed"
         /\ provider_calls s' = provider_calls s
         /\ exists err, validate_phone_number phone = (None, Some err)
                        /\ dict_get "error" r = Some (JStr err))
        \/ (st = u "sent"
            /\ provider_calls s' = provider_calls s
            /\ DEMO_MODE cfg = true
            /\ exists v, validate_phone_number phone = (Some v, None))
        \/ (exists v text attrs,
              validate_phone_number phone = (Some v, None)
              /\ DEMO_MODE cfg = false
              /\ provider_calls s' =
                   provider_calls s ++ [ESnsPublish v text attrs]
              /\ (is_latam v = true ->
                  text = message
                  /\ attrs = [("AWS.SNS.SMS.SMSType", u "Transactional")])
              /\ match w_send w (st_sends s) with
                 | Some e =>
                     st = u "failed"
                     /\ dict_get "error" r
                        = Some (JStr (u "SNS Error: " ++ exn_str e))
                     /\ dict_get "errorType" r = Some (JStr (exn_type e))
                 | None =>
                     match dict_get "MessageId" (w_reply w (st_sends s)) with
                     | Some mid =>
                         st = u "sent"
                         /\ dict_get "messageId" r = Some mid
                         /\ dict_get "realSms" r = Some (JBool true)
                     | None =>
                         st = u "failed"
                         /\ dict_get "error" r
                            = Some (JStr (u "SNS Error: 'MessageId'"))
                         /\ dict_get "errorType" r
                            = Some (JStr (u "KeyError"))
                     end
                 end)).
Proof.
  destruct s as [n1 n2 n3 n4 evs inc locs].
  unfold send_sms_with_eum, provider_calls.
  destruct (validate_cases phone) as [[err Hv]|[v Hv]]; rewrite Hv.
  - run. eexists _, _, _. split; [reflexivity|]. split; [reflexivity|].
    left. split; [reflexivity|]. cbn. split; [|eauto].
    rewrite List.filter_app. cbn. apply app_nil_r.
  - destruct (DEMO_MODE cfg) eqn:Hd.
    + run. eexists _, _, _. split; [reflexivity|]. split; [reflexivity|].
      right; left. cbn. eauto.
    + run. fold (is_latam v).
      assert (Hlat : forall text attrs,
                text = (if match event_id with
                           | Some ev => str_truthy ev
                           | None => false
                           end && str_truthy (TRACKING_URL_BASE cfg)
                           && negb (is_latam v)
                        then message ++ nl ++ nl ++ u "Track: "
                               ++ TRACKING_URL_BASE cfg ++ u "?incident="
                               ++ default [] event_id
                        else message) ->
                attrs = [("AWS.SNS.SMS.SMSType", u "Transactional")]
                          ++ (if str_truthy (SMS_ORIGINATOR cfg)
                                 && negb (is_latam v)
                              then [("AWS.SNS.SMS.SenderID",
                                     SMS_ORIGINATOR cfg)]
                              else []) ->
                is_latam v = true ->
                text = message
                /\ attrs = [("AWS.SNS.SMS.SMSType", u "Transactional")]).
      { intros text attrs -> -> ->. cbn [negb]. rewrite !andb_false_r.
        split; reflexivity. }
      destruct (w_send w n1) as [e|] eqn:E; run.
      * eexists _, _, _. split; [reflexivity|]. split; [reflexivity|].
        right; right. eexists _, _, _. split; [reflexivity|].
        split; [reflexivity|]. cbn [st_events st_sends]. rewrite ?E.
        split; [rewrite !List.filter_app; cbn; rewrite !app_nil_r;
                reflexivity|].
        split; [apply Hlat; reflexivity|]. repeat split.
      * destruct (dict_get "MessageId" (w_reply w n1)) as [mid|] eqn:Em;
          run.
        -- eexists _, _, _. split; [reflexivity|]. split; [reflexivity|].
           right; right. eexists _, _, _. split; [reflexivity|].
           split; [reflexivity|]. cbn [st_events st_sends]. rewrite ?E, ?Em.
           split; [rewrite !List.filter_app; reflexivity|].
           split; [apply Hlat; reflexivity|]. repeat split.
        -- eexists _, _, _. split; [reflexivity|]. split; [reflexivity|].
           right; right. eexists _, _, _. split; [reflexivity|].
           split; [reflexivity|]. cbn [st_events st_sends]. rewrite ?E, ?Em.
           split; [rewrite !List.filter_app; cbn; rewrite !app_nil_r;
                   reflexivity|].
           split; [apply Hlat; reflexivity|]. repeat split.
Qed.

Lemma sent_not_failed : u "sent" <> u "failed".
Proof. intros H. vm_compute in H. discriminate. Qed.

(** X14.  The sender never raises, asks the provider at most once and does not
    make up a success: the status of its result is [sent] or [failed], and
    outside demo mode it is [sent] only when the provider returned without
    raising and its reply carried a message id, which the result
    repeats. *)
Theorem send_sms_with_eum_honest (w : world) (s : state)
    (phone message : ustring) (event_id : option ustring) :
  exists r s' st,
    send_sms_with_eum cfg phone message event_id w s = (Ok r, s')
    /\ dict_get "status" r = Some (JStr st)
    /\ (st = u "sent" \/ st = u "failed")
    /\ (length (provider_calls s') <= S (length (provider_calls s)))%nat
    /\ (DEMO_MODE cfg = false -> st = u "sent" ->
        w_send w (st_sends s) = None
        /\ exists mid,
             dict_get "MessageId" (w_reply w (st_sends s)) = Some mid
             /\ dict_get "messageId" r = Some mid
             /\ dict_get "realSms" r = Some (JBool true)).
Proof.
  destruct (send_sms_outcome w s phone message event_id)
    as (r & s' & st & E & Hst & H).
  exists r, s', st. split; [exact E|]. split; [exact Hst|].
  destruct H as [(-> & Hc & _)|[(-> & Hc & Hd & _)|H]].
  - split; [tauto|]. split; [rewrite Hc; lia|].
    intros _ H. symmetry in H. destruct (sent_not_failed H).
  - split; [tauto|]. split; [rewrite Hc; lia|].
    intros H. congruence.
  - destruct H as (v & text & attrs & _ & _ & Hc & _ & H).
    rewrite Hc, length_app. cbn [length].
    destruct (w_send w (st_sends s)) as [e|].
    + destruct H as (-> & _). split; [tauto|]. split; [lia|].
      intros _ H. symmetry in H. destruct (sent_not_failed H).
    + destruct (dict_get "MessageId" (w_reply w (st_sends s))) as [mid|].
      * destruct H as (-> & Hm & Hr). split; [tauto|]. split; [lia|].
        intros _ _. split; [reflexivity|]. exists mid. auto.
      * destruct H as (-> & _). split; [tauto|]. split; [lia|].
        intros _ H. symmetry in H. destruct (sent_not_failed H).
Qed.

(** X15.  A provider reply without [MessageId].  The universal sender indexes
    the reply, so the missing key becomes a failure: status [failed],
    error type [KeyError], although the message has been handed to the
    provider.  The sender of the tracking variant reads the key with
    [get] and reports [sent] with a null message id. *)
Theorem reply_without_message_id (w : world) (s : state)
    (phone v message : ustring) (event_id : option ustring) :
  DEMO_MODE cfg = false ->
  validate_phone_number phone = (Some v, None) ->
  w_send w (st_sends s) = None ->
  dict_get "MessageId" (w_reply w (st_sends s)) = None ->
  (exists r s' text attrs,
     send_sms_with_eum cfg phone message event_id w s = (Ok r, s')
     /\ dict_get "status" r = Some (JStr (u "failed"))
     /\ dict_get "error" r = Some (JStr (u "SNS Error: 'MessageId'"))
     /\ dict_get "errorType" r = Some (JStr (u "KeyError"))
     /\ provider_calls s' = provider_calls s ++ [ESnsPublish v text attrs])
  /\ (exists r s',
        EumWithTracking.send_eum_sms phone message w s = (Ok r, s')
        /\ dict_get "status" r = Some (JStr (u "sent"))
        /\ dict_get "messageId" r = Some JNull
        /\ provider_calls s' =
             provider_calls s
             ++ [ESendTextMessage phone EumWithTracking.ORIGINATOR_NUMBER
                   message EumWithTracking.MESSAGE_TYPE
                   EumWithTracking.CONFIGURATION_SET]).
Proof.
  intros Hd Hv Hs Hm. split.
  - destruct (send_sms_outcome w s phone message event_id)
      as (r & s' & st & E & Hst & H).
    destruct H as [(_ & _ & err & He & _)|[(_ & _ & Hd' & _)|H]];
      [congruence|congruence|].
    destruct H as (v' & text & attrs & Hv' & _ & Hc & _ & H).
    rewrite Hs, Hm in H. destruct H as (-> & He & Ht).
    assert (v' = v) as -> by congruence.
    exists r, s', text, attrs. repeat split; assumption.
  - destruct (eum_send_eum_sms_success w s phone message Hs)
      as (r & s' & E & Hst & Hid & _ & Hev).
    exists r, s'. split; [exact E|]. split; [exact Hst|].
    split; [rewrite Hid; unfold get; rewrite Hm; reflexivity|].
    unfold provider_calls. rewrite Hev, List.filter_app. reflexivity.
Qed.

End universal.

Lemma reply_without_message_id_witness :
  exists r s' r2 s2,
    UniversalSms.send_sms_with_eum default_config (u "+13053033060")
      (u "test") None no_message_id empty_state = (Ok r, s')
    /\ dict_get "status" r = Some (JStr (u "failed"))
    /\ length (provider_calls s') = 1%nat
    /\ EumWithTracking.send_eum_sms (u "+13053033060") (u "test")
         no_message_id empty_state = (Ok r2, s2)
    /\ dict_get "status" r2 = Some (JStr (u "sent")).
Proof.
  destruct (reply_without_message_id default_config no_message_id
              empty_state (u "+13053033060") (u "+13053033060") (u "test")
              None eq_refl eq_refl eq_refl eq_refl)
    as [(r & s' & text & attrs & E & H1 & _ & _ & Hc)
        (r2 & s2 & E2 & H2 & _)].
  exists r, s', r2, s2. split; [exact E|]. split; [exact H1|].
  split; [rewrite Hc; reflexivity|]. split; assumption.
Defined.

Lemma send_sms_with_eum_honest_witness :
  exists r s',
    UniversalSms.send_sms_with_eum default_config (u "+1 305-303-3060")
      (u "test") None sample_world empty_state = (Ok r, s')
    /\ dict_get "status" r = Some (JStr (u "sent"))
    /\ dict_get "messageId" r = Some (JStr (u "msg-0001")).
Proof.
  destruct (send_sms_with_eum_honest default_config sample_world empty_state
              (u "+1 305-303-3060") (u "test") None)
    as (r & s' & st & E & Hst & _ & _ & H).
  assert (Hs : st = u "sent").
  { revert Hst. apply (f_equal fst) in E. vm_compute in E.
    injection E as <-. vm_compute. intros [= <-]. reflexivity. }
  subst st. destruct (H eq_refl eq_refl) as (_ & mid & Hm & Hid & _).
  exists r, s'. split; [exact E|]. split; [exact Hst|].
  rewrite Hid, <- Hm. reflexivity.
Defined.
(* ================================================================== *)
(** * The universal dispatcher and its alert handler *)
(* ================================================================== *)

Lemma dict_get_set_eq (k : string) (v : json) (d : dict) :
  dict_get k (dict_set k v d) = Some v.
Proof.
  induction d as [|[k' v'] d IH]; cbn [dict_set dict_get].
  - rewrite String.eqb_refl. reflexivity.
  - destruct (String.eqb k k') eqn:E; cbn [dict_get].
    + rewrite String.eqb_refl. reflexivity.
    + rewrite E. exact IH.
Qed.

Lemma dict_get_set_ne (k k' : string) (v : json) (d : dict) :
  k <> k' -> dict_get k' (dict_set k v d) = dict_get k' d.
Proof.
  intros Hne.
  assert (Hne' : String.eqb k' k = false)
    by (apply String.eqb_neq; congruence).
  induction d as [|[k0 v0] d IH]; cbn [dict_set dict_get].
  - rewrite Hne'. reflexivity.
  - destruct (String.eqb k k0) eqn:E; cbn [dict_get].
    + apply String.eqb_eq in E. subst k0. rewrite Hne'. reflexivity.
    + rewrite IH. reflexivity.
Qed.

Section dispatcher.
Import UniversalSms.
Context (cfg : config).

Lemma dispatch_contact_outcome (w : world) (s : state)
    (text event_id : ustring) (c : contact) :
  exists r s' new,
    dispatch_contact cfg text event_id c w s = (Ok r, s')
    /\ entry_of c r
    /\ provider_calls s' = provider_calls s ++ new
    /\ (length new <= (if has_phone c then 1 else 0))%nat
    /\ Forall (plain_for_latam text) new
    /\ (DEMO_MODE cfg = true -> new = []).
Proof.
  unfold dispatch_contact, entry_of, has_phone. cbv zeta.
  destruct (ct_phone c) as [[|d p]|] eqn:Hp; cbn [str_truthy].
  1, 3: destruct s as [n1 n2 n3 n4 evs inc locs]; run;
    eexists _, _, []; (split; [reflexivity|]);
    (split; [repeat split; auto|]);
    (split; [unfold provider_calls; cbn; rewrite List.filter_app; cbn;
             rewrite !app_nil_r; reflexivity|]);
    (split; [cbn; lia|]); split; [constructor|reflexivity].
  pose (ev := if existsb (fun code => startswith (d :: p) code) latam_codes
              then None else Some event_id).
  assert (Hsend : (if existsb (fun code => startswith (d :: p) code)
                        latam_codes
                   then send_sms_with_eum cfg (d :: p) text None
                   else send_sms_with_eum cfg (d :: p) text (Some event_id))
                  = send_sms_with_eum cfg (d :: p) text ev).
  { subst ev. destruct (existsb _ _); reflexivity. }
  rewrite Hsend. clear Hsend.
  destruct (send_sms_outcome cfg w s (d :: p) text ev)
    as (r & s1 & st & E & Hst & H).
  unfold bind at 1. rewrite E. unfold bind at 1. unfold index.
  rewrite !dict_get_set_ne, Hst by discriminate.
  cbn [ret].
  assert (Hentry : forall r',
            r' = dict_set "priority" (JInt (default 99 (ct_priority c)))
                   (dict_set "relationship"
                      (JStr (default (u "contact") (ct_relationship c)))
                      (dict_set "contactName"
                         (JStr (default (u "Unknown") (ct_name c))) r)) ->
            (st = u "sent" \/ st = u "failed") ->
            dict_get "contactName" r'
            = Some (JStr (default (u "Unknown") (ct_name c)))
            /\ (dict_get "status" r' = Some (JStr (u "sent"))
                \/ dict_get "status" r' = Some (JStr (u "failed")))
            /\ (true = false ->
                dict_get "status" r' = Some (JStr (u "failed"))
                /\ dict_get "error" r'
                   = Some (JStr (u "No phone number provided")))).
  { intros r' -> Hs. split; [|split].
    - rewrite !dict_get_set_ne by discriminate. apply dict_get_set_eq.
    - rewrite !dict_get_set_ne, Hst by discriminate.
      destruct Hs as [-> | ->]; tauto.
    - discriminate. }
  assert (Hcalls : exists new,
             provider_calls s1 = provider_calls s ++ new
             /\ (length new <= 1)%nat
             /\ Forall (plain_for_latam text) new
             /\ (DEMO_MODE cfg = true -> new = [])
             /\ (st = u "sent" \/ st = u "failed")).
  { destruct H as [(-> & Hc & _)|[(-> & Hc & Hd & _)|H]].
    - exists []. rewrite app_nil_r. repeat split; auto.
    - exists []. rewrite app_nil_r. repeat split; auto.
    - destruct H as (v & t & attrs & _ & Hd & Hc & Hl & H).
      exists [ESnsPublish v t attrs]. split; [exact Hc|].
      split; [cbn; lia|]. split; [|split; [congruence|]].
      + constructor; [|constructor]. exists v, t, attrs. auto.
      + destruct (w_send w (st_sends s)); [tauto|].
        destruct (dict_get "MessageId" _); tauto. }
  destruct Hcalls as (new & Hc & Hl & Hf & Hd & Hs).
  destruct (str_eqb st (u "sent")).
  - unfold bind, ret. eexists _, _, new. split; [reflexivity|].
    split; [apply Hentry; [reflexivity|exact Hs]|]. auto.
  - destruct s1 as [n1 n2 n3 n4 evs inc locs]. run.
    eexists _, _, new. split; [reflexivity|].
    split; [apply Hentry; [reflexivity|exact Hs]|].
    split; [|auto].
    unfold provider_calls in *. cbn in *. rewrite List.filter_app, Hc.
    cbn. apply app_nil_r.
Qed.

Lemma dispatch_contacts_outcome (text event_id : ustring)
    (cs : list contact) :
  forall (w : world) (s : state),
  exists rs s' new,
    dispatch_contacts cfg text event_id cs w s = (Ok rs, s')
    /\ Forall2 entry_of cs rs
    /\ provider_calls s' = provider_calls s ++ new
    /\ (length new <= length (List.filter has_phone cs))%nat
    /\ Forall (plain_for_latam text) new
    /\ (DEMO_MODE cfg = true -> new = []).
Proof.
  induction cs as [|c cs IH]; intros w s.
  - exists [], s, []. rewrite app_nil_r. repeat split; auto.
  - cbn [dispatch_contacts].
    destruct (dispatch_contact_outcome w s text event_id c)
      as (r & s1 & new1 & E1 & He & Hc1 & Hl1 & Hf1 & Hd1).
    destruct (IH w s1) as (rs & s2 & new2 & E2 & Hes & Hc2 & Hl2 & Hf2 & Hd2).
    unfold bind at 1. rewrite E1. unfold bind at 1. rewrite E2.
    exists (r :: rs), s2, (new1 ++ new2). split; [reflexivity|].
    split; [constructor; assumption|].
    split; [rewrite Hc2, Hc1, app_assoc; reflexivity|].
    split; [|split].
    + rewrite length_app. cbn [List.filter].
      destruct (has_phone c); cbn [length]; lia.
    + apply Forall_app. split; assumption.
    + intros Hd. rewrite Hd1, Hd2 by exact Hd. reflexivity.
Qed.

(** [int(x)] returns the truncated value of a float that has one and
    raises otherwise, without any other effect. *)
Lemma int_of_float_cases (x : float) (w : world) (s : state) :
  (has_integer x = true /\ exists z, int_of_float x w s = (Ok z, s))
  \/ (has_integer x = false
      /\ exists e, int_of_float x w s = (Raise e, s)
                   /\ (e = NaNValueError \/ e = InfinityOverflowError)).
Proof.
  unfold has_integer, int_of_float.
  destruct (Prim2SF x); [left|right|right|left];
    (split; [reflexivity|]); eauto.
Qed.

(** The product is rounded before it is truncated: a confidence of 0.29
    gives 28 per cent, and 0.87 gives 87. *)
Example confidence_percent_rounding (w : world) (s : state) :
  int_of_float (29 / 100 * 100)%float w s = (Ok 28, s)
  /\ int_of_float (87 / 100 * 100)%float w s = (Ok 87, s).
Proof. split; vm_compute; reflexivity. Qed.

(** X16.  With at least one opted-in contact the dispatcher first takes
    the integer part of a hundred times the confidence of the distress
    result.  When that product is NaN or infinite the conversion raises a
    [ValueError] or an [OverflowError], and the dispatcher raises it to
    its caller before any provider is asked.  Otherwise the dispatcher
    answers with one entry per opted-in contact, in their order: the
    entry names the contact and its status is [sent] or [failed]; a
    contact without a phone number fails with the error [No phone number
    provided] and costs no provider call.  The provider is asked at most
    once per opted-in contact with a phone number and not at all in demo
    mode, and a call for a Latin American number carries the composed
    text as it is, without tracking link or sender id.  Without any
    opted-in contact the confidence is not read: the answer is a single
    [error] entry and the provider is not asked. *)
Theorem dispatch_emergency_sms_universal_outcome (w : world) (s : state)
    (profile : user_profile) (loc : location_data)
    (distress : distress_result) (event_id : ustring) :
  let x := (dr_confidence distress * 100)%float in
  (opted_in profile = [] ->
   exists s',
     dispatch_emergency_sms_universal cfg profile loc distress event_id w s
     = (Ok [[("status", JStr (u "error"));
             ("message", JStr (u "No opted-in contacts"))]], s')
     /\ provider_calls s' = provider_calls s)
  /\ (opted_in profile <> [] -> has_integer x = true ->
      exists results s' new,
        dispatch_emergency_sms_universal cfg profile loc distress event_id
          w s
        = (Ok results, s')
        /\ provider_calls s' = provider_calls s ++ new
        /\ (length new
            <= length (List.filter has_phone (opted_in profile)))%nat
        /\ Forall (plain_for_latam (universal_text profile loc event_id))
             new
        /\ (DEMO_MODE cfg = true -> new = [])
        /\ Forall2 entry_of (opted_in profile) results)
  /\ (opted_in profile <> [] -> has_integer x = false ->
      exists e,
        dispatch_emergency_sms_universal cfg profile loc distress event_id
          w s
        = (Raise e, s)
        /\ (e = NaNValueError \/ e = InfinityOverflowError)).
Proof.
  intros x. unfold dispatch_emergency_sms_universal.
  fold (opted_in profile). fold x.
  destruct (opted_in profile) as [|c cs] eqn:Ho.
  - split; [|split; intros H; contradiction].
    intros _. destruct s as [n1 n2 n3 n4 evs inc locs]. run.
    eexists. split; [reflexivity|].
    unfold provider_calls; cbn; rewrite List.filter_app; cbn;
      rewrite !app_nil_r; reflexivity.
  - split; [discriminate|].
    destruct (int_of_float_cases x w s)
      as [(Hi & z & Ez)|(Hi & e & Ee & He)];
      (split; intros _ Hx; try congruence).
    + destruct (dispatch_contacts_outcome
                  (universal_text profile loc event_id) event_id
                  (c :: cs) w s)
        as (rs & s' & new & E & Hent & Hc & Hl & Hf & Hd).
      exists rs, s', new. unfold bind at 1. rewrite Ez.
      split; [exact E|]. repeat split; auto.
    + exists e. unfold bind at 1. rewrite Ee. split; [reflexivity|exact He].
Qed.

(** X17.  The alert handler of the universal variant answers HTTP 200 with
    status [success] in every run: the outcome of the text message is only
    reported inside [smsResult].  In particular, outside demo mode, when
    the provider raises or the phone number is not valid, [smsResult] says
    [failed] under a [success] answer. *)
Theorem universal_alert_always_success (w : world) (s : state) (b : body) :
  exists resp s' sms st,
    handle_jury_emergency_alert cfg b w s = (Ok resp, s')
    /\ statusCode resp = 200
    /\ status_of resp = Some (JStr (u "success"))
    /\ dict_get "message" (resp_body resp)
       = Some (JStr (u "Emergency alert sent"))
    /\ dict_get "smsResult" (resp_body resp) = Some (JDict sms)
    /\ dict_get "status" sms = Some (JStr st)
    /\ (st = u "sent" \/ st = u "failed")
    /\ (length (provider_calls s') <= S (length (provider_calls s)))%nat
    /\ (DEMO_MODE cfg = false -> w_send w (st_sends s) <> None ->
        st = u "failed")
    /\ (forall err,
          validate_phone_number (default (u "+13053033060") (b_phoneNumber b))
          = (None, Some err) ->
          st = u "failed" /\ provider_calls s' = provider_calls s).
Proof.
  destruct s as [n1 n2 n3 n4 evs inc locs].
  unfold handle_jury_emergency_alert.
  set (danger := if str_eqb _ (u "emergency_words") then _ else _).
  assert (Hdanger : forall s0, exists text, danger w s0 = (Ok text, s0)).
  { intros s0. subst danger.
    destruct (str_eqb _ (u "emergency_words")); [eexists; reflexivity|].
    destruct (str_eqb _ (u "abrupt_noise")); [|eexists; reflexivity].
    destruct (dd_volume _); eexists; reflexivity. }
  unfold try_except at 1. unfold bind at 1. unfold uuid4_hex at 1.
  cbn [st_sends st_stores st_ticks st_uuids st_events st_incidents
       st_locations].
  set (s1 := State _ _ _ _ _ _ _).
  unfold bind at 1. destruct (Hdanger s1) as [text ->].
  unfold bind at 1. unfold now at 1. subst s1.
  cbn [st_sends st_stores st_ticks st_uuids st_events st_incidents
       st_locations].
  set (s2 := State _ _ _ _ _ _ _).
  unfold bind at 1.
  match goal with
  | |- context [send_sms_with_eum cfg ?ph ?m ?ev w s2] =>
      destruct (send_sms_outcome cfg w s2 ph m ev)
        as (r & s3 & st & -> & Hst & H)
  end.
  unfold bind, now, ret.
  eexists _, _, r, st. split; [reflexivity|].
  split; [reflexivity|]. split; [reflexivity|]. split; [reflexivity|].
  split; [reflexivity|]. split; [exact Hst|].
  unfold provider_calls in *. subst s2. cbn [st_events st_sends] in *.
  destruct H as [(-> & Hc & err & Hv & _)|[(-> & Hc & Hd & v & Hv)|H]].
  - split; [tauto|]. split; [rewrite Hc; lia|]. split; [reflexivity|].
    intros _ _. split; [reflexivity|exact Hc].
  - split; [tauto|]. split; [rewrite Hc; lia|]. split; [congruence|].
    intros err He. congruence.
  - destruct H as (v & t & attrs & Hv & Hd & Hc & _ & H).
    rewrite Hc, length_app. cbn [length].
    destruct (w_send w n1) as [e|].
    + destruct H as (-> & _). split; [tauto|]. split; [lia|].
      split; [reflexivity|]. intros err He. congruence.
    + assert (Hs : st = u "sent" \/ st = u "failed").
      { destruct (dict_get "MessageId" _); tauto. }
      split; [exact Hs|]. split; [lia|]. split; [congruence|].
      intros err He. congruence.
Qed.

End dispatcher.

Lemma dispatch_emergency_sms_universal_witness :
  (exists results s',
     UniversalSms.dispatch_emergency_sms_universal default_config family
       bogota distressed (u "0123456789abcdef") sample_world empty_state
     = (Ok results, s')
     /\ length results = 2%nat
     /\ provider_calls s' =
          [ESnsPublish (u "+573001234567")
             (u "AllSensesAI Alert: Ana at Bogota. Status update required. Ref: 01234567")
             [("AWS.SNS.SMS.SMSType", u "Transactional")]])
  /\ UniversalSms.dispatch_emergency_sms_universal default_config family
       bogota unmeasured (u "0123456789abcdef") sample_world empty_state
     = (Raise NaNValueError, empty_state).
Proof.
  split.
  - destruct (dispatch_emergency_sms_universal_outcome default_config
                sample_world empty_state family bogota distressed
                (u "0123456789abcdef"))
      as (_ & H & _).
    destruct H as (results & s' & new & E & Hc & _ & _ & _ & He);
      [discriminate|reflexivity|].
    exists results, s'. split; [exact E|].
    apply Forall2_length in He.
    split; [rewrite <- He; reflexivity|].
    clear -E. apply (f_equal snd) in E. cbn [snd] in E. subst s'.
    vm_compute. reflexivity.
  - destruct (dispatch_emergency_sms_universal_outcome default_config
                sample_world empty_state family bogota unmeasured
                (u "0123456789abcdef"))
      as (_ & _ & H).
    destruct H as (e & E & He); [discriminate|reflexivity|].
    rewrite E. clear He. revert E. vm_compute. intros [= <-]. reflexivity.
Defined.

Lemma universal_alert_always_success_witness :
  exists resp s' sms,
    UniversalSms.handle_jury_emergency_alert default_config alert_to_nobody
      provider_down empty_state = (Ok resp, s')
    /\ status_of resp = Some (JStr (u "success"))
    /\ dict_get "smsResult" (resp_body resp) = Some (JDict sms)
    /\ dict_get "status" sms = Some (JStr (u "failed"))
    /\ provider_calls s' = [].
Proof.
  destruct (universal_alert_always_success default_config provider_down
              empty_state alert_to_nobody)
    as (resp & s' & sms & st & E & _ & H1 & _ & H2 & H3 & _ & _ & _ & H4).
  destruct (H4 _ eq_refl) as [-> Hc].
  exists resp, s', sms. repeat split; assumption.
Defined.
(* ================================================================== *)
(** * The dispatcher of the jury demo *)
(* ================================================================== *)

Section jury_dispatch.
Import Improved.




End jury_dispatch.

(* ================================================================== *)
(** * Display format of phone numbers *)
(* ================================================================== *)

Lemma remove_char_app (c : N) (a b : ustring) :
  remove_char c (a ++ b) = remove_char c a ++ remove_char c b.
Proof. apply List.filter_app. Qed.

Lemma remove_char_digits (c : N) (s : ustring) :
  is_ascii_digit c = false -> forallb is_ascii_digit s = true ->
  remove_char c s = s.
Proof.
  intros Hc Hs. apply remove_char_id. rewrite forallb_forall in *.
  intros x Hx. specialize (Hs x Hx).
  destruct (N.eqb_spec x c) as [->|]; [congruence|reflexivity].
Qed.

Lemma no_space_end (s : ustring) :
  forallb (fun c => negb (isspace c)) s = true -> ends_with_space s = false.
Proof.
  unfold ends_with_space. intros H.
  destruct (last s) as [c|] eqn:E; [|reflexivity].
  apply last_Some in E as [l ->]. rewrite forallb_app in H.
  apply andb_true_iff in H as [_ H]. cbn [forallb] in H.
  rewrite andb_true_r in H. apply negb_true_iff in H. exact H.
Qed.

(** A number written with dashes: a plus sign, then digits and dashes. *)
Lemma dashed_clean (p f : ustring) :
  plus_digits p = true ->
  remove_char ch_dash f = p ->
  forallb (fun c => is_ascii_digit c || (c =? ch_plus)%N || (c =? ch_dash)%N)
    f = true ->
  startswith f (u "+") = true ->
  remove_char ch_dash (remove_char ch_space (strip f)) = p.
Proof.
  intros Hp Hr Hf Hs.
  assert (Hns : forallb (fun c => negb (isspace c)) f = true).
  { rewrite forallb_forall in *. intros x Hx. specialize (Hf x Hx).
    apply negb_true_iff. bool_arith. }
  apply startswith_app in Hs as [rest E].
  change (u "+" ++ rest) with (ch_plus :: rest) in E.
  rewrite E in *. rewrite strip_id; [|reflexivity|apply no_space_end, Hns].
  rewrite (remove_char_id ch_space); [exact Hr|].
  rewrite forallb_forall in *. intros x Hx. specialize (Hns x Hx).
  apply negb_true_iff, N.eqb_neq. intros ->. discriminate.
Qed.

Section format.
Import LatamInternational.

Ltac digits :=
  repeat match goal with
         | |- forallb is_ascii_digit (take _ _) = true =>
             apply forallb_take_drop
         | |- forallb is_ascii_digit (drop _ _) = true =>
             apply forallb_take_drop
         | |- _ => assumption || reflexivity
         end.

Ltac allowed :=
  rewrite ?forallb_app; cbn [forallb];
  repeat (apply andb_true_iff; split);
  try reflexivity;
  match goal with
  | H : forallb is_ascii_digit ?r = true |- _ =>
      try (apply forallb_forall; intros x Hx;
           assert (Hd : is_ascii_digit x = true)
             by (revert x Hx; apply forallb_forall; digits);
           rewrite Hd; reflexivity)
  end.

Lemma format_phone_number_dashed (p : ustring) :
  plus_digits p = true ->
  remove_char ch_dash (format_phone_number p) = p
  /\ forallb (fun c => is_ascii_digit c || (c =? ch_plus)%N
                       || (c =? ch_dash)%N)
       (format_phone_number p) = true
  /\ startswith (format_phone_number p) (u "+") = true.
Proof.
  intros Hp. pose proof Hp as Hp'.
  apply plus_digits_inv in Hp' as (ds & -> & Hd).
  assert (Hself : remove_char ch_dash (ch_plus :: ds) = ch_plus :: ds
                  /\ forallb (fun c => is_ascii_digit c || (c =? ch_plus)%N
                                       || (c =? ch_dash)%N)
                       (ch_plus :: ds) = true
                  /\ startswith (ch_plus :: ds) (u "+") = true).
  { split; [|split; [|reflexivity]].
    - change (remove_char ch_dash (ch_plus :: ds))
        with (ch_plus :: remove_char ch_dash ds).
      rewrite remove_char_digits; [reflexivity|reflexivity|exact Hd].
    - cbn [forallb]. apply andb_true_iff. split; [reflexivity|].
      rewrite forallb_forall in *. intros x Hx. rewrite (Hd x Hx).
      reflexivity. }
  assert (Hphone : remove_char ch_dash
                     (remove_char ch_space
                        (remove_char ch_plus (ch_plus :: ds))) = ds).
  { change (remove_char ch_plus (ch_plus :: ds))
      with (remove_char ch_plus ds).
    rewrite (remove_char_digits ch_plus), (remove_char_digits ch_space)
      by (reflexivity || exact Hd).
    apply remove_char_digits; [reflexivity|exact Hd]. }
  unfold format_phone_number. rewrite Hphone. unfold slice.
  destruct (startswith ds (u "1")) eqn:E1.
  { apply startswith_app in E1 as [r ->].
    change (u "1" ++ r) with (49%N :: r) in *.
    cbn [forallb] in Hd. apply andb_true_iff in Hd as [_ Hr].
    cbn [drop Nat.sub].
    split; [|split; [allowed|reflexivity]].
    rewrite !remove_char_app.
    change (remove_char ch_dash (u "+1-")) with (u "+1").
    change (remove_char ch_dash (u "-")) with (@nil N).
    rewrite !(remove_char_digits ch_dash) by digits.
    cbn [app].
    replace (drop 6 r) with (drop 3 (drop 3 r))
      by (rewrite drop_drop; reflexivity).
    rewrite !take_drop. reflexivity. }
  destruct (startswith ds (u "57")) eqn:E2.
  { apply startswith_app in E2 as [r ->].
    change (u "57" ++ r) with (53%N :: 55%N :: r) in *.
    cbn [forallb] in Hd. apply andb_true_iff in Hd as [_ Hr].
    apply andb_true_iff in Hr as [_ Hr].
    cbn [drop Nat.sub].
    split; [|split; [allowed|reflexivity]].
    rewrite !remove_char_app.
    change (remove_char ch_dash (u "+57-")) with (u "+57").
    change (remove_char ch_dash (u "-")) with (@nil N).
    rewrite !(remove_char_digits ch_dash) by digits.
    cbn [app]. rewrite !take_drop. reflexivity. }
  destruct (startswith ds (u "56")) eqn:E3.
  { apply startswith_app in E3 as [r ->].
    change (u "56" ++ r) with (53%N :: 54%N :: r) in *.
    cbn [forallb] in Hd. apply andb_true_iff in Hd as [_ Hr].
    apply andb_true_iff in Hr as [_ Hr].
    cbn [drop Nat.sub].
    split; [|split; [allowed|reflexivity]].
    rewrite !remove_char_app.
    change (remove_char ch_dash (u "+56-")) with (u "+56").
    change (remove_char ch_dash (u "-")) with (@nil N).
    rewrite !(remove_char_digits ch_dash) by digits.
    cbn [app]. rewrite !take_drop. reflexivity. }
  destruct (startswith ds (u "58")) eqn:E4.
  { apply startswith_app in E4 as [r ->].
    change (u "58" ++ r) with (53%N :: 56%N :: r) in *.
    cbn [forallb] in Hd. apply andb_true_iff in Hd as [_ Hr].
    apply andb_true_iff in Hr as [_ Hr].
    cbn [drop Nat.sub].
    split; [|split; [allowed|reflexivity]].
    rewrite !remove_char_app.
    change (remove_char ch_dash (u "+58-")) with (u "+58").
    change (remove_char ch_dash (u "-")) with (@nil N).
    rewrite !(remove_char_digits ch_dash) by digits.
    cbn [app]. rewrite !take_drop. reflexivity. }
  destruct (startswith ds (u "52")) eqn:E5.
  { apply startswith_app in E5 as [r ->].
    change (u "52" ++ r) with (53%N :: 50%N :: r) in *.
    cbn [forallb] in Hd. apply andb_true_iff in Hd as [_ Hr].
    apply andb_true_iff in Hr as [_ Hr].
    cbn [drop Nat.sub].
    split; [|split; [allowed|reflexivity]].
    rewrite !remove_char_app.
    change (remove_char ch_dash (u "+52-")) with (u "+52").
    change (remove_char ch_dash (u "-")) with (@nil N).
    rewrite !(remove_char_digits ch_dash) by digits.
    cbn [app]. rewrite !take_drop. reflexivity. }
  exact Hself.
Qed.

(** X19.  The display format only inserts dashes.  For a plus sign followed by
    digits, removing the dashes from the formatted number gives the number
    back, and the formatted number is detected as the same country as the
    number itself. *)
Theorem format_phone_number_round_trip (p : ustring) :
  plus_digits p = true ->
  remove_char ch_dash (format_phone_number p) = p
  /\ detect_country (format_phone_number p) = detect_country p.
Proof.
  intros Hp.
  destruct (format_phone_number_dashed p Hp) as (Hr & Hf & Hs).
  split; [exact Hr|].
  unfold detect_country, detect_country_in.
  rewrite (dashed_clean p (format_phone_number p) Hp Hr Hf Hs).
  rewrite (latam_clean_plus_digits p Hp). reflexivity.
Qed.

Lemma format_phone_number_round_trip_witness :
  format_phone_number (u "+573001234567") = u "+57-300-1234567"
  /\ remove_char ch_dash (format_phone_number (u "+573001234567"))
     = u "+573001234567"
  /\ detect_country (format_phone_number (u "+573001234567"))
     = detect_country (u "+573001234567").
Proof.
  split; [reflexivity|].
  apply (format_phone_number_round_trip (u "+573001234567")). reflexivity.
Defined.

End format.

(* ================================================================== *)
(** * The short template of the complete pipeline *)
(* ================================================================== *)

Section shortening.
Import CompleteLambda.

Lemma len_cons (c : N) (s : ustring) : len (c :: s) = 1 + len s.
Proof. unfold len. cbn [length]. lia. Qed.

(** X20.  Falling back to the short template always shortens the text: for the
    same victim, coordinates, link and time the short rendering is shorter
    than the primary one by 53 characters plus the lengths of the place
    name and of the confidence figure.  Hence the text that is sent is
    never longer than the primary rendering. *)
Theorem short_template_shorter (victim place lat lon link time : ustring)
    (pct : Z) :
  let primary := primary_template victim place lat lon link time pct in
  let short := short_template victim lat lon link time in
  len primary = len short + 53 + len place + len (str_of_Z pct)
  /\ len (sms_text victim place lat lon link time pct) <= len primary.
Proof.
  intros primary short.
  assert (H : len primary
              = len short + 53 + len place + len (str_of_Z pct)).
  { subst primary short. unfold primary_template, short_template.
    repeat rewrite ?len_app, ?len_cons.
    change (len []) with 0.
    change (len (u "[AllSenseAI] Emergency alert for ")) with 33.
    change (len (u ". Possible danger detected at ")) with 30.
    change (len (u " (")) with 2. change (len (u ",")) with 1.
    change (len (u ") ")) with 2. change (len (u " ")) with 1.
    change (len (u " Time: ")) with 7.
    change (len (u ". Confidence: ")) with 14.
    change (len (u "%. Please reply OK if you received this.")) with 40.
    change (len (u ". Location: ")) with 12.
    change (len (u ". Reply OK to confirm.")) with 22.
    lia. }
  split; [exact H|].
  unfold sms_text. fold primary. fold short.
  destruct (160 <? len primary); [|lia].
  pose proof (len_nonneg place). pose proof (len_nonneg (str_of_Z pct)).
  lia.
Qed.

End shortening.
